(** * Spoolman: change notification and the query layer

    A shallow embedding of the printer and cost-calculation modules of
    Spoolman (spoolman/api/v1/{printer,cost}.py and
    spoolman/database/{printer,cost}.py) together with the properties the
    specification states about them.

    Conventions of the embedding
    - Python exceptions are values of [Py.exn]; a coroutine is a function
      from the state of the process to a [Py.result] and the next state.
    - A websocket is identified by a natural number (object identity).
    - Text is ASCII text ([string]); [float] columns hold finite values and
      are represented by the rational they denote.
    - A Python [int] is an integer of any size ([Z]).  The database is
      SQLite: an integer bound as a parameter of a statement has to fit 64
      bits (the driver raises [OverflowError] otherwise), a negative LIMIT
      is no limit and a negative OFFSET is 0. *)

From Stdlib Require Import ZArith QArith Ascii String.
From stdpp Require Import gmap strings list sorting.

Local Open Scope Z_scope.

(** ** Python values, exceptions and results *)

Module Py.

(** The exception classes that occur in the embedded code.
    [CancelledError] derives from [BaseException] only.  [OverflowError] is
    what the database driver raises for an integer that does not fit a
    64-bit column; [NoResultFound] and [InvalidRequestError] are those of
    [sqlalchemy.exc]. *)
Inductive exn : Type :=
| ItemNotFoundError (msg : string)
| TypeError (msg : string)
| ValueError (msg : string)
| KeyError (key : string)
| RuntimeError (msg : string)
| WebSocketDisconnect (code : Z)
| CancelledError
| OverflowError (msg : string)
| NoResultFound
| InvalidRequestError (msg : string).

(** [isinstance(e, Exception)] *)
Definition is_Exception (e : exn) : bool :=
  match e with
  | CancelledError => false
  | _ => true
  end.

Definition is_ItemNotFoundError (e : exn) : bool :=
  match e with
  | ItemNotFoundError _ => true
  | _ => false
  end.

Definition is_WebSocketDisconnect (e : exn) : bool :=
  match e with
  | WebSocketDisconnect _ => true
  | _ => false
  end.

Definition is_NoResultFound (e : exn) : bool :=
  match e with
  | NoResultFound => true
  | _ => false
  end.

Inductive result (A : Type) : Type :=
| Ok (a : A)
| Raise (e : exn).
Arguments Ok {A} a.
Arguments Raise {A} e.

(** [str.split(sep)] for a one-character separator: never empty. *)
Fixpoint split (sep : ascii) (s : string) : list string :=
  match s with
  | EmptyString => [EmptyString]
  | String c s' =>
      if Ascii.eqb c sep then EmptyString :: split sep s'
      else match split sep s' with
           | [] => [String c EmptyString]
           | w :: ws => String c w :: ws
           end
  end.

Definition upper_ascii (c : ascii) : ascii :=
  let n := nat_of_ascii c in
  if ((97 <=? n)%nat && (n <=? 122)%nat)%bool then ascii_of_nat (n - 32) else c.

Definition lower_ascii (c : ascii) : ascii :=
  let n := nat_of_ascii c in
  if ((65 <=? n)%nat && (n <=? 90)%nat)%bool then ascii_of_nat (n + 32) else c.

Fixpoint map_string (f : ascii → ascii) (s : string) : string :=
  match s with
  | EmptyString => EmptyString
  | String c s' => String (f c) (map_string f s')
  end.

(** [str.upper()] and [str.lower()] *)
Definition upper : string → string := map_string upper_ascii.
Definition lower : string → string := map_string lower_ascii.

(** [pre in s]: [pre] is a prefix of [s]. *)
Fixpoint startswith (s pre : string) : bool :=
  match pre, s with
  | EmptyString, _ => true
  | String a pre', String b s' => Ascii.eqb a b && startswith s' pre'
  | String _ _, EmptyString => false
  end.

(** [sub in s] *)
Fixpoint contains (s sub : string) : bool :=
  startswith s sub ||
  match s with
  | EmptyString => false
  | String _ s' => contains s' sub
  end.

Definition digit_of (c : ascii) : option Z :=
  let n := nat_of_ascii c in
  if ((48 <=? n)%nat && (n <=? 57)%nat)%bool then Some (Z.of_nat (n - 48)) else None.

Fixpoint digits (acc : Z) (s : string) : option Z :=
  match s with
  | EmptyString => Some acc
  | String c s' =>
      match digit_of c with
      | Some d => digits (10 * acc + d) s'
      | None => None
      end
  end.

(** [int(s)] on the texts [-?[0-9]+] that a query parameter with the
    pattern [^-?\d+(,-?\d+)*$] is made of; [ValueError] otherwise. *)
Definition int (s : string) : result Z :=
  match s with
  | EmptyString => Raise (ValueError s)
  | String "-"%char EmptyString => Raise (ValueError s)
  | String "-"%char s' =>
      match digits 0 s' with
      | Some n => Ok (- n)
      | None => Raise (ValueError s)
      end
  | _ =>
      match digits 0 s with
      | Some n => Ok n
      | None => Raise (ValueError s)
      end
  end.

Fixpoint str_pos (fuel : nat) (n : Z) (acc : string) : string :=
  match fuel with
  | O => acc
  | S fuel' =>
      let acc' := String (ascii_of_nat (48 + Z.to_nat (n mod 10))) acc in
      if (n <? 10)%Z then acc' else str_pos fuel' (n / 10) acc'
  end.

(** [str(n)] for an integer. *)
Definition str (n : Z) : string :=
  if (n <? 0)%Z then String "-"%char (str_pos (S (Z.to_nat (Z.log2 (- n)))) (- n) EmptyString)
  else str_pos (S (Z.to_nat (Z.log2 n))) n EmptyString.

(** [d[k] = v] on a [dict]: a key that is present keeps its place. *)
Fixpoint dict_set {V} (k : string) (v : V) (d : list (string * V)) : list (string * V) :=
  match d with
  | [] => [(k, v)]
  | (k', v') :: d' =>
      if decide (k = k') then (k, v) :: d' else (k', v') :: dict_set k v d'
  end.

(** The values passed as keyword arguments. *)
Inductive value : Type :=
| VNone
| VInt (z : Z)
| VFloat (q : Q)
| VStr (s : string)
| VSession.

Definition of_int (o : option Z) : value := match o with Some z => VInt z | None => VNone end.
Definition of_float (o : option Q) : value := match o with Some q => VFloat q | None => VNone end.
Definition of_str (o : option string) : value := match o with Some s => VStr s | None => VNone end.

Definition kwarg (name : string) (kwargs : list (string * value)) : option value :=
  snd <$> List.find (λ kv, bool_decide (kv.1 = name)) kwargs.
Definition kw_int (name : string) (kwargs : list (string * value)) : option Z :=
  match kwarg name kwargs with Some (VInt z) => Some z | _ => None end.
Definition kw_float (name : string) (kwargs : list (string * value)) : option Q :=
  match kwarg name kwargs with Some (VFloat q) => Some q | _ => None end.
Definition kw_str (name : string) (kwargs : list (string * value)) : option string :=
  match kwarg name kwargs with Some (VStr s) => Some s | _ => None end.

(** The first keyword of a call that the callee does not declare. *)
Definition unexpected (declared : list string) (kwargs : list (string * value)) : option string :=
  fst <$> List.find (λ kv, bool_decide (kv.1 ∉ declared)) kwargs.

(** The first parameter without a default that the call does not pass. *)
Definition missing (required : list string) (kwargs : list (string * value)) : option string :=
  List.find (λ name, bool_decide (name ∉ kwargs.*1)) required.

(** Binding the keywords of a call [f(k1=v1, ...)] to a function whose
    parameters are keyword-only and that has no [**kwargs]. *)
Definition bind_keywords (fname : string) (declared required : list string)
    (kwargs : list (string * value)) : result unit :=
  match unexpected declared kwargs with
  | Some k =>
      Raise (TypeError (String.append fname (String.append
               "() got an unexpected keyword argument '" (String.append k "'"))))
  | None =>
      match missing required kwargs with
      | Some k =>
          Raise (TypeError (String.append fname (String.append
                   "() missing 1 required keyword-only argument: '" (String.append k "'"))))
      | None => Ok tt
      end
  end.

End Py.

(** ** The topic registry *)

Module websocket_manager.

(** A topic is the tuple of path segments a websocket listens on. *)
Definition Topic : Type := list string.

Section registry.
Context {Event : Type}.

(** Modelled from the spec: spoolman/ws.py ([websocket_manager]) is not
    among the sources.  The registry is the map from a topic to the set of
    websockets subscribed to it. *)
Definition subscribers (reg : gmap (list string) (gset nat)) (t : Topic) : gset nat :=
  default ∅ (reg !! t).

(** Modelled from the spec: [subscribe(topic, connection)] registers the
    connection under the topic; many connections may share a topic. *)
Definition connect (t : Topic) (ws : nat) (reg : gmap (list string) (gset nat))
  : gmap (list string) (gset nat) :=
  <[t := {[ws]} ∪ subscribers reg t]> reg.

(** Modelled from the spec: [unsubscribe(topic, connection)] removes the
    exact pair and is a no-op when the pair is not registered. *)
Definition disconnect (t : Topic) (ws : nat) (reg : gmap (list string) (gset nat))
  : gmap (list string) (gset nat) :=
  alter (λ s, s ∖ {[ws]}) t reg.

(** Modelled from the spec: the topic itself and its ancestors, that is
    every prefix of [t]. *)
Fixpoint prefixes (t : Topic) : list Topic :=
  match t with
  | [] => [[]]
  | seg :: t' => [] :: (cons seg <$> prefixes t')
  end.

(** Modelled from the spec: the websockets that an event published under
    [t] is written to. *)
Definition targets (t : Topic) (reg : gmap (list string) (gset nat)) : gset nat :=
  ⋃ (subscribers reg <$> prefixes t).

(** Modelled from the spec: a websocket whose write failed is removed from
    the entries it was found under. *)
Definition drop_failed (broken : gset nat) (t : Topic) (reg : gmap (list string) (gset nat))
  : gmap (list string) (gset nat) :=
  foldr (λ p r, alter (λ s, s ∖ broken) p r) reg (prefixes t).

(** Modelled from the spec: [publish(topic, event)] writes the event to
    every websocket subscribed to the topic or to an ancestor of it.  A
    write to a websocket of [broken] fails; the failure is isolated and the
    websocket is removed from the registry.  The result lists the frames
    written, as (websocket, event) pairs. *)
Definition publish (broken : gset nat) (t : Topic) (evt : Event)
    (reg : gmap (list string) (gset nat))
  : gmap (list string) (gset nat) * list (nat * Event) :=
  (drop_failed broken t reg,
   (λ ws, (ws, evt)) <$> elements (targets t reg ∖ broken)).

(** A websocket is registered when some topic entry holds it. *)
Definition registered (ws : nat) (reg : gmap (list string) (gset nat)) : Prop :=
  ∃ t, ws ∈ subscribers reg t.
End registry.

End websocket_manager.

(** ** Connection sessions *)

Module Session.
Import Py websocket_manager.

(** What one turn of the heartbeat loop meets at its three awaits:
    [asyncio.sleep], [websocket.receive_text] and, for a non-empty text,
    [websocket.send_json]. *)
Inductive turn : Type :=
| SleepRaises (e : exn)
| ReceiveRaises (e : exn)
| ReceiveText (text : string) (send_json : option exn).

(** [while True: ...]: the exception that ends the loop, or [None] while
    the peer has more turns to come. *)
Fixpoint heartbeat (turns : list turn) : option exn :=
  match turns with
  | [] => None
  | SleepRaises e :: _ => Some e
  | ReceiveRaises e :: _ => Some e
  | ReceiveText text send_json :: rest =>
      if decide (text = EmptyString) then heartbeat rest
      else match send_json with
           | Some e => Some e
           | None => heartbeat rest
           end
  end.

Inductive outcome : Type :=
| Serving
| Returned
| Propagated (e : exn).

(** The body shared by the four websocket handlers:
<<
    await websocket.accept()
    websocket_manager.connect(topic, websocket)
    try:
        while True: ...
    except WebSocketDisconnect:
        websocket_manager.disconnect(topic, websocket)
>> *)
Definition serve (topic : Topic) (websocket : nat) (accept : option exn)
    (turns : list turn) (reg : gmap (list string) (gset nat))
  : outcome * gmap (list string) (gset nat) :=
  match accept with
  | Some e => (Propagated e, reg)
  | None =>
      let reg := connect topic websocket reg in
      match heartbeat turns with
      | None => (Serving, reg)
      | Some e =>
          if is_WebSocketDisconnect e
          then (Returned, disconnect topic websocket reg)
          else (Propagated e, reg)
      end
  end.

(** The session is over: the handler returned or an exception left it. *)
Definition terminated (o : outcome) : Prop := o ≠ Serving.

End Session.

(** ** Database rows and API models *)

Module models.

(** Table [printer] of migration 1b23c4567abc. *)
Module Printer.
Record t : Type := Build {
  id : Z;
  registered : Z;
  name : string;
  power_watts : option Q;
  depreciation_cost_per_hour : option Q;
  comment : option string
}.
End Printer.

(** Modelled from the spec: the mapped classes of
    spoolman/database/models.py are not among the sources; of [filament]
    only the primary key, the name and the reference to its vendor are
    kept. *)
Module Filament.
Record t : Type := Build { id : Z; name : option string; vendor_id : option Z }.
End Filament.

(** Table [cost_calculation] of migrations 1b23c4567abc and 8c3c0a0b8f6c. *)
Module CostCalculation.
Record t : Type := Build {
  id : Z;
  created : Z;
  printer_id : option Z;
  filament_id : option Z;
  print_time_hours : option Q;
  labor_time_hours : option Q;
  filament_weight_g : option Q;
  material_cost : option Q;
  energy_cost : option Q;
  energy_cost_per_kwh : option Q;
  depreciation_cost : option Q;
  labor_cost : option Q;
  labor_cost_per_hour : option Q;
  consumables_cost : option Q;
  failure_rate : option Q;
  markup_rate : option Q;
  base_price : option Q;
  uplifted_price : option Q;
  final_price : option Q;
  currency : option string;
  item_names : option string;
  notes : option string
}.

(** A mapped instance: the row with its [printer] and [filament]
    relationships as they were loaded or assigned. *)
Record obj : Type := Obj {
  row : t;
  printer : option Printer.t;
  filament : option Filament.t
}.
End CostCalculation.

End models.

(** Modelled from the spec: spoolman/api/v1/models.py is not among the
    sources.  An event is [{type, resource, date, payload}]; a payload is a
    snapshot of the entity, and the snapshot of a cost calculation carries the
    snapshots of its printer and filament, one level deep. *)
Module api_models.

Inductive EventType : Type := ADDED | UPDATED | DELETED.

Module Printer.
Record t : Type := Build { snapshot : models.Printer.t }.

(** Modelled from the spec: [Printer.from_db] is the point-in-time view of
    the row. *)
Definition from_db (item : models.Printer.t) : t := Build item.
End Printer.

Module Filament.
Record t : Type := Build { snapshot : models.Filament.t }.

(** Modelled from the spec: [Filament.from_db] is the point-in-time view of
    the row; its vendor stays a reference. *)
Definition from_db (item : models.Filament.t) : t := Build item.
End Filament.

Module CostCalculation.
Record t : Type := Build {
  snapshot : models.CostCalculation.t;
  printer : option Printer.t;
  filament : option Filament.t
}.

(** Modelled from the spec: [CostCalculation.from_db(item, printer=,
    filament=)] is the point-in-time view of the row together with the views
    of the related printer and filament that the caller resolved. *)
Definition from_db (item : models.CostCalculation.obj)
    (printer : option Printer.t) (filament : option Filament.t) : t :=
  Build (models.CostCalculation.row item) printer filament.
End CostCalculation.

Inductive Payload : Type :=
| PrinterPayload (p : Printer.t)
| CostPayload (c : CostCalculation.t).

(** [PrinterEvent] and [CostEvent] *)
Record Event : Type := BuildEvent {
  type : EventType;
  resource : string;
  date : Z;
  payload : Payload
}.

Inductive Content : Type :=
| Message (message : string)
| Items (items : list Payload)
| Item (item : Payload).

Record JSONResponse : Type := BuildResponse {
  status_code : Z;
  content : Content;
  headers : list (string * string)
}.

End api_models.

(** ** The process state and the coroutine monad *)

Module Proc.
Import Py.

Record Database : Type := BuildDatabase {
  printer_table : list models.Printer.t;
  filament_table : list models.Filament.t;
  cost_table : list models.CostCalculation.t
}.

(** What an [AsyncSession] holds until the next commit. *)
Inductive pending : Type :=
| NewPrinter (p : models.Printer.t)
| DirtyPrinter (p : models.Printer.t)
| DeletedPrinter (id : Z)
| NewCost (c : models.CostCalculation.t)
| DirtyCost (c : models.CostCalculation.t)
| DeletedCost (id : Z).

(** The statements that [find] executes. *)
Inductive query : Type := CountQuery | RowsQuery.

(** The state of [websocket_manager]: the registry, the calls of [send] and
    the frames written on websockets. *)
Record Hub : Type := BuildHub {
  registry : gmap (list string) (gset nat);
  published : list (websocket_manager.Topic * api_models.Event);
  frames : list (nat * api_models.Event)
}.

(** What the code reads from its environment: the clock (microseconds), the
    websockets whose stream is broken, and the exception, if any, that
    [websocket_manager.send] raises itself (such as a serialization
    error). *)
Record Env : Type := BuildEnv {
  clock : Z;
  broken : gset nat;
  send_fault : option exn
}.

Record World : Type := BuildWorld {
  db : Database;
  session : list pending;
  queries : list query;
  hub : Hub;
  logged : list exn;
  env : Env
}.

Definition set_db (d : Database) (w : World) : World :=
  BuildWorld d (session w) (queries w) (hub w) (logged w) (env w).
Definition set_session (s : list pending) (w : World) : World :=
  BuildWorld (db w) s (queries w) (hub w) (logged w) (env w).
Definition set_queries (q : list query) (w : World) : World :=
  BuildWorld (db w) (session w) q (hub w) (logged w) (env w).
Definition set_hub (h : Hub) (w : World) : World :=
  BuildWorld (db w) (session w) (queries w) h (logged w) (env w).
Definition set_logged (l : list exn) (w : World) : World :=
  BuildWorld (db w) (session w) (queries w) (hub w) l (env w).
Definition set_env (e : Env) (w : World) : World :=
  BuildWorld (db w) (session w) (queries w) (hub w) (logged w) e.

(** The same process with other faults in the notification step: the
    websockets with a broken stream and the exception that [send] raises. *)
Definition with_faults (b : gset nat) (f : option exn) (w : World) : World :=
  set_env (BuildEnv (clock (env w)) b f) w.

(** A coroutine: runs on the state, returns or raises, leaves a state. *)
Definition M (A : Type) : Type := World → result A * World.

Definition ret {A} (a : A) : M A := λ w, (Ok a, w).
Definition raise {A} (e : exn) : M A := λ w, (Raise e, w).
Definition bind {A B} (m : M A) (k : A → M B) : M B :=
  λ w, match m w with
       | (Ok a, w') => k a w'
       | (Raise e, w') => (Raise e, w')
       end.

(** [try: m  except <classes>: handler]; the handler is [None] for an
    exception that no [except] clause matches. *)
Definition try_except {A} (m : M A) (handler : exn → option (M A)) : M A :=
  λ w, match m w with
       | (Ok a, w') => (Ok a, w')
       | (Raise e, w') =>
           match handler e with
           | Some k => k w'
           | None => (Raise e, w')
           end
       end.

Definition lift {A} (r : result A) : M A := λ w, (r, w).

End Proc.

Notation "'await' x <- m ;; k" := (Proc.bind m (λ x, k))
  (at level 10, x name, m at level 99, k at level 200, only parsing).
Notation "'perform' m ;; k" := (Proc.bind m (λ _, k))
  (at level 10, m at level 99, k at level 200, only parsing).

(** ** The session of the ORM, the clock, the log and the websocket manager *)

Module Io.
Import Py Proc.

Definition replace_row {R} (key : R → Z) (r : R) (table : list R) : list R :=
  (λ x, if decide (key x = key r) then r else x) <$> table.

Definition delete_row {R} (key : R → Z) (k : Z) (table : list R) : list R :=
  filter (λ x, key x ≠ k) table.

Definition flush (d : Database) (p : pending) : Database :=
  match p with
  | NewPrinter x =>
      BuildDatabase (printer_table d ++ [x]) (filament_table d) (cost_table d)
  | DirtyPrinter x =>
      BuildDatabase (replace_row models.Printer.id x (printer_table d))
        (filament_table d) (cost_table d)
  | DeletedPrinter k =>
      BuildDatabase (delete_row models.Printer.id k (printer_table d))
        (filament_table d) (cost_table d)
  | NewCost x =>
      BuildDatabase (printer_table d) (filament_table d) (cost_table d ++ [x])
  | DirtyCost x =>
      BuildDatabase (printer_table d) (filament_table d)
        (replace_row models.CostCalculation.id x (cost_table d))
  | DeletedCost k =>
      BuildDatabase (printer_table d) (filament_table d)
        (delete_row models.CostCalculation.id k (cost_table d))
  end.

(** [await db.commit()]: what the session holds becomes durable. *)
Definition commit : M unit :=
  λ w, (Ok tt, set_session [] (set_db (foldl flush (db w) (session w)) w)).

Definition row_by_id {R} (key : R → Z) (k : Z) (table : list R) : option R :=
  List.find (λ x, bool_decide (key x = k)) table.

(** The primary keys are 64-bit integer columns. *)
Definition fits (k : Z) : bool := ((- 2 ^ 63 <=? k) && (k <? 2 ^ 63))%bool.

Definition overflow : exn :=
  OverflowError "Python int too large to convert to SQLite INTEGER".

(** A statement that looks a row up by its primary key.  The key is bound
    as a parameter of the statement, and the driver raises [OverflowError]
    for a key that does not fit the column.  A stored key fits, the column
    being what it is: it is found. *)
Definition by_key {R} (key : R → Z) (k : Z) (table : list R) : result (option R) :=
  match row_by_id key k table with
  | Some r => Ok (Some r)
  | None => if fits k then Ok None else Raise overflow
  end.

(** [await db.get(models.Printer, id)] and its siblings. *)
Definition get_printer (k : Z) : M (option models.Printer.t) :=
  λ w, (by_key models.Printer.id k (printer_table (db w)), w).
Definition get_filament (k : Z) : M (option models.Filament.t) :=
  λ w, (by_key models.Filament.id k (filament_table (db w)), w).

(** [(await db.execute(select(models.Printer).filter_by(id=k)
    .options(joinedload("*")))).scalar_one()].  [joinedload("*")] loads the
    collection [Printer.cost_calculations] by a join, the load for which
    [find] has to call [unique()].  A result of joined eager loads against
    collections hands out no row before [unique()] was called on it:
    [scalar_one] raises [InvalidRequestError] when the statement has a row,
    and [NoResultFound] when it has none. *)
Definition unique_not_invoked : exn :=
  InvalidRequestError
    "The unique() method must be invoked on this Result, as it contains results that include joined eager loads against collections".

Definition scalar_one_joinedload (k : Z) : M models.Printer.t :=
  λ w, match by_key models.Printer.id k (printer_table (db w)) with
       | Raise e => (Raise e, w)
       | Ok None => (Raise NoResultFound, w)
       | Ok (Some _) => (Raise unique_not_invoked, w)
       end.

(** A row of [cost_calculation] with its relationships joined in. *)
Definition load_cost (d : Database) (c : models.CostCalculation.t) : models.CostCalculation.obj :=
  models.CostCalculation.Obj c
    (k ← models.CostCalculation.printer_id c; row_by_id models.Printer.id k (printer_table d))
    (k ← models.CostCalculation.filament_id c; row_by_id models.Filament.id k (filament_table d)).

Definition get_cost (k : Z) : M (option models.CostCalculation.obj) :=
  λ w, (match by_key models.CostCalculation.id k (cost_table (db w)) with
        | Ok row => Ok (load_cost (db w) <$> row)
        | Raise e => Raise e
        end, w).

(** The key the next insert into a table gets. *)
Definition next_id (used : list Z) : Z := 1 + foldr Z.max 0 used.

Definition new_printer_ids (s : list pending) : list Z :=
  omap (λ p, match p with NewPrinter x => Some (models.Printer.id x) | _ => None end) s.
Definition new_cost_ids (s : list pending) : list Z :=
  omap (λ p, match p with NewCost x => Some (models.CostCalculation.id x) | _ => None end) s.

(** [db.add(printer)]: the object joins the session; the result is the
    object with the primary key that the flush gives it. *)
Definition add_printer (p : models.Printer.t) : M models.Printer.t :=
  λ w,
    let k := next_id ((models.Printer.id <$> printer_table (db w)) ++ new_printer_ids (session w)) in
    let p' := models.Printer.Build k (models.Printer.registered p) (models.Printer.name p)
                (models.Printer.power_watts p) (models.Printer.depreciation_cost_per_hour p)
                (models.Printer.comment p) in
    (Ok p', set_session (session w ++ [NewPrinter p']) w).

(** Attribute assignments on a loaded object and [db.delete(obj)]. *)
Definition mark (p : pending) : M unit :=
  λ w, (Ok tt, set_session (session w ++ [p]) w).

(** [await db.refresh(printer)] *)
Definition refresh_printer (p : models.Printer.t) : M models.Printer.t :=
  λ w, match row_by_id models.Printer.id (models.Printer.id p) (printer_table (db w)) with
       | Some r => (Ok r, w)
       | None => (Raise (RuntimeError "InvalidRequestError: could not refresh instance"), w)
       end.

Definition with_cost_id (k : Z) (c : models.CostCalculation.t) : models.CostCalculation.t :=
  let 'models.CostCalculation.Build _ a1 a2 a3 a4 a5 a6 a7 a8 a9 a10 a11 a12 a13 a14 a15 a16
         a17 a18 a19 a20 a21 := c in
  models.CostCalculation.Build k a1 a2 a3 a4 a5 a6 a7 a8 a9 a10 a11 a12 a13 a14 a15 a16
    a17 a18 a19 a20 a21.

(** [db.add(calculation)] *)
Definition add_cost (c : models.CostCalculation.obj) : M models.CostCalculation.obj :=
  λ w,
    let k := next_id ((models.CostCalculation.id <$> cost_table (db w)) ++ new_cost_ids (session w)) in
    let r := with_cost_id k (models.CostCalculation.row c) in
    (Ok (models.CostCalculation.Obj r (models.CostCalculation.printer c)
           (models.CostCalculation.filament c)),
     set_session (session w ++ [NewCost r]) w).

(** [await db.refresh(calculation)]: the columns are read again, the
    relationships stay as assigned. *)
Definition refresh_cost (c : models.CostCalculation.obj) : M models.CostCalculation.obj :=
  λ w, match row_by_id models.CostCalculation.id
               (models.CostCalculation.id (models.CostCalculation.row c))
               (cost_table (db w)) with
       | Some r => (Ok (models.CostCalculation.Obj r (models.CostCalculation.printer c)
                          (models.CostCalculation.filament c)), w)
       | None => (Raise (RuntimeError "InvalidRequestError: could not refresh instance"), w)
       end.

Definition utcnow : M Z := λ w, (Ok (clock (env w)), w).

(** [logger.exception(...)] *)
Definition logger_exception (e : exn) : M unit :=
  λ w, (Ok tt, set_logged (logged w ++ [e]) w).

(** Modelled from the spec: [await websocket_manager.send(topic, evt)] is
    the publish of the registry; the call is recorded, then either [send]
    raises or the event is written to the subscribers. *)
Definition websocket_manager_send (topic : websocket_manager.Topic) (evt : api_models.Event) : M unit :=
  λ w,
    let h := hub w in
    let called := published h ++ [(topic, evt)] in
    match send_fault (env w) with
    | Some e => (Raise e, set_hub (BuildHub (registry h) called (frames h)) w)
    | None =>
        let '(reg, written) := websocket_manager.publish (broken (env w)) topic evt (registry h) in
        (Ok tt, set_hub (BuildHub reg called (frames h ++ written)) w)
    end.

End Io.

(** ** The query layer *)

Module utils.
Import Py.

(** Modelled from the spec: the enum [SortOrder] of
    spoolman/database/utils.py is not among the sources; a direction is
    [asc] or [desc]. *)
Inductive SortOrder : Type := ASC | DESC.

(** [SortOrder[name]] *)
Definition SortOrder_getitem (name : string) : result SortOrder :=
  if decide (name = "ASC") then Ok ASC
  else if decide (name = "DESC") then Ok DESC
  else Raise (KeyError name).

(** A column value.  [Null] sorts first, as SQLite and MySQL have it. *)
Inductive Value : Type :=
| Null
| Int (z : Z)
| Float (q : Q)
| Text (s : string).

Definition rank (v : Value) : Z :=
  match v with Null => 0 | Int _ => 1 | Float _ => 2 | Text _ => 3 end.

Definition compare_value (a b : Value) : comparison :=
  match a, b with
  | Int x, Int y => x ?= y
  | Float x, Float y => Qcompare x y
  | Text x, Text y => String.compare x y
  | _, _ => rank a ?= rank b
  end.

(** One [ORDER BY] key: [column.asc()] or [column.desc()]. *)
Definition compare_key {R} (key : (R → Value) * SortOrder) (a b : R) : comparison :=
  match key.2 with
  | ASC => compare_value (key.1 a) (key.1 b)
  | DESC => compare_value (key.1 b) (key.1 a)
  end.

(** [ORDER BY k1, k2, ...]: a later key decides only among rows that the
    earlier keys leave equal. *)
Fixpoint compare_rows {R} (keys : list ((R → Value) * SortOrder)) (a b : R) : comparison :=
  match keys with
  | [] => Eq
  | key :: keys' =>
      match compare_key key a b with
      | Eq => compare_rows keys' a b
      | c => c
      end
  end.

Definition precedes {R} (keys : list ((R → Value) * SortOrder)) (a b : R) : Prop :=
  compare_rows keys a b ≠ Gt.

(** A [sqlalchemy.select] under construction: the clauses in the order
    they were added. *)
Record Select (R : Type) : Type := BuildSelect {
  whereclause : list (R → bool);
  order_by_clauses : list ((R → Value) * SortOrder);
  offset_clause : Z;
  limit_clause : option Z
}.
Arguments BuildSelect {R}.
Arguments whereclause {R}.
Arguments order_by_clauses {R}.
Arguments offset_clause {R}.
Arguments limit_clause {R}.

Definition select {R} : Select R := BuildSelect [] [] 0 None.
Definition where_ {R} (c : R → bool) (stmt : Select R) : Select R :=
  BuildSelect (whereclause stmt ++ [c]) (order_by_clauses stmt)
    (offset_clause stmt) (limit_clause stmt).
Definition order_by {R} (k : (R → Value) * SortOrder) (stmt : Select R) : Select R :=
  BuildSelect (whereclause stmt) (order_by_clauses stmt ++ [k])
    (offset_clause stmt) (limit_clause stmt).
Definition offset {R} (n : Z) (stmt : Select R) : Select R :=
  BuildSelect (whereclause stmt) (order_by_clauses stmt) n (limit_clause stmt).
Definition limit {R} (n : Z) (stmt : Select R) : Select R :=
  BuildSelect (whereclause stmt) (order_by_clauses stmt) (offset_clause stmt) (Some n).

Definition matching {R} (stmt : Select R) (table : list R) : list R :=
  filter (λ r, forallb (λ c, c r) (whereclause stmt)) table.

(** The rows of [SELECT ... WHERE ... ORDER BY ... LIMIT ... OFFSET ...]:
    whatever the order the clauses were added in, the database filters,
    then orders, then skips and cuts.  [limit] and [offset] take any [int];
    SQLite reads a negative OFFSET as 0 and a negative LIMIT as no limit. *)
Definition rows {R} (stmt : Select R) (table : list R) : list R :=
  let ordered := merge_sort (precedes (order_by_clauses stmt)) (matching stmt table) in
  let skipped := drop (Z.to_nat (offset_clause stmt)) ordered in
  match limit_clause stmt with
  | Some n => if n <? 0 then skipped else take (Z.to_nat n) skipped
  | None => skipped
  end.

(** The scalar of [stmt.with_only_columns(func.count())]. *)
Definition count {R} (stmt : Select R) (table : list R) : nat :=
  length (matching stmt table).

(** [result.scalars().unique().all()]: one object per primary key, the
    first occurrence kept. *)
Fixpoint unique {R} (key : R → Z) (seen : list Z) (l : list R) : list R :=
  match l with
  | [] => []
  | r :: l' =>
      if decide (key r ∈ seen) then unique key seen l'
      else r :: unique key (key r :: seen) l'
  end.

(** A term of a string filter is quoted when it is surrounded by double
    quotes; the result is the text between them. *)
Definition dquote : ascii := ascii_of_nat 34.

(** The text before the last character, and the last character. *)
Fixpoint chop (s : string) : option (string * ascii) :=
  match s with
  | EmptyString => None
  | String c s' =>
      match chop s' with
      | None => Some (EmptyString, c)
      | Some (init, last) => Some (String c init, last)
      end
  end.

Definition unquote (term : string) : option string :=
  match term with
  | String c rest =>
      if Ascii.eqb c dquote then
        match chop rest with
        | Some (inner, c') => if Ascii.eqb c' dquote then Some inner else None
        | None => None
        end
      else None
  | EmptyString => None
  end.

Definition term_matches (term : string) (v : option string) : bool :=
  match v with
  | None => false
  | Some s =>
      match unquote term with
      | Some exact => bool_decide (lower s = lower exact)
      | None => contains (lower s) (lower term)
      end
  end.

(** Modelled from the spec: [add_where_clause_str_opt] of
    spoolman/database/utils.py is not among the sources.  The value is a
    comma-separated list of terms, OR'd; a term matches by case-insensitive
    substring, or by case-insensitive equality when it is quoted. *)
Definition add_where_clause_str_opt {R} (stmt : Select R) (field : R → option string)
    (value : option string) : Select R :=
  match value with
  | None => stmt
  | Some v => where_ (λ r, existsb (λ term, term_matches term (field r)) (split ","%char v)) stmt
  end.

(** [int | list[int]] *)
Inductive int_or_list : Type :=
| One (value : Z)
| Many (values : list Z).

Definition value_matches (value_part : Z) (v : option Z) : bool :=
  if decide (value_part = -1) then bool_decide (v = None)
  else bool_decide (v = Some value_part).

(** Modelled from the spec: [add_where_clause_int_opt] of
    spoolman/database/utils.py is not among the sources.  The value is one
    id or a list of ids, OR'd; [-1] stands for "the field is absent". *)
Definition add_where_clause_int_opt {R} (stmt : Select R) (field : R → option Z)
    (value : option int_or_list) : Select R :=
  match value with
  | None => stmt
  | Some (One v) => where_ (λ r, value_matches v (field r)) stmt
  | Some (Many vs) => where_ (λ r, existsb (λ v, value_matches v (field r)) vs) stmt
  end.

Definition opt {A} (f : A → Value) (o : option A) : Value :=
  match o with Some a => f a | None => Null end.

(** The columns of [models.Printer], by name. *)
Definition Printer_columns : list (string * (models.Printer.t → Value)) :=
  [ ("id", λ p, Int (models.Printer.id p));
    ("registered", λ p, Int (models.Printer.registered p));
    ("name", λ p, Text (models.Printer.name p));
    ("power_watts", λ p, opt Float (models.Printer.power_watts p));
    ("depreciation_cost_per_hour", λ p, opt Float (models.Printer.depreciation_cost_per_hour p));
    ("comment", λ p, opt Text (models.Printer.comment p)) ].

Definition column {R} (columns : list (string * (R → Value))) (name : string)
  : option (R → Value) :=
  snd <$> List.find (λ c, bool_decide (c.1 = name)) columns.

(** Modelled from the spec: [parse_nested_field] of
    spoolman/database/utils.py is not among the sources.  A field path
    resolves against the accessor table of the entity; an unknown segment is
    a resolution failure.  The table of [models.Printer] holds its columns. *)
Definition parse_nested_field_Printer (field : string) : result (models.Printer.t → Value) :=
  match column Printer_columns field with
  | Some f => Ok f
  | None => Raise (ValueError field)
  end.

End utils.

(** ** What the two database modules share *)

Module Common.
Import Py Proc Io utils.

(** The message of [ItemNotFoundError]. *)
Definition not_found (what : string) (k : Z) : exn :=
  ItemNotFoundError (String.append "No " (String.append what
    (String.append " with ID " (String.append (str k) " found.")))).

(** The loop over [sort_by.items()]. *)
Fixpoint order_by_items {R} (parse_nested_field : string → result (R → Value))
    (items : list (string * SortOrder)) (stmt : Select R) : result (Select R) :=
  match items with
  | [] => Ok stmt
  | (fieldstr, order) :: items' =>
      match parse_nested_field fieldstr with
      | Raise e => Raise e
      | Ok sort_field => order_by_items parse_nested_field items' (order_by (sort_field, order) stmt)
      end
  end.

Definition execute_count {R} (table : Database → list R) (stmt : Select R) : M nat :=
  λ w, (Ok (count stmt (table (db w))), set_queries (queries w ++ [CountQuery]) w).

(** LIMIT and OFFSET are bound as parameters of the statement; the driver
    raises [OverflowError] for one that does not fit 64 bits. *)
Definition bindable {R} (stmt : Select R) : bool :=
  fits (offset_clause stmt) && from_option fits true (limit_clause stmt).

Definition execute_rows {R} (table : Database → list R) (stmt : Select R) : M (list R) :=
  λ w, if bindable stmt
       then (Ok (rows stmt (table (db w))), set_queries (queries w ++ [RowsQuery]) w)
       else (Raise overflow, w).

(** The body of [find] from [total_count = None] on, which
    spoolman/database/printer.py and spoolman/database/cost.py have line by
    line in common. *)
Definition find_page {R} (table : Database → list R) (key : R → Z)
    (parse_nested_field : string → result (R → Value))
    (stmt : Select R) (sort_by : option (list (string * SortOrder)))
    (limit : option Z) (offset : Z) : M (list R * nat) :=
  await counted <-
    match limit with
    | Some n =>
        await total_count <- execute_count table stmt ;;
        ret (Some total_count, utils.limit n (utils.offset offset stmt))
    | None => ret (None, stmt)
    end ;;
  await stmt <-
    match sort_by with
    | Some items => lift (order_by_items parse_nested_field items counted.2)
    | None => ret counted.2
    end ;;
  await result <- execute_rows table stmt ;;
  let items := unique key [] result in
  ret (items, match counted.1 with
              | Some total_count => total_count
              | None => length items
              end).

(** [new if new is not None else old] *)
Definition or_else {A} (new old : option A) : option A :=
  match new with
  | Some _ => new
  | None => old
  end.

End Common.

(** ** spoolman/database/printer.py *)

Module PrinterDb.
Import Py Proc Io utils Common.

(** [printer_changed(printer, typ)] *)
Definition printer_changed (printer : models.Printer.t) (typ : api_models.EventType) : M unit :=
  try_except
    (await now <- utcnow ;;
     websocket_manager_send
       ["printer"; str (models.Printer.id printer)]
       (api_models.BuildEvent typ "printer" now
          (api_models.PrinterPayload (api_models.Printer.from_db printer))))
    (λ e, if is_Exception e then Some (logger_exception e) else None).

(** [create(db=, name=, power_watts=, depreciation_cost_per_hour=, comment=)] *)
Definition create (name : string) (power_watts depreciation_cost_per_hour : option Q)
    (comment : option string) : M models.Printer.t :=
  await now <- utcnow ;;
  await printer <- add_printer
    (models.Printer.Build 0 (now - now mod 1000000) name power_watts
       depreciation_cost_per_hour comment) ;;
  perform commit ;;
  await printer <- refresh_printer printer ;;
  perform printer_changed printer api_models.ADDED ;;
  ret printer.

(** [get_by_id(db, printer_id)] *)
Definition get_by_id (printer_id : Z) : M models.Printer.t :=
  await printer <- get_printer printer_id ;;
  match printer with
  | None => raise (not_found "printer" printer_id)
  | Some printer => ret printer
  end.

(** [find(db=, name=, sort_by=, limit=, offset=)] *)
Definition find (name : option string) (sort_by : option (list (string * SortOrder)))
    (limit : option Z) (offset : Z) : M (list models.Printer.t * nat) :=
  let stmt := select in
  let stmt := add_where_clause_str_opt stmt (λ p, Some (models.Printer.name p)) name in
  find_page printer_table models.Printer.id parse_nested_field_Printer stmt sort_by limit offset.

(** [update(db=, printer_id=, name=, ...)] *)
Definition update (printer_id : Z) (name : option string)
    (power_watts depreciation_cost_per_hour : option Q) (comment : option string)
  : M models.Printer.t :=
  await printer <- get_by_id printer_id ;;
  let printer :=
    models.Printer.Build (models.Printer.id printer) (models.Printer.registered printer)
      (default (models.Printer.name printer) name)
      (or_else power_watts (models.Printer.power_watts printer))
      (or_else depreciation_cost_per_hour (models.Printer.depreciation_cost_per_hour printer))
      (or_else comment (models.Printer.comment printer)) in
  perform mark (DirtyPrinter printer) ;;
  perform commit ;;
  perform printer_changed printer api_models.UPDATED ;;
  ret printer.

(** [delete(db, printer_id)] *)
Definition delete (printer_id : Z) : M unit :=
  await printer <- try_except
    (scalar_one_joinedload printer_id)
    (λ e, if is_NoResultFound e then Some (raise (not_found "printer" printer_id)) else None) ;;
  perform mark (DeletedPrinter (models.Printer.id printer)) ;;
  perform commit ;;
  printer_changed printer api_models.DELETED.

End PrinterDb.

(** ** spoolman/database/cost.py *)

Module CostDb.
Import Py Proc Io utils Common.

(** The keyword parameters that [create] and [update] declare, [db] and
    [calculation_id] apart. *)
Record Fields : Type := BuildFields {
  printer_id : option Z;
  filament_id : option Z;
  print_time_hours : option Q;
  labor_time_hours : option Q;
  filament_weight_g : option Q;
  material_cost : option Q;
  energy_cost : option Q;
  depreciation_cost : option Q;
  labor_cost : option Q;
  consumables_cost : option Q;
  failure_rate : option Q;
  markup_rate : option Q;
  base_price : option Q;
  uplifted_price : option Q;
  final_price : option Q;
  currency : option string;
  notes : option string
}.

Definition create_parameters : list string :=
  [ "db"; "printer_id"; "filament_id"; "print_time_hours"; "labor_time_hours";
    "filament_weight_g"; "material_cost"; "energy_cost"; "depreciation_cost";
    "labor_cost"; "consumables_cost"; "failure_rate"; "markup_rate"; "base_price";
    "uplifted_price"; "final_price"; "currency"; "notes" ].

Definition update_parameters : list string :=
  [ "db"; "calculation_id"; "printer_id"; "filament_id"; "print_time_hours";
    "labor_time_hours"; "filament_weight_g"; "material_cost"; "energy_cost";
    "depreciation_cost"; "labor_cost"; "consumables_cost"; "failure_rate";
    "markup_rate"; "base_price"; "uplifted_price"; "final_price"; "currency"; "notes" ].

(** [cost_changed(cost_calc, typ)] *)
Definition cost_changed (cost_calc : models.CostCalculation.obj) (typ : api_models.EventType)
  : M unit :=
  try_except
    (await now <- utcnow ;;
     websocket_manager_send
       ["cost"; str (models.CostCalculation.id (models.CostCalculation.row cost_calc))]
       (api_models.BuildEvent typ "cost" now
          (api_models.CostPayload
             (api_models.CostCalculation.from_db cost_calc
                (api_models.Printer.from_db <$> models.CostCalculation.printer cost_calc)
                (api_models.Filament.from_db <$> models.CostCalculation.filament cost_calc)))))
    (λ e, if is_Exception e then Some (logger_exception e) else None).

(** The filament lookup of [create] and [update]. *)
Definition filament_by_id (filament_id : Z) : M models.Filament.t :=
  await filament_obj <- get_filament filament_id ;;
  match filament_obj with
  | None => raise (not_found "filament" filament_id)
  | Some filament_obj => ret filament_obj
  end.

(** [create(db=, printer_id=, filament_id=, ...)] *)
Definition create (a : Fields) : M models.CostCalculation.obj :=
  await printer_obj <-
    match printer_id a with
    | Some k => await p <- PrinterDb.get_by_id k ;; ret (Some p)
    | None => ret None
    end ;;
  await filament_obj <-
    match filament_id a with
    | Some k => await f <- filament_by_id k ;; ret (Some f)
    | None => ret None
    end ;;
  await now <- utcnow ;;
  await calculation <- add_cost
    (models.CostCalculation.Obj
       (models.CostCalculation.Build 0 (now - now mod 1000000)
          (models.Printer.id <$> printer_obj) (models.Filament.id <$> filament_obj)
          (print_time_hours a) (labor_time_hours a) (filament_weight_g a)
          (material_cost a) (energy_cost a) None (depreciation_cost a)
          (labor_cost a) None (consumables_cost a) (failure_rate a) (markup_rate a)
          (base_price a) (uplifted_price a) (final_price a) (currency a) None (notes a))
       printer_obj filament_obj) ;;
  perform commit ;;
  await calculation <- refresh_cost calculation ;;
  perform cost_changed calculation api_models.ADDED ;;
  ret calculation.

(** [get_by_id(db, calculation_id)] *)
Definition get_by_id (calculation_id : Z) : M models.CostCalculation.obj :=
  await calculation <- get_cost calculation_id ;;
  match calculation with
  | None => raise (not_found "cost calculation" calculation_id)
  | Some calculation => ret calculation
  end.

(** [find(db=, printer_id=, filament_id=, sort_by=, limit=, offset=)].  The
    accessor table of [models.CostCalculation] is not among the sources:
    the field resolver is a parameter. *)
Definition find
    (parse_nested_field : string → result (models.CostCalculation.obj → Value))
    (printer_id filament_id : option int_or_list)
    (sort_by : option (list (string * SortOrder)))
    (limit : option Z) (offset : Z) : M (list models.CostCalculation.obj * nat) :=
  let stmt := select in
  let stmt := add_where_clause_int_opt stmt
    (λ c, models.CostCalculation.printer_id (models.CostCalculation.row c)) printer_id in
  let stmt := add_where_clause_int_opt stmt
    (λ c, models.CostCalculation.filament_id (models.CostCalculation.row c)) filament_id in
  Common.find_page (λ d, load_cost d <$> cost_table d)
    (λ c, models.CostCalculation.id (models.CostCalculation.row c))
    parse_nested_field stmt sort_by limit offset.

Definition assign (a : Fields) (c : models.CostCalculation.t) : models.CostCalculation.t :=
  let 'models.CostCalculation.Build id created printer_id filament_id pth lth fwg mc ec
         ecpk dc lc lcph cc fr mr bp up fp cur items nts := c in
  models.CostCalculation.Build id created printer_id filament_id
    (Common.or_else (print_time_hours a) pth)
    (Common.or_else (labor_time_hours a) lth)
    (Common.or_else (filament_weight_g a) fwg)
    (Common.or_else (material_cost a) mc)
    (Common.or_else (energy_cost a) ec)
    ecpk
    (Common.or_else (depreciation_cost a) dc)
    (Common.or_else (labor_cost a) lc)
    lcph
    (Common.or_else (consumables_cost a) cc)
    (Common.or_else (failure_rate a) fr)
    (Common.or_else (markup_rate a) mr)
    (Common.or_else (base_price a) bp)
    (Common.or_else (uplifted_price a) up)
    (Common.or_else (final_price a) fp)
    (Common.or_else (currency a) cur)
    items
    (Common.or_else (notes a) nts).

Definition with_printer (p : models.Printer.t) (c : models.CostCalculation.obj)
  : models.CostCalculation.obj :=
  let 'models.CostCalculation.Build id created _ a3 a4 a5 a6 a7 a8 a9 a10 a11 a12 a13 a14
         a15 a16 a17 a18 a19 a20 a21 := models.CostCalculation.row c in
  models.CostCalculation.Obj
    (models.CostCalculation.Build id created (Some (models.Printer.id p)) a3 a4 a5 a6 a7 a8
       a9 a10 a11 a12 a13 a14 a15 a16 a17 a18 a19 a20 a21)
    (Some p) (models.CostCalculation.filament c).

Definition with_filament (f : models.Filament.t) (c : models.CostCalculation.obj)
  : models.CostCalculation.obj :=
  let 'models.CostCalculation.Build id created a2 _ a4 a5 a6 a7 a8 a9 a10 a11 a12 a13 a14
         a15 a16 a17 a18 a19 a20 a21 := models.CostCalculation.row c in
  models.CostCalculation.Obj
    (models.CostCalculation.Build id created a2 (Some (models.Filament.id f)) a4 a5 a6 a7 a8
       a9 a10 a11 a12 a13 a14 a15 a16 a17 a18 a19 a20 a21)
    (models.CostCalculation.printer c) (Some f).

(** [update(db=, calculation_id=, printer_id=, filament_id=, ...)] *)
Definition update (calculation_id : Z) (a : Fields) : M models.CostCalculation.obj :=
  await calculation <- get_by_id calculation_id ;;
  await calculation <-
    match printer_id a with
    | Some k =>
        await p <- PrinterDb.get_by_id k ;;
        let calculation := with_printer p calculation in
        perform mark (DirtyCost (models.CostCalculation.row calculation)) ;;
        ret calculation
    | None => ret calculation
    end ;;
  await calculation <-
    match filament_id a with
    | Some k =>
        await f <- filament_by_id k ;;
        let calculation := with_filament f calculation in
        perform mark (DirtyCost (models.CostCalculation.row calculation)) ;;
        ret calculation
    | None => ret calculation
    end ;;
  let calculation :=
    models.CostCalculation.Obj (assign a (models.CostCalculation.row calculation))
      (models.CostCalculation.printer calculation)
      (models.CostCalculation.filament calculation) in
  perform mark (DirtyCost (models.CostCalculation.row calculation)) ;;
  perform commit ;;
  perform cost_changed calculation api_models.UPDATED ;;
  ret calculation.

(** [delete(db, calculation_id)] *)
Definition delete (calculation_id : Z) : M unit :=
  await found <- get_cost calculation_id ;;
  match found with
  | None => raise (not_found "cost calculation" calculation_id)
  | Some calculation =>
      perform mark (DeletedCost (models.CostCalculation.id (models.CostCalculation.row calculation))) ;;
      perform commit ;;
      cost_changed calculation api_models.DELETED
  end.

End CostDb.

(** ** spoolman/api/v1/printer.py *)

Module PrinterApi.
Import Py Proc utils.

(** The loop that fills [sort_by] from [sort.split(",")]. *)
Fixpoint sort_items (items : list string) (sort_by : list (string * SortOrder))
  : result (list (string * SortOrder)) :=
  match items with
  | [] => Ok sort_by
  | sort_item :: items' =>
      match split ":"%char sort_item with
      | [field; direction] =>
          match SortOrder_getitem (upper direction) with
          | Ok order => sort_items items' (dict_set field order sort_by)
          | Raise e => Raise e
          end
      | _ => Raise (ValueError "not enough or too many values to unpack (expected 2)")
      end
  end.

Definition parse_sort (sort : option string) : result (list (string * SortOrder)) :=
  match sort with
  | Some sort => sort_items (split ","%char sort) []
  | None => Ok []
  end.

(** [find(db, name, sort, limit, offset)] *)
Definition find (name sort : option string) (limit : option Z) (offset : Z)
  : M api_models.JSONResponse :=
  await sort_by <- lift (parse_sort sort) ;;
  await found <- PrinterDb.find name (Some sort_by) limit offset ;;
  ret (api_models.BuildResponse 200
         (api_models.Items
            ((λ db_item, api_models.PrinterPayload (api_models.Printer.from_db db_item))
               <$> found.1))
         [("x-total-count", str (Z.of_nat found.2))]).

Definition notify_any (websocket : nat) :=
  Session.serve ["printer"] websocket.

Definition notify (websocket : nat) (printer_id : string) :=
  Session.serve ["printer"; printer_id] websocket.

End PrinterApi.

(** ** spoolman/api/v1/cost.py *)

Module CostApi.
Import Py Proc utils.

Record CostCalculationParameters : Type := BuildParameters {
  printer_id : option Z;
  filament_id : option Z;
  print_time_hours : option Q;
  labor_time_hours : option Q;
  filament_weight_g : option Q;
  material_cost : option Q;
  energy_cost : option Q;
  energy_cost_per_kwh : option Q;
  depreciation_cost : option Q;
  labor_cost : option Q;
  labor_cost_per_hour : option Q;
  consumables_cost : option Q;
  failure_rate : option Q;
  markup_rate : option Q;
  base_price : option Q;
  uplifted_price : option Q;
  final_price : option Q;
  currency : option string;
  item_names : option string;
  notes : option string
}.

(** [_parse_int_csv(value)] *)
Fixpoint ints (parts : list string) : result (list Z) :=
  match parts with
  | [] => Ok []
  | v :: parts' =>
      match int v with
      | Raise e => Raise e
      | Ok n =>
          match ints parts' with
          | Raise e => Raise e
          | Ok ns => Ok (n :: ns)
          end
      end
  end.

Definition _parse_int_csv (value : option string) : result (option (list Z)) :=
  match value with
  | None => Ok None
  | Some value =>
      match ints (split ","%char value) with
      | Ok ns => Ok (Some ns)
      | Raise e => Raise e
      end
  end.

(** [find(db, printer_id, filament_id, sort, limit, offset)] *)
Definition find
    (parse_nested_field : string → result (models.CostCalculation.obj → Value))
    (printer_id filament_id sort : option string) (limit : option Z) (offset : Z)
  : M api_models.JSONResponse :=
  await sort_by <- lift (PrinterApi.parse_sort sort) ;;
  await printer_ids <- lift (_parse_int_csv printer_id) ;;
  await filament_ids <- lift (_parse_int_csv filament_id) ;;
  await found <- CostDb.find parse_nested_field (Many <$> printer_ids) (Many <$> filament_ids)
             (Some sort_by) limit offset ;;
  ret (api_models.BuildResponse 200
         (api_models.Items
            ((λ db_item, api_models.CostPayload
                           (api_models.CostCalculation.from_db db_item None None))
               <$> found.1))
         [("x-total-count", str (Z.of_nat found.2))]).

Definition notify_any (websocket : nat) :=
  Session.serve ["cost"] websocket.

Definition notify (websocket : nat) (calculation_id : string) :=
  Session.serve ["cost"; calculation_id] websocket.

(** The keywords that [create] and [update] pass on, after [db]. *)
Definition keywords (body : CostCalculationParameters) : list (string * value) :=
  [ ("printer_id", of_int (printer_id body));
    ("filament_id", of_int (filament_id body));
    ("print_time_hours", of_float (print_time_hours body));
    ("labor_time_hours", of_float (labor_time_hours body));
    ("filament_weight_g", of_float (filament_weight_g body));
    ("material_cost", of_float (material_cost body));
    ("energy_cost", of_float (energy_cost body));
    ("energy_cost_per_kwh", of_float (energy_cost_per_kwh body));
    ("depreciation_cost", of_float (depreciation_cost body));
    ("labor_cost", of_float (labor_cost body));
    ("labor_cost_per_hour", of_float (labor_cost_per_hour body));
    ("consumables_cost", of_float (consumables_cost body));
    ("failure_rate", of_float (failure_rate body));
    ("markup_rate", of_float (markup_rate body));
    ("base_price", of_float (base_price body));
    ("uplifted_price", of_float (uplifted_price body));
    ("final_price", of_float (final_price body));
    ("currency", of_str (currency body));
    ("item_names", of_str (item_names body));
    ("notes", of_str (notes body)) ].

(** The parameters of [cost_db.create] and [cost_db.update] as bound from
    the keywords of a call. *)
Definition fields (kwargs : list (string * value)) : CostDb.Fields :=
  CostDb.BuildFields
    (kw_int "printer_id" kwargs) (kw_int "filament_id" kwargs)
    (kw_float "print_time_hours" kwargs) (kw_float "labor_time_hours" kwargs)
    (kw_float "filament_weight_g" kwargs) (kw_float "material_cost" kwargs)
    (kw_float "energy_cost" kwargs) (kw_float "depreciation_cost" kwargs)
    (kw_float "labor_cost" kwargs) (kw_float "consumables_cost" kwargs)
    (kw_float "failure_rate" kwargs) (kw_float "markup_rate" kwargs)
    (kw_float "base_price" kwargs) (kw_float "uplifted_price" kwargs)
    (kw_float "final_price" kwargs) (kw_str "currency" kwargs) (kw_str "notes" kwargs).

(** [await cost_db.create(db=db, ...)] *)
Definition call_create (kwargs : list (string * value)) : M models.CostCalculation.obj :=
  perform lift (bind_keywords "create" CostDb.create_parameters ["db"] kwargs) ;;
  CostDb.create (fields kwargs).

(** [await cost_db.update(db=db, calculation_id=calculation_id, ...)] *)
Definition call_update (kwargs : list (string * value)) : M models.CostCalculation.obj :=
  perform lift (bind_keywords "update" CostDb.update_parameters ["db"; "calculation_id"] kwargs) ;;
  match kw_int "calculation_id" kwargs with
  | Some calculation_id => CostDb.update calculation_id (fields kwargs)
  | None => raise (TypeError "calculation_id")
  end.

Definition not_found_response (e : exn) : api_models.JSONResponse :=
  api_models.BuildResponse 404
    (api_models.Message match e with ItemNotFoundError msg => msg | _ => "" end) [].

Definition item_response (status_code : Z) (calculation : models.CostCalculation.obj)
  : api_models.JSONResponse :=
  api_models.BuildResponse status_code
    (api_models.Item
       (api_models.CostPayload (api_models.CostCalculation.from_db calculation None None))) [].

(** [create(db, body)] *)
Definition create (body : CostCalculationParameters) : M api_models.JSONResponse :=
  await outcome <- try_except
    (await calculation <- call_create (("db", VSession) :: keywords body) ;;
     ret (inl calculation))
    (λ e, if is_ItemNotFoundError e then Some (ret (inr (not_found_response e))) else None) ;;
  match outcome with
  | inr response => ret response
  | inl calculation => ret (item_response 201 calculation)
  end.

(** [update(db, calculation_id, body)] *)
Definition update (calculation_id : Z) (body : CostCalculationParameters)
  : M api_models.JSONResponse :=
  await outcome <- try_except
    (await calculation <- call_update
       (("db", VSession) :: ("calculation_id", VInt calculation_id) :: keywords body) ;;
     ret (inl calculation))
    (λ e, if is_ItemNotFoundError e then Some (ret (inr (not_found_response e))) else None) ;;
  match outcome with
  | inr response => ret response
  | inl calculation => ret (item_response 200 calculation)
  end.

(** A success response: a status below 400. *)
Definition success (r : result api_models.JSONResponse) : Prop :=
  match r with
  | Ok response => api_models.status_code response < 400
  | Raise _ => False
  end.

End CostApi.

(** ** Contracts of the specification *)

Module Spec.

(** Paginate: with a limit, [total_count] counts the rows matching the
    filters before limit and offset apply and the page holds what the limit,
    a number of rows, leaves of the rows after the offset; without a limit,
    all matching rows are returned and [total_count] is their number; in
    every case [total_count] is at least the number of items. *)
Definition paginated {R} (matched : list R) (limit : option Z) (offset : Z)
    (found : list R * nat) : Prop :=
  (∀ n, limit = Some n →
        found.2 = length matched ∧
        (0 ≤ n →
         length found.1 = (Z.to_nat n `min` (length matched - Z.to_nat offset))%nat)) ∧
  (limit = None → found.1 ≡ₚ matched ∧ found.2 = length found.1) ∧
  (length found.1 ≤ found.2)%nat.

(** A comparison function that orders its domain: swapping the arguments
    gives the opposite answer, and "not greater" is transitive. *)
Definition ordering {A} (c : A → A → comparison) : Prop :=
  (∀ a b, c b a = CompOpp (c a b)) ∧
  (∀ a b d, c a b ≠ Gt → c b d ≠ Gt → c a d ≠ Gt).

(** The page that a limit and an offset cut out of the ordered rows; a
    negative offset skips nothing and a negative limit cuts nothing. *)
Definition page {R} (limit : option Z) (offset : Z) (ordered : list R) : list R :=
  match limit with
  | Some n =>
      if n <? 0 then drop (Z.to_nat offset) ordered
      else take (Z.to_nat n) (drop (Z.to_nat offset) ordered)
  | None => ordered
  end.

(** The sort parameter lists the pairs: its comma-separated items are
    [field:direction], the direction in any case. *)
Definition lists (sort : string) (pairs : list (string * utils.SortOrder)) : Prop :=
  Forall2 (λ item pair,
             ∃ direction, Py.split ":"%char item = [pair.1; direction] ∧
                          utils.SortOrder_getitem (Py.upper direction) = Py.Ok pair.2)
    (Py.split ","%char sort) pairs.

(** Every field of the pairs resolves, to the accessors of [keys]. *)
Definition resolves {R} (parse : string → Py.result (R → utils.Value))
    (pairs : list (string * utils.SortOrder))
    (keys : list ((R → utils.Value) * utils.SortOrder)) : Prop :=
  Forall2 (λ pair key, parse pair.1 = Py.Ok key.1 ∧ key.2 = pair.2) pairs keys.

(** The value of a filter is split on commas into these terms. *)
Definition terms (value : string) (parts : list string) : Prop :=
  String.concat "," parts = value ∧
  Forall (λ part, ","%char ∉ list_ascii_of_string part) parts.

(** A quoted term: the text between double quotes. *)
Definition quoted (exact : string) : string :=
  String utils.dquote (exact +:+ String utils.dquote EmptyString).

Definition substring (sub s : string) : Prop :=
  ∃ pre post, s = pre +:+ sub +:+ post.

(** A term accepts a text: a quoted term by case-insensitive equality, any
    other term by case-insensitive substring. *)
Definition accepts (term s : string) : Prop :=
  (∃ exact, term = quoted exact ∧ Py.lower s = Py.lower exact) ∨
  ((∀ exact, term ≠ quoted exact) ∧ substring (Py.lower term) (Py.lower s)).


End Spec.

(** ** Sample data *)

Module Sample.
Import Proc.

Definition printers : list models.Printer.t :=
  [ models.Printer.Build 1 1000000 "Exact Name" (Some (250 # 1)%Q) None None;
    models.Printer.Build 2 2000000 "Exact Name Pro" (Some (250 # 1)%Q) (Some (1 # 2)%Q) None;
    models.Printer.Build 3 3000000 "Voron" (Some (120 # 1)%Q) None (Some "0.6mm nozzle");
    models.Printer.Build 4 4000000 "Prusa" None None None;
    models.Printer.Build 5 5000000 "Bambu X1C" (Some (350 # 1)%Q) None None ].

(** The printers at the given positions of the table. *)
Definition pick (positions : list nat) : list models.Printer.t :=
  (λ i, nth i printers (models.Printer.Build 0 0 "" None None None)) <$> positions.

Definition filaments : list models.Filament.t :=
  [ models.Filament.Build 1 (Some "PLA") None ].

Definition blank (id : Z) (printer_id filament_id : option Z) : models.CostCalculation.t :=
  models.CostCalculation.Build id 0 printer_id filament_id None None None None None None None
    None None None None None None None None None None None.

Definition costs : list models.CostCalculation.t :=
  [ blank 1 (Some 1) (Some 1); blank 2 None (Some 1); blank 3 (Some 2) None;
    blank 4 (Some 1) None; blank 5 None None ].

(** A process with these tables, one subscriber of [("printer",)] and one
    of [("cost",)], and nothing pending. *)
Definition world : World :=
  BuildWorld (BuildDatabase printers filaments costs) [] []
    (BuildHub (websocket_manager.connect ["cost"] 2 (websocket_manager.connect ["printer"] 1 ∅)) [] [])
    [] (BuildEnv 1700000000123456 ∅ None).

End Sample.

(** ** spoolman/api/v1/printer.py: get, create, update, delete *)

Module PrinterCrud.
Import Py Proc utils.

Record PrinterParameters : Type := BuildParameters {
  name : string;
  power_watts : option Q;
  depreciation_cost_per_hour : option Q;
  comment : option string
}.

(** [PrinterUpdateParameters]: the name may be left out. *)
Record PrinterUpdateParameters : Type := BuildUpdateParameters {
  update_name : option string;
  update_power_watts : option Q;
  update_depreciation_cost_per_hour : option Q;
  update_comment : option string
}.

(** The keyword parameters that [printer_db.create] and [printer_db.update]
    declare. *)
Definition create_parameters : list string :=
  [ "db"; "name"; "power_watts"; "depreciation_cost_per_hour"; "comment" ].

Definition update_parameters : list string :=
  [ "db"; "printer_id"; "name"; "power_watts"; "depreciation_cost_per_hour"; "comment" ].

(** [JSONResponse(status_code=404, content=Message(message=e.args[0]).dict())] *)
Definition not_found_response (e : exn) : api_models.JSONResponse :=
  api_models.BuildResponse 404
    (api_models.Message match e with ItemNotFoundError msg => msg | _ => "" end) [].

Definition item_response (status_code : Z) (printer : models.Printer.t)
  : api_models.JSONResponse :=
  api_models.BuildResponse status_code
    (api_models.Item (api_models.PrinterPayload (api_models.Printer.from_db printer))) [].

(** [get(db, printer_id)] *)
Definition get (printer_id : Z) : M api_models.JSONResponse :=
  await outcome <- try_except
    (await db_item <- PrinterDb.get_by_id printer_id ;;
     ret (inl db_item))
    (λ e, if is_ItemNotFoundError e then Some (ret (inr (not_found_response e))) else None) ;;
  match outcome with
  | inr response => ret response
  | inl db_item => ret (item_response 200 db_item)
  end.

(** [await printer_db.create(db=db, name=body.name, ...)] *)
Definition call_create (kwargs : list (string * value)) : M models.Printer.t :=
  perform lift (bind_keywords "create" create_parameters ["db"; "name"] kwargs) ;;
  match kw_str "name" kwargs with
  | Some name =>
      PrinterDb.create name (kw_float "power_watts" kwargs)
        (kw_float "depreciation_cost_per_hour" kwargs) (kw_str "comment" kwargs)
  | None => raise (TypeError "name")
  end.

(** [create(db, body)] *)
Definition create (body : PrinterParameters) : M api_models.JSONResponse :=
  await printer <- call_create
    [ ("db", VSession); ("name", VStr (name body));
      ("power_watts", of_float (power_watts body));
      ("depreciation_cost_per_hour", of_float (depreciation_cost_per_hour body));
      ("comment", of_str (comment body)) ] ;;
  ret (item_response 201 printer).

(** [await printer_db.update(db=db, printer_id=printer_id, ...)] *)
Definition call_update (kwargs : list (string * value)) : M models.Printer.t :=
  perform lift (bind_keywords "update" update_parameters ["db"; "printer_id"] kwargs) ;;
  match kw_int "printer_id" kwargs with
  | Some printer_id =>
      PrinterDb.update printer_id (kw_str "name" kwargs) (kw_float "power_watts" kwargs)
        (kw_float "depreciation_cost_per_hour" kwargs) (kw_str "comment" kwargs)
  | None => raise (TypeError "printer_id")
  end.

(** [update(db, printer_id, body)] *)
Definition update (printer_id : Z) (body : PrinterUpdateParameters)
  : M api_models.JSONResponse :=
  await outcome <- try_except
    (await printer <- call_update
       [ ("db", VSession); ("printer_id", VInt printer_id);
         ("name", of_str (update_name body));
         ("power_watts", of_float (update_power_watts body));
         ("depreciation_cost_per_hour", of_float (update_depreciation_cost_per_hour body));
         ("comment", of_str (update_comment body)) ] ;;
     ret (inl printer))
    (λ e, if is_ItemNotFoundError e then Some (ret (inr (not_found_response e))) else None) ;;
  match outcome with
  | inr response => ret response
  | inl printer => ret (item_response 200 printer)
  end.

(** [delete(db, printer_id)] *)
Definition delete (printer_id : Z) : M api_models.JSONResponse :=
  await outcome <- try_except
    (perform PrinterDb.delete printer_id ;;
     ret (inl tt))
    (λ e, if is_ItemNotFoundError e then Some (ret (inr (not_found_response e))) else None) ;;
  match outcome with
  | inr response => ret response
  | inl _ => ret (api_models.BuildResponse 200 (api_models.Message "Printer deleted.") [])
  end.

End PrinterCrud.

(** ** spoolman/api/v1/cost.py: get, delete *)

Module CostCrud.
Import Py Proc utils.

(** [get(db, calculation_id)] *)
Definition get (calculation_id : Z) : M api_models.JSONResponse :=
  await outcome <- try_except
    (await db_item <- CostDb.get_by_id calculation_id ;;
     ret (inl db_item))
    (λ e, if is_ItemNotFoundError e
          then Some (ret (inr (CostApi.not_found_response e))) else None) ;;
  match outcome with
  | inr response => ret response
  | inl db_item => ret (CostApi.item_response 200 db_item)
  end.

(** [delete(db, calculation_id)] *)
Definition delete (calculation_id : Z) : M api_models.JSONResponse :=
  await outcome <- try_except
    (perform CostDb.delete calculation_id ;;
     ret (inl tt))
    (λ e, if is_ItemNotFoundError e
          then Some (ret (inr (CostApi.not_found_response e))) else None) ;;
  match outcome with
  | inr response => ret response
  | inl _ =>
      ret (api_models.BuildResponse 200 (api_models.Message "Cost calculation deleted.") [])
  end.

End CostCrud.

(** ** migrations/versions *)

Module alembic.

Inductive sqltype : Type :=
| Integer
| DateTime
| Float
| String_ (length : nat).

(** [sa.Column(name, type, nullable=, server_default=)] *)
Record Column : Type := BuildColumn {
  column_name : string;
  column_type : sqltype;
  nullable : bool;
  server_default : option string
}.

Inductive Constraint : Type :=
| ForeignKeyConstraint (columns : list string) (refcolumns : list string)
| PrimaryKeyConstraint (columns : list string).

Record Index : Type := BuildIndex {
  index_name : string;
  index_columns : list string;
  unique : bool
}.

Record Table : Type := BuildTable {
  columns : list Column;
  constraints : list Constraint;
  indexes : list Index
}.

(** What the database answers to a statement it cannot execute. *)
Inductive error : Type :=
| TableExists (table : string)
| NoSuchTable (table : string)
| IndexExists (index : string)
| NoSuchIndex (index : string)
| DuplicateColumn (column : string)
| NoSuchColumn (column : string).

(** [op.f(name)]: the name is final. *)
Definition f (name : string) : string := name.

(** [op.create_table(name, *columns_and_constraints)] *)
Definition create_table (name : string) (cols : list Column) (cons : list Constraint)
    (s : gmap string Table) : error + gmap string Table :=
  match s !! name with
  | Some _ => inl (TableExists name)
  | None => inr (<[name := BuildTable cols cons []]> s)
  end.

(** [op.drop_table(name)] *)
Definition drop_table (name : string) (s : gmap string Table) : error + gmap string Table :=
  match s !! name with
  | Some _ => inr (delete name s)
  | None => inl (NoSuchTable name)
  end.

(** [op.create_index(index_name, table_name, columns, unique=)] *)
Definition create_index (name table_name : string) (cols : list string) (uniq : bool)
    (s : gmap string Table) : error + gmap string Table :=
  match s !! table_name with
  | None => inl (NoSuchTable table_name)
  | Some t =>
      if decide (name ∈ index_name <$> indexes t) then inl (IndexExists name)
      else inr (<[table_name := BuildTable (columns t) (constraints t)
                                  (indexes t ++ [BuildIndex name cols uniq])]> s)
  end.

(** [op.drop_index(index_name, table_name=)]: the statement is
    [DROP INDEX index_name] and names no table, so that the database
    misses the index, not the table, where the table does not exist. *)
Definition drop_index (name table_name : string) (s : gmap string Table)
  : error + gmap string Table :=
  match s !! table_name with
  | None => inl (NoSuchIndex name)
  | Some t =>
      if decide (name ∈ index_name <$> indexes t)
      then inr (<[table_name := BuildTable (columns t) (constraints t)
                                  (filter (λ i, index_name i ≠ name) (indexes t))]> s)
      else inl (NoSuchIndex name)
  end.

(** [op.add_column(table_name, column)] *)
Definition add_column (table_name : string) (c : Column) (s : gmap string Table)
  : error + gmap string Table :=
  match s !! table_name with
  | None => inl (NoSuchTable table_name)
  | Some t =>
      if decide (column_name c ∈ column_name <$> columns t)
      then inl (DuplicateColumn (column_name c))
      else inr (<[table_name := BuildTable (columns t ++ [c]) (constraints t) (indexes t)]> s)
  end.

(** [op.drop_column(table_name, column_name)] *)
Definition drop_column (table_name name : string) (s : gmap string Table)
  : error + gmap string Table :=
  match s !! table_name with
  | None => inl (NoSuchTable table_name)
  | Some t =>
      if decide (name ∈ column_name <$> columns t)
      then inr (<[table_name := BuildTable (filter (λ c, column_name c ≠ name) (columns t))
                                  (constraints t) (indexes t)]> s)
      else inl (NoSuchColumn name)
  end.

(** One operation after the other; the first error ends the migration. *)
Definition andthen (r : error + gmap string Table)
    (op : gmap string Table → error + gmap string Table) : error + gmap string Table :=
  match r with
  | inl e => inl e
  | inr s => op s
  end.

(** The body of [upgrade] or [downgrade]: its operations in order. *)
Definition run (ops : list (gmap string Table → error + gmap string Table))
    (s : gmap string Table) : error + gmap string Table :=
  foldl andthen (inr s) ops.

End alembic.

(** 2024_08_22_0000-1b23c4567abc_printers_and_costs.py *)
Module Migration_1b23c4567abc.
Import alembic.

Definition printer_columns : list Column :=
  [ BuildColumn "id" Integer false None;
    BuildColumn "registered" DateTime false (Some "now()");
    BuildColumn "name" (String_ 128) false None;
    BuildColumn "power_watts" Float true None;
    BuildColumn "depreciation_cost_per_hour" Float true None;
    BuildColumn "comment" (String_ 1024) true None ].

Definition cost_calculation_columns : list Column :=
  [ BuildColumn "id" Integer false None;
    BuildColumn "created" DateTime false (Some "now()");
    BuildColumn "printer_id" Integer true None;
    BuildColumn "filament_id" Integer true None;
    BuildColumn "print_time_hours" Float true None;
    BuildColumn "labor_time_hours" Float true None;
    BuildColumn "filament_weight_g" Float true None;
    BuildColumn "material_cost" Float true None;
    BuildColumn "energy_cost" Float true None;
    BuildColumn "depreciation_cost" Float true None;
    BuildColumn "labor_cost" Float true None;
    BuildColumn "consumables_cost" Float true None;
    BuildColumn "failure_rate" Float true None;
    BuildColumn "markup_rate" Float true None;
    BuildColumn "base_price" Float true None;
    BuildColumn "uplifted_price" Float true None;
    BuildColumn "final_price" Float true None;
    BuildColumn "currency" (String_ 8) true None;
    BuildColumn "notes" (String_ 1024) true None ].

(** [upgrade()] *)
Definition upgrade (s : gmap string Table) : error + gmap string Table :=
  run [ create_table "printer" printer_columns [PrimaryKeyConstraint ["id"]];
        create_index (f "ix_printer_id") "printer" ["id"] false;
        create_table "cost_calculation" cost_calculation_columns
          [ ForeignKeyConstraint ["filament_id"] ["filament.id"];
            ForeignKeyConstraint ["printer_id"] ["printer.id"];
            PrimaryKeyConstraint ["id"] ];
        create_index (f "ix_cost_calculation_id") "cost_calculation" ["id"] false ] s.

(** [downgrade()] *)
Definition downgrade (s : gmap string Table) : error + gmap string Table :=
  run [ drop_index (f "ix_cost_calculation_id") "cost_calculation";
        drop_table "cost_calculation";
        drop_index (f "ix_printer_id") "printer";
        drop_table "printer" ] s.

End Migration_1b23c4567abc.

(** 2024_09_01_0001-merge_printers_and_multicolor_heads.py *)
Module Migration_merge_printers_and_multicolor_heads.
Import alembic.

(** [upgrade()]: [pass] *)
Definition upgrade (s : gmap string Table) : error + gmap string Table := inr s.

(** [downgrade()]: [pass] *)
Definition downgrade (s : gmap string Table) : error + gmap string Table := inr s.

End Migration_merge_printers_and_multicolor_heads.

(** 2025_02_12_0000-8c3c0a0b8f6c_cost_calculation_form_fields.py *)
Module Migration_8c3c0a0b8f6c.
Import alembic.

(** [upgrade()] *)
Definition upgrade (s : gmap string Table) : error + gmap string Table :=
  run [ add_column "cost_calculation" (BuildColumn "energy_cost_per_kwh" Float true None);
        add_column "cost_calculation" (BuildColumn "labor_cost_per_hour" Float true None);
        add_column "cost_calculation" (BuildColumn "item_names" (String_ 512) true None) ] s.

(** [downgrade()] *)
Definition downgrade (s : gmap string Table) : error + gmap string Table :=
  run [ drop_column "cost_calculation" "item_names";
        drop_column "cost_calculation" "labor_cost_per_hour";
        drop_column "cost_calculation" "energy_cost_per_kwh" ] s.

End Migration_8c3c0a0b8f6c.

(** ** Notions used by the further properties *)

Module Notions.

(** A text that starts with a decimal digit. *)
Definition digit_headed (s : string) : Prop :=
  ∃ d rest, 0 ≤ d < 10 ∧ s = String (ascii_of_nat (48 + Z.to_nat d)) rest.

(** An item of the sort parameter that the loop accepts: [field:direction]
    with a direction that is [asc] or [desc] in any letter case. *)
Definition sort_item_ok (item : string) : Prop :=
  ∃ field direction order,
    Py.split ":"%char item = [field; direction] ∧
    utils.SortOrder_getitem (Py.upper direction) = Py.Ok order.



(** The sample process with every printer row stored twice. *)
Definition doubled : Proc.World :=
  Proc.set_db (Proc.BuildDatabase (Sample.printers ++ Sample.printers) Sample.filaments
                 Sample.costs) Sample.world.

(** The tables with another [printer] table. *)
Definition with_printers (table : list models.Printer.t) (d : Proc.Database) : Proc.Database :=
  Proc.BuildDatabase table (Proc.filament_table d) (Proc.cost_table d).

(** The tables with another [cost_calculation] table. *)
Definition with_costs (table : list models.CostCalculation.t) (d : Proc.Database)
  : Proc.Database :=
  Proc.BuildDatabase (Proc.printer_table d) (Proc.filament_table d) table.

(** No exception that [websocket_manager.send] raises escapes
    [except Exception]. *)
Definition send_raises_only_Exception (w : Proc.World) : Prop :=
  ∀ e, Proc.send_fault (Proc.env w) = Some e → Py.is_Exception e = true.

(** The printer and the filament that the references of a request name. *)
Definition printer_of (w : Proc.World) (a : CostDb.Fields) : option models.Printer.t :=
  k ← CostDb.printer_id a;
  Io.row_by_id models.Printer.id k (Proc.printer_table (Proc.db w)).

Definition filament_of (w : Proc.World) (a : CostDb.Fields) : option models.Filament.t :=
  k ← CostDb.filament_id a;
  Io.row_by_id models.Filament.id k (Proc.filament_table (Proc.db w)).

(** The references of a request name stored rows. *)
Definition references_resolve (w : Proc.World) (a : CostDb.Fields) : Prop :=
  (∀ k, CostDb.printer_id a = Some k →
        k ∈ models.Printer.id <$> Proc.printer_table (Proc.db w)) ∧
  (∀ k, CostDb.filament_id a = Some k →
        k ∈ models.Filament.id <$> Proc.filament_table (Proc.db w)).

(** The request fields read back from a stored row. *)
Definition fields_of (c : models.CostCalculation.t) : CostDb.Fields :=
  CostDb.BuildFields (models.CostCalculation.printer_id c) (models.CostCalculation.filament_id c)
    (models.CostCalculation.print_time_hours c) (models.CostCalculation.labor_time_hours c)
    (models.CostCalculation.filament_weight_g c) (models.CostCalculation.material_cost c)
    (models.CostCalculation.energy_cost c) (models.CostCalculation.depreciation_cost c)
    (models.CostCalculation.labor_cost c) (models.CostCalculation.consumables_cost c)
    (models.CostCalculation.failure_rate c) (models.CostCalculation.markup_rate c)
    (models.CostCalculation.base_price c) (models.CostCalculation.uplifted_price c)
    (models.CostCalculation.final_price c) (models.CostCalculation.currency c)
    (models.CostCalculation.notes c).

(** The fields of [new] where given, those of [old] elsewhere. *)
Definition overlay (new old : CostDb.Fields) : CostDb.Fields :=
  CostDb.BuildFields
    (Common.or_else (CostDb.printer_id new) (CostDb.printer_id old))
    (Common.or_else (CostDb.filament_id new) (CostDb.filament_id old))
    (Common.or_else (CostDb.print_time_hours new) (CostDb.print_time_hours old))
    (Common.or_else (CostDb.labor_time_hours new) (CostDb.labor_time_hours old))
    (Common.or_else (CostDb.filament_weight_g new) (CostDb.filament_weight_g old))
    (Common.or_else (CostDb.material_cost new) (CostDb.material_cost old))
    (Common.or_else (CostDb.energy_cost new) (CostDb.energy_cost old))
    (Common.or_else (CostDb.depreciation_cost new) (CostDb.depreciation_cost old))
    (Common.or_else (CostDb.labor_cost new) (CostDb.labor_cost old))
    (Common.or_else (CostDb.consumables_cost new) (CostDb.consumables_cost old))
    (Common.or_else (CostDb.failure_rate new) (CostDb.failure_rate old))
    (Common.or_else (CostDb.markup_rate new) (CostDb.markup_rate old))
    (Common.or_else (CostDb.base_price new) (CostDb.base_price old))
    (Common.or_else (CostDb.uplifted_price new) (CostDb.uplifted_price old))
    (Common.or_else (CostDb.final_price new) (CostDb.final_price old))
    (Common.or_else (CostDb.currency new) (CostDb.currency old))
    (Common.or_else (CostDb.notes new) (CostDb.notes old)).

(** The three columns of migration 8c3c0a0b8f6c. *)
Definition form_fields (c : models.CostCalculation.t) : option Q * option Q * option string :=
  (models.CostCalculation.energy_cost_per_kwh c, models.CostCalculation.labor_cost_per_hour c,
   models.CostCalculation.item_names c).

(** The object that [update] builds from the loaded calculation [old]:
    the references assigned first, then the other fields. *)
Definition updated (w : Proc.World) (a : CostDb.Fields) (old : models.CostCalculation.t)
  : models.CostCalculation.obj :=
  let loaded := Io.load_cost (Proc.db w) old in
  let c1 := match printer_of w a with
            | Some p => CostDb.with_printer p loaded
            | None => loaded
            end in
  let c2 := match filament_of w a with
            | Some f => CostDb.with_filament f c1
            | None => c1
            end in
  models.CostCalculation.Obj (CostDb.assign a (models.CostCalculation.row c2))
    (models.CostCalculation.printer c2) (models.CostCalculation.filament c2).

(** How a mutation [m] behaves when [send] raises [e], with the websockets
    of [b] broken, against the same mutation when nothing fails: the tables
    and the session end the same, no frame is written and the registry
    stays; where the undisturbed mutation returns, an [Exception] is logged
    and the same value returned, and any other exception reaches the caller
    although the commit was done; where it raises, the same is raised and
    nothing is logged. *)
Definition notification_fault {A} (m : Proc.M A) (w : Proc.World) (b : gset nat) (e : Py.exn)
  : Prop :=
  let faulty := m (Proc.with_faults b (Some e) w) in
  let clean := m (Proc.with_faults ∅ None w) in
  Proc.db faulty.2 = Proc.db clean.2 ∧
  Proc.session faulty.2 = Proc.session clean.2 ∧
  Proc.frames (Proc.hub faulty.2) = Proc.frames (Proc.hub w) ∧
  Proc.registry (Proc.hub faulty.2) = Proc.registry (Proc.hub w) ∧
  match clean.1 with
  | Py.Ok r =>
      if Py.is_Exception e
      then faulty.1 = Py.Ok r ∧ Proc.logged faulty.2 = Proc.logged w ++ [e]
      else faulty.1 = Py.Raise e ∧ Proc.logged faulty.2 = Proc.logged w
  | Py.Raise x => faulty.1 = Py.Raise x ∧ Proc.logged faulty.2 = Proc.logged w
  end.

(** A coroutine that neither reads nor changes what the notification step
    works on: it runs the same whatever the faults of the environment, and
    leaves the websocket manager and the log alone. *)
Definition internal {A} (m : Proc.M A) : Prop :=
  ∀ w b f,
    m (Proc.with_faults b f w) = ((m w).1, Proc.with_faults b f (m w).2) ∧
    Proc.hub (m w).2 = Proc.hub w ∧ Proc.logged (m w).2 = Proc.logged w.

(** What an endpoint makes of the outcome of the database layer: the
    response built from a result, 404 from [ItemNotFoundError], and every
    other exception passed on. *)
Definition answered {A} (respond : A → api_models.JSONResponse)
    (not_found : Py.exn → api_models.JSONResponse) (out : Py.result A * Proc.World)
  : Py.result api_models.JSONResponse * Proc.World :=
  match out with
  | (Py.Ok a, w') => (Py.Ok (respond a), w')
  | (Py.Raise e, w') =>
      if Py.is_ItemNotFoundError e then (Py.Ok (not_found e), w') else (Py.Raise e, w')
  end.

(** The frames that a coroutine wrote: those of the manager after it that
    were not there before. *)
Definition written_by {A} (m : Proc.M A) (w : Proc.World) : list (nat * api_models.Event) :=
  drop (length (Proc.frames (Proc.hub w))) (Proc.frames (Proc.hub (m w).2)).

(** The websocket is served by a handler that subscribed it under [topic]
    and is still in its loop; before, no topic entry held it. *)
Definition listening (topic : websocket_manager.Topic) (websocket : nat) (w : Proc.World)
  : Prop :=
  ∃ reg turns,
    ¬ websocket_manager.registered websocket reg ∧
    Session.serve topic websocket None turns reg = (Session.Serving, Proc.registry (Proc.hub w)).


Definition cost_calculation_schema : alembic.Table :=
  alembic.BuildTable Migration_1b23c4567abc.cost_calculation_columns
    [ alembic.ForeignKeyConstraint ["filament_id"] ["filament.id"];
      alembic.ForeignKeyConstraint ["printer_id"] ["printer.id"];
      alembic.PrimaryKeyConstraint ["id"] ]
    [alembic.BuildIndex "ix_cost_calculation_id" ["id"] false].

(** The columns that migration 8c3c0a0b8f6c adds. *)
Definition form_columns : list alembic.Column :=
  [ alembic.BuildColumn "energy_cost_per_kwh" alembic.Float true None;
    alembic.BuildColumn "labor_cost_per_hour" alembic.Float true None;
    alembic.BuildColumn "item_names" (alembic.String_ 512) true None ].

(** A table with the columns of migration 8c3c0a0b8f6c added. *)
Definition with_form_columns (t : alembic.Table) : alembic.Table :=
  alembic.BuildTable (alembic.columns t ++ form_columns) (alembic.constraints t)
    (alembic.indexes t).

End Notions.

(** * Properties *)

(** Closes a decidable goal on concrete data by evaluation. *)
Ltac by_compute := apply (bool_decide_unpack _); vm_compute; exact I.

(** ** Registry *)

Lemma subscribers_connect t t' ws reg :
  websocket_manager.subscribers (websocket_manager.connect t ws reg) t' =
  if decide (t = t') then {[ws]} ∪ websocket_manager.subscribers reg t else websocket_manager.subscribers reg t'.
Proof.
  unfold websocket_manager.connect, websocket_manager.subscribers at 1. rewrite lookup_insert.
  by case_decide; subst.
Qed.

Lemma subscribers_disconnect t t' ws reg :
  websocket_manager.subscribers (websocket_manager.disconnect t ws reg) t' =
  if decide (t = t') then websocket_manager.subscribers reg t ∖ {[ws]} else websocket_manager.subscribers reg t'.
Proof.
  unfold websocket_manager.disconnect, websocket_manager.subscribers. rewrite lookup_alter.
  case_decide; subst; [|done].
  destruct (reg !! t'); simpl; [done|]. set_solver.
Qed.

Lemma elem_of_prefixes (p t : websocket_manager.Topic) : p ∈ websocket_manager.prefixes t ↔ p `prefix_of` t.
Proof.
  revert p. induction t as [|seg t IH]; intros p; simpl.
  - rewrite list_elem_of_singleton. split.
    + by intros ->.
    + intros Hp. by apply prefix_nil_inv in Hp.
  - rewrite elem_of_cons, list_elem_of_fmap. split.
    + intros [->|(q & -> & Hq)]; [apply prefix_nil|].
      apply prefix_cons, IH, Hq.
    + destruct p as [|a p]; [by left|]. intros Hp. right.
      pose proof (prefix_cons_inv_1 _ _ _ _ Hp) as ->.
      exists p. split; [done|]. apply IH. exact (prefix_cons_inv_2 _ _ _ _ Hp).
Qed.

Lemma elem_of_targets ws t reg :
  ws ∈ websocket_manager.targets t reg ↔ ∃ p, p `prefix_of` t ∧ ws ∈ websocket_manager.subscribers reg p.
Proof.
  unfold websocket_manager.targets. rewrite elem_of_union_list. split.
  - intros (X & HX & Hws). apply list_elem_of_fmap in HX as (p & -> & Hp).
    exists p. by rewrite <- elem_of_prefixes.
  - intros (p & Hp & Hws). exists (websocket_manager.subscribers reg p). split; [|done].
    apply list_elem_of_fmap. exists p. by rewrite elem_of_prefixes.
Qed.

Lemma elem_of_frames {Event} broken t (e e' : Event) reg ws :
  (ws, e') ∈ (websocket_manager.publish broken t e reg).2 ↔ e' = e ∧ ws ∈ websocket_manager.targets t reg ∧ ws ∉ broken.
Proof.
  unfold websocket_manager.publish; simpl. rewrite list_elem_of_fmap. split.
  - intros (x & [= -> ->] & Hx). apply elem_of_elements in Hx. set_solver.
  - intros (-> & Hin & Hb). exists ws. split; [done|].
    apply elem_of_elements. set_solver.
Qed.

(** C2. [publish(T, e)] writes [e] to the websockets subscribed to [T] or to
    a strict prefix of [T] and to no other websocket; each of them whose
    stream is not broken receives exactly that event; in particular an event
    published under [(resource, id)] reaches the subscribers of
    [(resource,)]. *)
Theorem publish_reaches_topic_and_ancestors {Event} (broken : gset nat) (T : websocket_manager.Topic)
    (e : Event) (reg : gmap (list string) (gset nat)) :
  (∀ ws, ws ∈ websocket_manager.targets T reg ↔
         ws ∈ websocket_manager.subscribers reg T ∨
         ∃ P, P `prefix_of` T ∧ P ≠ T ∧ ws ∈ websocket_manager.subscribers reg P) ∧
  (∀ ws e', (ws, e') ∈ (websocket_manager.publish broken T e reg).2 ↔
            e' = e ∧ ws ∈ websocket_manager.targets T reg ∧ ws ∉ broken) ∧
  (∀ ws P, ws ∈ websocket_manager.subscribers reg P → ¬ P `prefix_of` T →
           (∀ Q, Q `prefix_of` T → ws ∉ websocket_manager.subscribers reg Q) →
           ∀ e', (ws, e') ∉ (websocket_manager.publish broken T e reg).2) ∧
  (∀ ws resource id, T = [resource; id] → ws ∈ websocket_manager.subscribers reg [resource] →
           ws ∉ broken → (ws, e) ∈ (websocket_manager.publish broken T e reg).2).
Proof.
  split; [|split; [|split]].
  - intros ws. rewrite elem_of_targets. split.
    + intros (P & HP & Hws). destruct (decide (P = T)) as [->|Hne]; [by left|].
      right. by exists P.
    + intros [Hws|(P & HP & _ & Hws)]; [by exists T|by exists P].
  - intros ws e'. apply elem_of_frames.
  - intros ws P _ _ Hnone e' Hin. apply elem_of_frames in Hin as (_ & Hin & _).
    apply elem_of_targets in Hin as (Q & HQ & Hws). by apply (Hnone Q).
  - intros ws resource id -> Hws Hb. apply elem_of_frames. split; [done|]. split; [|done].
    apply elem_of_targets. exists [resource]. split; [|done].
    by exists [id].
Qed.

(** ** Sessions *)

Lemma not_registered_after_release topic ws reg :
  ¬ websocket_manager.registered ws reg →
  ¬ websocket_manager.registered ws (websocket_manager.disconnect topic ws (websocket_manager.connect topic ws reg)).
Proof.
  intros Hfresh [t Ht]. rewrite subscribers_disconnect in Ht.
  case_decide as Heq.
  - set_solver.
  - rewrite subscribers_connect in Ht. rewrite decide_False in Ht by done.
    apply Hfresh. by exists t.
Qed.

(** C1. The handlers at an exit that is no disconnect: a session whose loop
    is left by an exception other than [WebSocketDisconnect] (here a failing
    [send_json], and a cancellation during [sleep]) is over while the
    registry still holds its websocket.  The handlers unsubscribe in
    [except WebSocketDisconnect] only, where the release on every exit path
    asks for a [finally]. *)
Lemma release_on_every_exit_fails :
  let error := PrinterApi.notify_any 7 None
                 [Session.ReceiveText "ping" (Some (Py.RuntimeError "send after close"))] ∅ in
  let cancelled := CostApi.notify 8 "3" None [Session.SleepRaises Py.CancelledError] ∅ in
  (Session.terminated error.1 ∧ ¬ websocket_manager.registered 7%nat ∅ ∧
   7%nat ∈ websocket_manager.subscribers error.2 ["printer"]) ∧
  (Session.terminated cancelled.1 ∧ ¬ websocket_manager.registered 8%nat ∅ ∧
   8%nat ∈ websocket_manager.subscribers cancelled.2 ["cost"; "3"]).
Proof.
  repeat split; try discriminate; try (intros [t Ht]; set_solver); by_compute.
Qed.

(** X25. The exits of a handler, as the code has them.  When its loop is
    left by [WebSocketDisconnect] the handler unsubscribes: it then returns,
    its websocket is no longer subscribed to the topic of the session, and a
    websocket that no topic entry held before the session is held by none
    after it.  When the loop is left by any other exception, the exception
    leaves the handler and the subscription stays. *)
Theorem session_releases_on_disconnect (topic : websocket_manager.Topic) (websocket : nat)
    (turns : list Session.turn) (reg : gmap (list string) (gset nat)) (e : Py.exn) :
  Session.heartbeat turns = Some e →
  let out := Session.serve topic websocket None turns reg in
  (Py.is_WebSocketDisconnect e = true →
     fst out = Session.Returned ∧
     (websocket ∉ websocket_manager.subscribers (snd out) topic) ∧
     (¬ websocket_manager.registered websocket reg → ¬ websocket_manager.registered websocket (snd out))) ∧
  (Py.is_WebSocketDisconnect e = false →
     fst out = Session.Propagated e ∧
     websocket ∈ websocket_manager.subscribers (snd out) topic).
Proof.
  intros Hloop. unfold Session.serve. rewrite Hloop. simpl. split; intros ->; simpl.
  - split; [done|]. split.
    + rewrite subscribers_disconnect. rewrite decide_True; [set_solver|done].
    + apply not_registered_after_release.
  - split; [done|]. rewrite subscribers_connect. rewrite decide_True; [set_solver|done].
Qed.

Lemma session_releases_on_disconnect_witness :
  let out := PrinterApi.notify 7 "42" None
               [Session.ReceiveText "" None; Session.ReceiveText "ping" None;
                Session.ReceiveRaises (Py.WebSocketDisconnect 1001)] ∅ in
  fst out = Session.Returned ∧ (7%nat ∉ websocket_manager.subscribers (snd out) ["printer"; "42"]) ∧
  ¬ websocket_manager.registered 7%nat (snd out).
Proof.
  pose proof (session_releases_on_disconnect ["printer"; "42"] 7
                [Session.ReceiveText "" None; Session.ReceiveText "ping" None;
                 Session.ReceiveRaises (Py.WebSocketDisconnect 1001)] ∅
                (Py.WebSocketDisconnect 1001) eq_refl) as [Hrel _].
  destruct (Hrel eq_refl) as (Hret & Hsub & Hreg).
  split; [exact Hret|]. split; [exact Hsub|].
  apply Hreg. intros [t Ht]. unfold websocket_manager.subscribers in Ht.
  rewrite lookup_empty in Ht. simpl in Ht. set_solver.
Defined.

Lemma publish_reaches_topic_and_ancestors_witness :
  let reg := websocket_manager.connect ["printer"; "42"] 2 (websocket_manager.connect ["printer"] 1 (websocket_manager.connect ["cost"] 3 ∅)) in
  let e := api_models.BuildEvent api_models.UPDATED "printer" 0
             (api_models.PrinterPayload (api_models.Printer.from_db
                (models.Printer.Build 42 0 "Voron" None None None))) in
  (1%nat, e) ∈ (websocket_manager.publish ∅ ["printer"; "42"] e reg).2 ∧
  (∀ e', (3%nat, e') ∉ (websocket_manager.publish ∅ ["printer"; "42"] e reg).2).
Proof.
  intros reg e.
  destruct (publish_reaches_topic_and_ancestors ∅ ["printer"; "42"] e reg)
    as (_ & _ & Hnone & Hcoll).
  split.
  - apply (Hcoll 1%nat "printer" "42" eq_refl); [|set_solver].
    by_compute.
  - apply (Hnone 3%nat ["cost"]).
    + by_compute.
    + intros [k Hk]. discriminate Hk.
    + intros Q HQ. apply elem_of_prefixes in HQ. simpl in HQ.
      repeat (apply elem_of_cons in HQ as [->|HQ]); try (by apply elem_of_nil in HQ);
        by_compute.
Defined.

(** ** Pagination *)

Lemma unique_NoDup {R} (key : R → Z) (l : list R) (seen : list Z) :
  NoDup (key <$> l) → (∀ x, x ∈ l → key x ∉ seen) → utils.unique key seen l = l.
Proof.
  revert seen. induction l as [|r l IH]; intros seen Hnd Hseen; simpl; [done|].
  rewrite fmap_cons in Hnd. apply NoDup_cons in Hnd as [Hr Hnd].
  rewrite decide_False by (apply Hseen; left).
  f_equal. apply IH; [done|].
  intros x Hx. rewrite not_elem_of_cons. split.
  - intros Heq. apply Hr. rewrite <- Heq. by apply list_elem_of_fmap_2.
  - apply Hseen. by right.
Qed.

Lemma order_by_items_clauses {R} (parse : string → Py.result (R → utils.Value))
    (items : list (string * utils.SortOrder)) (stmt stmt' : utils.Select R) :
  Common.order_by_items parse items stmt = Py.Ok stmt' →
  utils.whereclause stmt' = utils.whereclause stmt ∧
  utils.offset_clause stmt' = utils.offset_clause stmt ∧
  utils.limit_clause stmt' = utils.limit_clause stmt.
Proof.
  revert stmt. induction items as [|[fieldstr order] items IH]; intros stmt; simpl.
  - by intros [= ->].
  - destruct (parse fieldstr) as [f|e]; [|done].
    intros Hrest. by destruct (IH _ Hrest) as (-> & -> & ->).
Qed.

Lemma bindable_clauses {R} (stmt stmt' : utils.Select R) :
  utils.offset_clause stmt' = utils.offset_clause stmt →
  utils.limit_clause stmt' = utils.limit_clause stmt →
  Common.bindable stmt' = Common.bindable stmt.
Proof. unfold Common.bindable. by intros -> ->. Qed.

(** [find_page], one [await] after the other. *)
Lemma find_page_unfold {R} (table : Proc.Database → list R) (key : R → Z)
    (parse : string → Py.result (R → utils.Value)) (stmt : utils.Select R)
    (sort_by : option (list (string * utils.SortOrder))) (limit : option Z) (offset : Z)
    (w : Proc.World) :
  Common.find_page table key parse stmt sort_by limit offset w =
  let paged := match limit with
               | Some n => utils.limit n (utils.offset offset stmt)
               | None => stmt
               end in
  let w1 := match limit with
            | Some _ => Proc.set_queries (Proc.queries w ++ [Proc.CountQuery]) w
            | None => w
            end in
  match Common.order_by_items parse (default [] sort_by) paged with
  | Py.Raise e => (Py.Raise e, w1)
  | Py.Ok ordered =>
      if Common.bindable paged
      then
        let items := utils.unique key [] (utils.rows ordered (table (Proc.db w))) in
        (Py.Ok (items, match limit with
                       | Some _ => utils.count stmt (table (Proc.db w))
                       | None => length items
                       end),
         Proc.set_queries (Proc.queries w1 ++ [Proc.RowsQuery]) w1)
      else (Py.Raise Io.overflow, w1)
  end.
Proof.
  unfold Common.find_page, Proc.bind, Proc.ret, Proc.lift, Common.execute_count,
    Common.execute_rows.
  destruct limit as [n|], sort_by as [items|]; simpl;
    try (destruct (Common.order_by_items parse items _) as [ordered|e] eqn:Hord; simpl;
         [apply order_by_items_clauses in Hord as (_ & Hoff & Hlim);
          rewrite (bindable_clauses _ _ Hoff Hlim)|]);
    try (destruct (Common.bindable _)); reflexivity.
Qed.

Lemma matching_clauses {R} (stmt stmt' : utils.Select R) (table : list R) :
  utils.whereclause stmt' = utils.whereclause stmt →
  utils.matching stmt' table = utils.matching stmt table.
Proof. unfold utils.matching. by intros ->. Qed.

Lemma rows_NoDup {R} (key : R → Z) (stmt : utils.Select R) (table : list R) :
  NoDup (key <$> table) → NoDup (key <$> utils.rows stmt table).
Proof.
  intros Hnd. unfold utils.rows.
  assert (NoDup (key <$> merge_sort (utils.precedes (utils.order_by_clauses stmt))
                           (utils.matching stmt table))) as Hsorted.
  { rewrite merge_sort_Permutation.
    apply (sublist_NoDup _ _ Hnd), fmap_sublist. unfold utils.matching.
    apply sublist_filter. }
  destruct (utils.limit_clause stmt) as [n|]; [destruct (n <? 0)|];
    apply (sublist_NoDup _ _ Hsorted), fmap_sublist.
  - apply sublist_drop.
  - etrans; [apply sublist_take|apply sublist_drop].
  - apply sublist_drop.
Qed.

Lemma find_page_paginated {R} (table : Proc.Database → list R) (key : R → Z)
    (parse : string → Py.result (R → utils.Value)) (stmt : utils.Select R)
    (sort_by : option (list (string * utils.SortOrder))) (limit : option Z) (offset : Z)
    (w : Proc.World) (found : list R * nat) :
  utils.offset_clause stmt = 0 → utils.limit_clause stmt = None →
  NoDup (key <$> table (Proc.db w)) →
  (Common.find_page table key parse stmt sort_by limit offset w).1 = Py.Ok found →
  Spec.paginated (utils.matching stmt (table (Proc.db w))) limit offset found.
Proof.
  intros Hoff Hlim Hnd. rewrite find_page_unfold. cbv zeta.
  destruct (Common.order_by_items parse _ _) as [ordered|e] eqn:Hord; [|done].
  apply order_by_items_clauses in Hord as (Hwhere & Hoff' & Hlim').
  destruct (Common.bindable _); [|done].
  simpl. intros [= <-]. simpl.
  rewrite unique_NoDup.
  2: { by apply rows_NoDup. }
  2: { intros x _. apply not_elem_of_nil. }
  assert (utils.matching ordered (table (Proc.db w)) =
          utils.matching stmt (table (Proc.db w))) as Hmatch.
  { apply matching_clauses. rewrite Hwhere. by destruct limit. }
  unfold utils.rows. rewrite Hoff', Hlim', Hmatch.
  set (matched := utils.matching stmt (table (Proc.db w))).
  set (sorted := merge_sort _ matched).
  assert (length sorted = length matched) as Hlen.
  { unfold sorted. by rewrite merge_sort_Permutation. }
  unfold Spec.paginated. destruct limit as [n|]; simpl.
  - unfold utils.count. fold matched.
    destruct (Z.ltb_spec n 0) as [Hneg|Hpos];
      rewrite ?length_take, length_drop, Hlen; (split; [|split]; [|done|lia]);
      intros ? [= <-]; (split; [done|lia]).
  - rewrite Hoff, Hlim. simpl. rewrite drop_0. split; [done|]. split; [|done].
    intros _. split; [|done]. apply merge_sort_Permutation.
Qed.





(** ** Ordering *)

Lemma ordering_Lt_le {A} (c : A → A → comparison) a b d :
  Spec.ordering c → c a b = Lt → c b d ≠ Gt → c a d = Lt.
Proof.
  intros [Hsym Htrans] Hab Hbd.
  assert (c a d ≠ Gt) as Had by (apply (Htrans a b d); [by rewrite Hab|done]).
  destruct (c a d) eqn:E; [|done|done].
  exfalso. apply (Htrans b d a); [done|by rewrite Hsym, E|].
  by rewrite Hsym, Hab.
Qed.

Lemma ordering_le_Lt {A} (c : A → A → comparison) a b d :
  Spec.ordering c → c a b ≠ Gt → c b d = Lt → c a d = Lt.
Proof.
  intros [Hsym Htrans] Hab Hbd.
  assert (c a d ≠ Gt) as Had by (apply (Htrans a b d); [done|by rewrite Hbd]).
  destruct (c a d) eqn:E; [|done|done].
  exfalso. apply (Htrans d a b); [by rewrite Hsym, E|done|].
  by rewrite Hsym, Hbd.
Qed.

Lemma ordering_Eq_Eq {A} (c : A → A → comparison) a b d :
  Spec.ordering c → c a b = Eq → c b d = Eq → c a d = Eq.
Proof.
  intros [Hsym Htrans] Hab Hbd.
  assert (c a d ≠ Gt) as Had by (apply (Htrans a b d); [by rewrite Hab|by rewrite Hbd]).
  assert (c d a ≠ Gt) as Hda.
  { apply (Htrans d b a); [by rewrite Hsym, Hbd|by rewrite Hsym, Hab]. }
  rewrite Hsym in Hda. by destruct (c a d).
Qed.

Lemma string_compare_trans (a b d : string) :
  String.compare a b ≠ Gt → String.compare b d ≠ Gt → String.compare a d ≠ Gt.
Proof.
  revert b d. induction a as [|x a IH]; intros [|y b] [|z d]; simpl; try done.
  unfold Ascii.compare.
  destruct (N.compare_spec (N_of_ascii x) (N_of_ascii y)) as [Hxy|Hxy|Hxy]; [| |done];
    destruct (N.compare_spec (N_of_ascii y) (N_of_ascii z)) as [Hyz|Hyz|Hyz]; try done;
    destruct (N.compare_spec (N_of_ascii x) (N_of_ascii z)) as [Hxz|Hxz|Hxz];
    try done; try lia.
  apply IH.
Qed.

Lemma compare_value_ordering : Spec.ordering utils.compare_value.
Proof.
  split.
  - intros [|x|x|x] [|y|y|y]; simpl; try done.
    + apply Z.compare_antisym.
    + symmetry. apply Qcompare_antisym.
    + apply String.compare_antisym.
  - intros [|x|x|x] [|y|y|y] [|z|z|z]; simpl; try done.
    + rewrite !Z.compare_le_iff. lia.
    + rewrite <- !Qle_alt. apply Qle_trans.
    + apply string_compare_trans.
Qed.

Lemma compare_key_ordering {R} (key : (R → utils.Value) * utils.SortOrder) :
  Spec.ordering (utils.compare_key key).
Proof.
  destruct compare_value_ordering as [Hsym Htrans].
  destruct key as [f [|]]; unfold utils.compare_key; simpl; split.
  - intros a b. apply Hsym.
  - intros a b d. apply Htrans.
  - intros a b. apply Hsym.
  - intros a b d Hab Hbd. by apply (Htrans _ (f b)).
Qed.

Lemma compare_rows_ordering {R} (keys : list ((R → utils.Value) * utils.SortOrder)) :
  Spec.ordering (utils.compare_rows keys).
Proof.
  induction keys as [|key keys [IHsym IHtrans]]; [by split|].
  pose proof (compare_key_ordering key) as Hkey.
  split.
  - intros a b. simpl. rewrite (proj1 Hkey a b).
    destruct (utils.compare_key key a b); simpl; auto.
  - intros a b d. simpl.
    destruct (utils.compare_key key a b) eqn:Hab; [| |done];
      destruct (utils.compare_key key b d) eqn:Hbd; try done.
    + rewrite (ordering_Eq_Eq _ a b d Hkey Hab Hbd). apply IHtrans.
    + intros _ _. rewrite (ordering_le_Lt _ a b d Hkey); [done|by rewrite Hab|done].
    + intros _ _. rewrite (ordering_Lt_le _ a b d Hkey); [done|done|by rewrite Hbd].
    + intros _ _. rewrite (ordering_Lt_le _ a b d Hkey); [done|done|by rewrite Hbd].
Qed.

Lemma precedes_total {R} (keys : list ((R → utils.Value) * utils.SortOrder)) :
  Total (utils.precedes keys).
Proof.
  intros a b. unfold utils.precedes.
  rewrite (proj1 (compare_rows_ordering keys) a b).
  destruct (utils.compare_rows keys a b); simpl; auto.
Qed.

Lemma precedes_transitive {R} (keys : list ((R → utils.Value) * utils.SortOrder)) :
  Transitive (utils.precedes keys).
Proof. intros a b d. apply (proj2 (compare_rows_ordering keys)). Qed.

Lemma precedes_cons {R} (key : (R → utils.Value) * utils.SortOrder) keys (a b : R) :
  utils.precedes (key :: keys) a b ↔
  utils.compare_key key a b = Lt ∨
  (utils.compare_key key a b = Eq ∧ utils.precedes keys a b).
Proof.
  unfold utils.precedes. simpl.
  destruct (utils.compare_key key a b); naive_solver.
Qed.

(** ** Sorting *)

Lemma dict_set_fresh {V} (k : string) (v : V) (d : list (string * V)) :
  k ∉ d.*1 → Py.dict_set k v d = d ++ [(k, v)].
Proof.
  induction d as [|[k' v'] d IH]; simpl; [done|].
  rewrite not_elem_of_cons. intros [Hne Hk].
  rewrite decide_False by done. by rewrite IH.
Qed.

Lemma sort_items_listed (items : list string) (pairs acc : list (string * utils.SortOrder)) :
  Forall2 (λ item pair,
             ∃ direction, Py.split ":"%char item = [pair.1; direction] ∧
                          utils.SortOrder_getitem (Py.upper direction) = Py.Ok pair.2)
    items pairs →
  NoDup (acc.*1 ++ pairs.*1) →
  PrinterApi.sort_items items acc = Py.Ok (acc ++ pairs).
Proof.
  intros Hall. revert acc.
  induction Hall as [|item [field order] items pairs (direction & Hsplit & Hdir) _ IH];
    intros acc Hnd; simpl.
  - by rewrite app_nil_r.
  - simpl in Hsplit, Hdir. rewrite Hsplit, Hdir.
    rewrite fmap_cons in Hnd. simpl in Hnd.
    rewrite dict_set_fresh.
    + rewrite IH; [by rewrite <- app_assoc|].
      rewrite fmap_app. simpl. by rewrite <- app_assoc.
    + apply NoDup_app in Hnd as (_ & Hnd & _). intros Hin. apply (Hnd _ Hin). by left.
Qed.

Lemma parse_sort_listed (sort : string) (pairs : list (string * utils.SortOrder)) :
  Spec.lists sort pairs → NoDup pairs.*1 → PrinterApi.parse_sort (Some sort) = Py.Ok pairs.
Proof. intros Hl Hnd. simpl. by rewrite (sort_items_listed _ pairs []). Qed.

Lemma sort_items_unknown_direction (items : list string) (acc : list (string * utils.SortOrder)) :
  Forall (λ item, ∃ f d, Py.split ":"%char item = [f; d]) items →
  Exists (λ item, ∃ f d, Py.split ":"%char item = [f; d] ∧
                         Py.upper d ≠ "ASC" ∧ Py.upper d ≠ "DESC") items →
  ∃ d, PrinterApi.sort_items items acc = Py.Raise (Py.KeyError d).
Proof.
  intros Hall. revert acc. induction Hall as [|item items (f & d & Hsplit) _ IH];
    intros acc Hbad; [by apply Exists_nil in Hbad|].
  simpl. rewrite Hsplit. unfold utils.SortOrder_getitem.
  apply Exists_cons in Hbad as [(f' & d' & Hsplit' & Hasc & Hdesc)|Hbad].
  - rewrite Hsplit in Hsplit'. injection Hsplit' as <- <-.
    rewrite !decide_False by done. by eexists.
  - repeat case_decide; [by apply IH..|by eexists].
Qed.

Lemma order_by_items_resolves {R} (parse : string → Py.result (R → utils.Value))
    (pairs : list (string * utils.SortOrder)) keys (stmt : utils.Select R) :
  Spec.resolves parse pairs keys →
  Common.order_by_items parse pairs stmt =
  Py.Ok (utils.BuildSelect (utils.whereclause stmt) (utils.order_by_clauses stmt ++ keys)
           (utils.offset_clause stmt) (utils.limit_clause stmt)).
Proof.
  intros Hres. revert stmt.
  induction Hres as [|[field order] [f o] pairs keys [Hf Ho] _ IH]; intros stmt; simpl.
  - rewrite app_nil_r. by destruct stmt.
  - simpl in Hf, Ho. subst o. rewrite Hf, IH. simpl. by rewrite <- app_assoc.
Qed.

Lemma order_by_items_unknown {R} (parse : string → Py.result (R → utils.Value))
    (pairs : list (string * utils.SortOrder)) (stmt : utils.Select R) :
  Exists (λ pair, ∃ e, parse pair.1 = Py.Raise e) pairs →
  ∃ e, Common.order_by_items parse pairs stmt = Py.Raise e.
Proof.
  revert stmt. induction pairs as [|[field order] pairs IH]; intros stmt Hbad;
    [by apply Exists_nil in Hbad|].
  simpl. destruct (parse field) as [f|e] eqn:Hf; [|by eexists].
  apply IH. apply Exists_cons in Hbad as [(e & He)|Hbad]; [|done].
  simpl in He. congruence.
Qed.

Lemma dict_set_present {V} (k : string) (v : V) (d : list (string * V)) :
  k ∈ d.*1 → (Py.dict_set k v d).*1 = d.*1 ∧ (k, v) ∈ Py.dict_set k v d.
Proof.
  induction d as [|[k' v'] d IH]; simpl; [by intros ?%elem_of_nil|].
  intros Hin. case_decide as Heq.
  - subst k'. split; [done|by left].
  - apply elem_of_cons in Hin as [?|Hin]; [done|].
    destruct (IH Hin) as [Hkeys Hmem]. split; [by rewrite fmap_cons, Hkeys|by right].
Qed.

(** C8, as stated, fails.  The sort parameter [name:asc,name:desc] lists
    [name:asc] first, yet [sort_by] is a dict keyed by the field: it ends up
    as [{name: DESC}] and the printers come back by descending name.  And
    with a limit, the count statement has executed by the time an unknown
    field is met. *)
Lemma sort_in_listed_order_fails :
  Spec.lists "name:asc,name:desc" [("name", utils.ASC); ("name", utils.DESC)] ∧
  PrinterApi.parse_sort (Some "name:asc,name:desc") = Py.Ok [("name", utils.DESC)] ∧
  (∃ found,
     (PrinterDb.find None (Some [("name", utils.DESC)]) None 0 Sample.world).1 = Py.Ok found ∧
     models.Printer.name <$> found.1 =
       ["Voron"; "Prusa"; "Exact Name Pro"; "Exact Name"; "Bambu X1C"] ∧
     ¬ StronglySorted
         (utils.precedes [((λ p, utils.Text (models.Printer.name p)), utils.ASC);
                          ((λ p, utils.Text (models.Printer.name p)), utils.DESC)])
         found.1) ∧
  (let out := PrinterDb.find None (Some [("nam", utils.ASC)]) (Some 2) 0 Sample.world in
   out.1 = Py.Raise (Py.ValueError "nam") ∧
   Proc.queries out.2 = Proc.queries Sample.world ++ [Proc.CountQuery]).
Proof.
  split; [|split; [reflexivity|split]].
  - repeat constructor; by eexists.
  - eexists. split; [vm_compute; reflexivity|]. split; [reflexivity|].
    simpl. intros Hs. apply StronglySorted_inv in Hs as [_ Hall].
    apply Forall_cons in Hall as [_ Hall]. apply Forall_cons in Hall as [_ Hall].
    apply Forall_cons in Hall as [Hlt _]. by apply Hlt.
  - split; reflexivity.
Qed.

(** C8 (amended). A sort parameter that lists pairs with pairwise different
    fields is taken in the listed order, and a [find] with it, whose limit
    and offset fit the 64 bits of a statement parameter, answers the
    matching printers ordered by these keys, the first pair being the primary
    key and each later pair deciding only among rows that the earlier ones
    leave equal.  (A field listed again keeps its first place and takes its
    last direction.)  An unknown direction is a [KeyError] raised before any
    statement executes; an unknown field is a resolution failure raised
    before the statement that fetches the rows executes. *)
Theorem sort_keys_in_listed_order :
  (∀ sort pairs, Spec.lists sort pairs → NoDup pairs.*1 →
     PrinterApi.parse_sort (Some sort) = Py.Ok pairs) ∧
  (∀ (w : Proc.World) name sort pairs keys limit offset,
     Spec.lists sort pairs → NoDup pairs.*1 →
     Spec.resolves utils.parse_nested_field_Printer pairs keys →
     NoDup (models.Printer.id <$> Proc.printer_table (Proc.db w)) →
     (∀ n, limit = Some n → Io.fits n = true ∧ Io.fits offset = true) →
     ∃ ordered,
       ordered ≡ₚ utils.matching
                    (utils.add_where_clause_str_opt utils.select
                       (λ p, Some (models.Printer.name p)) name)
                    (Proc.printer_table (Proc.db w)) ∧
       StronglySorted (utils.precedes keys) ordered ∧
       (PrinterApi.find name (Some sort) limit offset w).1 =
       Py.Ok (api_models.BuildResponse 200
                (api_models.Items
                   ((λ p, api_models.PrinterPayload (api_models.Printer.from_db p))
                      <$> Spec.page limit offset ordered))
                [("x-total-count", Py.str (Z.of_nat (length ordered)))])) ∧
  (∀ R (key : (R → utils.Value) * utils.SortOrder) keys a b,
     utils.precedes (key :: keys) a b ↔
     utils.compare_key key a b = Lt ∨
     (utils.compare_key key a b = Eq ∧ utils.precedes keys a b)) ∧
  (∀ field (order : utils.SortOrder) sort_by,
     field ∈ sort_by.*1 →
     (Py.dict_set field order sort_by).*1 = sort_by.*1 ∧
     (field, order) ∈ Py.dict_set field order sort_by) ∧
  (∀ (w : Proc.World) name sort limit offset,
     Forall (λ item, ∃ f d, Py.split ":"%char item = [f; d]) (Py.split ","%char sort) →
     Exists (λ item, ∃ f d, Py.split ":"%char item = [f; d] ∧
                            Py.upper d ≠ "ASC" ∧ Py.upper d ≠ "DESC")
       (Py.split ","%char sort) →
     ∃ d, PrinterApi.find name (Some sort) limit offset w = (Py.Raise (Py.KeyError d), w)) ∧
  (∀ (w : Proc.World) name pairs limit offset,
     Exists (λ pair, ∃ e, utils.parse_nested_field_Printer pair.1 = Py.Raise e) pairs →
     ∃ e added,
       (PrinterDb.find name (Some pairs) limit offset w).1 = Py.Raise e ∧
       Proc.queries (PrinterDb.find name (Some pairs) limit offset w).2 =
         Proc.queries w ++ added ∧
       Proc.RowsQuery ∉ added).
Proof.
  split; [exact parse_sort_listed|].
  split; [|split; [intros; apply precedes_cons|split; [intros; by apply dict_set_present|split]]].
  - intros w name sort pairs keys limit offset Hlists Hnd Hres Hkeys Hfits.
    set (stmt := utils.add_where_clause_str_opt utils.select
                   (λ p, Some (models.Printer.name p)) name).
    exists (merge_sort (utils.precedes keys) (utils.matching stmt (Proc.printer_table (Proc.db w)))).
    split; [apply merge_sort_Permutation|]. split.
    { apply StronglySorted_merge_sort; [apply precedes_transitive|apply precedes_total]. }
    unfold PrinterApi.find, Proc.bind, Proc.lift, Proc.ret.
    rewrite (parse_sort_listed _ _ Hlists Hnd).
    unfold PrinterDb.find. fold stmt. rewrite find_page_unfold. cbv zeta.
    simpl default. rewrite (order_by_items_resolves _ _ keys _ Hres).
    assert (utils.order_by_clauses stmt = [] ∧ utils.offset_clause stmt = 0 ∧
            utils.limit_clause stmt = None) as (Hord & Hoff & Hlim)
      by (unfold stmt; by destruct name).
    assert (Common.bindable
              match limit with
              | Some n => utils.limit n (utils.offset offset stmt)
              | None => stmt
              end = true) as ->.
    { unfold Common.bindable. destruct limit as [n|]; simpl.
      - by destruct (Hfits n eq_refl) as [-> ->].
      - by rewrite Hoff, Hlim. }
    rewrite unique_NoDup.
    2: { by apply rows_NoDup. }
    2: { intros x _. apply not_elem_of_nil. }
    unfold utils.rows, utils.count. simpl.
    destruct limit as [n|]; simpl.
    + rewrite Hord. simpl.
      rewrite <- (Permutation_length (merge_sort_Permutation (utils.precedes keys) _)).
      by destruct (n <? 0).
    + rewrite Hord, Hoff, Hlim. simpl. rewrite drop_0. reflexivity.
  - intros w name sort limit offset Hall Hbad.
    destruct (sort_items_unknown_direction _ [] Hall Hbad) as [d Hd].
    exists d. unfold PrinterApi.find, Proc.bind, Proc.lift. simpl. by rewrite Hd.
  - intros w name pairs limit offset Hbad.
    unfold PrinterDb.find. rewrite find_page_unfold. cbv zeta. simpl default.
    edestruct (order_by_items_unknown utils.parse_nested_field_Printer pairs) as [e ->];
      [exact Hbad|].
    exists e. destruct limit as [n|]; simpl.
    + exists [Proc.CountQuery]. split; [done|]. split; [done|].
      intros Hin. apply list_elem_of_singleton in Hin. discriminate.
    + exists []. split; [done|]. split; [by rewrite app_nil_r|]. apply not_elem_of_nil.
Qed.

Local Instance printer_payload_inj :
  Inj (=) (=) (λ p, api_models.PrinterPayload (api_models.Printer.from_db p)).
Proof. intros p q Heq. by injection Heq. Qed.

Lemma sort_keys_in_listed_order_witness :
  let keys := [((λ p, utils.opt utils.Float (models.Printer.power_watts p)), utils.ASC);
               ((λ p, utils.Text (models.Printer.name p)), utils.DESC)] in
  ∃ ordered,
    models.Printer.name <$> ordered =
      ["Prusa"; "Voron"; "Exact Name Pro"; "Exact Name"; "Bambu X1C"] ∧
    StronglySorted (utils.precedes keys) ordered ∧
    (PrinterApi.find None (Some "power_watts:asc,name:desc") None 0 Sample.world).1 =
    Py.Ok (api_models.BuildResponse 200
             (api_models.Items
                ((λ p, api_models.PrinterPayload (api_models.Printer.from_db p)) <$> ordered))
             [("x-total-count", "5")]).
Proof.
  intros keys.
  destruct sort_keys_in_listed_order as (_ & Hfind & _).
  destruct (Hfind Sample.world None "power_watts:asc,name:desc"
              [("power_watts", utils.ASC); ("name", utils.DESC)] keys None 0)
    as (ordered & Hperm & Hsorted & Hresponse).
  - repeat constructor; by eexists.
  - by_compute.
  - repeat constructor.
  - by_compute.
  - intros n [=].
  - assert ((PrinterApi.find None (Some "power_watts:asc,name:desc") None 0 Sample.world).1 =
            Py.Ok (api_models.BuildResponse 200
                     (api_models.Items
                        ((λ p, api_models.PrinterPayload (api_models.Printer.from_db p)) <$>
                           Sample.pick [3; 2; 1; 0; 4]%nat))
                     [("x-total-count", "5")])) as Hrun by (vm_compute; reflexivity).
    rewrite Hrun in Hresponse. injection Hresponse as Hitems _.
    pose proof (inj (fmap (λ p, api_models.PrinterPayload (api_models.Printer.from_db p)))
                  (Sample.pick [3; 2; 1; 0; 4]%nat)
                  ordered Hitems) as Heq.
    subst ordered.
    exists (Sample.pick [3; 2; 1; 0; 4]%nat).
    split; [reflexivity|]. split; [exact Hsorted|exact Hrun].
Defined.

(** ** String filters *)

Lemma split_nonempty (sep : ascii) (s : string) : Py.split sep s ≠ [].
Proof.
  destruct s as [|c s]; simpl; [done|].
  destruct (Ascii.eqb c sep); [done|]. by destruct (Py.split sep s).
Qed.

Lemma split_concat (sep : ascii) (s : string) :
  String.concat (String sep EmptyString) (Py.split sep s) = s.
Proof.
  induction s as [|c s IH]; simpl; [done|].
  pose proof (split_nonempty sep s) as Hne.
  destruct (Ascii.eqb_spec c sep) as [->|Hc].
  - simpl. destruct (Py.split sep s) as [|w ws]; [done|]. simpl in *. by rewrite IH.
  - destruct (Py.split sep s) as [|w ws]; [done|]. simpl in *.
    destruct ws; simpl in *; by rewrite <- IH.
Qed.

Lemma split_no_sep (sep : ascii) (s : string) :
  Forall (λ part, sep ∉ list_ascii_of_string part) (Py.split sep s).
Proof.
  induction s as [|c s IH]; simpl.
  - apply Forall_singleton, not_elem_of_nil.
  - destruct (Ascii.eqb_spec c sep) as [->|Hc].
    + apply Forall_cons. split; [apply not_elem_of_nil|done].
    + destruct (Py.split sep s) as [|w ws].
      * apply Forall_singleton. simpl. apply not_elem_of_cons.
        split; [congruence|apply not_elem_of_nil].
      * apply Forall_cons in IH as [Hw Hws]. apply Forall_cons. split; [|done].
        simpl. apply not_elem_of_cons. split; [congruence|done].
Qed.

Lemma chop_snoc (init : string) (last : ascii) :
  utils.chop (init +:+ String last EmptyString) = Some (init, last).
Proof. induction init as [|c init IH]; simpl; [done|]. by rewrite IH. Qed.

Lemma chop_None (s : string) : utils.chop s = None → s = EmptyString.
Proof.
  destruct s as [|c s]; simpl; [done|]. by destruct (utils.chop s) as [[]|].
Qed.

Lemma chop_inv (s init : string) (last : ascii) :
  utils.chop s = Some (init, last) → s = init +:+ String last EmptyString.
Proof.
  revert init last. induction s as [|c s IH]; intros init last; simpl; [done|].
  destruct (utils.chop s) as [[init' last']|] eqn:Hchop.
  - intros [= <- <-]. by rewrite (IH init' last').
  - intros [= <- <-]. by rewrite (chop_None s Hchop).
Qed.

Lemma unquote_spec (term exact : string) :
  utils.unquote term = Some exact ↔ term = Spec.quoted exact.
Proof.
  unfold Spec.quoted. split.
  - destruct term as [|c rest]; simpl; [done|].
    destruct (Ascii.eqb_spec c utils.dquote) as [->|]; [|done].
    destruct (utils.chop rest) as [[inner c']|] eqn:Hchop; [|done].
    destruct (Ascii.eqb_spec c' utils.dquote) as [->|]; [|done].
    intros [= <-]. f_equal. by apply chop_inv.
  - intros ->. simpl. by rewrite chop_snoc.
Qed.

Lemma append_cons (c : ascii) (a b : string) : String c a +:+ b = String c (a +:+ b).
Proof. reflexivity. Qed.

Lemma append_nil (a : string) : EmptyString +:+ a = a.
Proof. reflexivity. Qed.

Lemma startswith_spec (s pre : string) :
  Py.startswith s pre = true ↔ ∃ post, s = pre +:+ post.
Proof.
  revert s. induction pre as [|a pre IH]; intros s.
  - split; [by exists s|by destruct s].
  - destruct s as [|b s].
    + split; [done|]. by intros [post Hpost].
    + change (Py.startswith (String b s) (String a pre))
        with (Ascii.eqb a b && Py.startswith s pre).
      rewrite andb_true_iff, IH. split.
      * intros [Hab [post ->]]. apply Ascii.eqb_eq in Hab as ->. by exists post.
      * intros [post Hpost]. rewrite append_cons in Hpost. injection Hpost as -> ->.
        split; [apply Ascii.eqb_refl|by exists post].
Qed.

Lemma contains_spec (s sub : string) :
  Py.contains s sub = true ↔ Spec.substring sub s.
Proof.
  unfold Spec.substring. induction s as [|c s IH].
  - change (Py.contains EmptyString sub) with (Py.startswith EmptyString sub || false).
    rewrite orb_false_r, startswith_spec. split.
    + intros [post Hpost]. by exists EmptyString, post.
    + intros ([|? pre] & post & Hs); [by exists post|done].
  - change (Py.contains (String c s) sub)
      with (Py.startswith (String c s) sub || Py.contains s sub).
    rewrite orb_true_iff, startswith_spec, IH. split.
    + intros [[post Hpost]|(pre & post & ->)].
      * by exists EmptyString, post.
      * by exists (String c pre), post.
    + intros ([|c' pre] & post & Hs).
      * left. by exists post.
      * right. rewrite append_cons in Hs. injection Hs as -> ->. by exists pre, post.
Qed.

Lemma term_matches_spec (term : string) (v : option string) :
  utils.term_matches term v = true ↔ ∃ s, v = Some s ∧ Spec.accepts term s.
Proof.
  unfold utils.term_matches, Spec.accepts. destruct v as [s|]; [|naive_solver].
  destruct (utils.unquote term) as [exact|] eqn:Hq.
  - apply unquote_spec in Hq. rewrite bool_decide_eq_true. split.
    + intros Heq. exists s. split; [done|]. left. by exists exact.
    + intros (? & [= <-] & [(exact' & Hterm & Heq)|[Hno _]]).
      * rewrite Hq in Hterm. unfold Spec.quoted in Hterm. injection Hterm as Hterm.
        assert (exact = exact') as ->; [|done].
        apply (f_equal utils.chop) in Hterm. rewrite !chop_snoc in Hterm. congruence.
      * by destruct (Hno exact).
  - rewrite contains_spec. split.
    + intros Hsub. exists s. split; [done|]. right. split; [|done].
      intros exact Hterm. apply unquote_spec in Hterm. congruence.
    + intros (? & [= <-] & [(exact & Hterm & _)|[_ Hsub]]); [|done].
      apply unquote_spec in Hterm. congruence.
Qed.

Lemma elem_of_matching_str {R} (field : R → option string) (value : string)
    (table : list R) (r : R) :
  r ∈ utils.matching (utils.add_where_clause_str_opt utils.select field (Some value)) table ↔
  r ∈ table ∧
  ∃ term s, term ∈ Py.split ","%char value ∧ field r = Some s ∧ Spec.accepts term s.
Proof.
  unfold utils.matching. rewrite list_elem_of_filter. simpl.
  rewrite andb_true_r, Is_true_true, existsb_exists.
  split.
  - intros [(term & Hin & Hterm) Htable]. split; [done|].
    apply term_matches_spec in Hterm as (s & Hs & Hacc).
    exists term, s. by rewrite list_elem_of_In.
  - intros [Htable (term & s & Hin & Hs & Hacc)]. split; [|done]. exists term.
    rewrite <- list_elem_of_In. split; [done|]. apply term_matches_spec. by exists s.
Qed.

(** C9. The value of a string filter is split on commas into terms that are
    OR'd: a row matches when some term accepts its field, a quoted term by
    case-insensitive equality and any other term by case-insensitive
    substring; [find] of printers answers exactly the printers whose name
    some term accepts; and the quoted term ["Exact Name"] accepts
    [Exact Name] in any case but not [Exact Name Pro]. *)
Theorem string_filter_terms :
  (∀ value, Spec.terms value (Py.split ","%char value)) ∧
  (∀ R (field : R → option string) value table (r : R),
     r ∈ utils.matching
           (utils.add_where_clause_str_opt utils.select field (Some value)) table ↔
     r ∈ table ∧
     ∃ term s, term ∈ Py.split ","%char value ∧ field r = Some s ∧ Spec.accepts term s) ∧
  (∀ (w : Proc.World) value found,
     NoDup (models.Printer.id <$> Proc.printer_table (Proc.db w)) →
     (PrinterDb.find (Some value) None None 0 w).1 = Py.Ok found →
     ∀ p, p ∈ found.1 ↔
          p ∈ Proc.printer_table (Proc.db w) ∧
          ∃ term, term ∈ Py.split ","%char value ∧
                  Spec.accepts term (models.Printer.name p)) ∧
  (Spec.accepts (Spec.quoted "Exact Name") "Exact Name" ∧
   Spec.accepts (Spec.quoted "Exact Name") "EXACT name" ∧
   ¬ Spec.accepts (Spec.quoted "Exact Name") "Exact Name Pro" ∧
   Spec.accepts "Exact Name" "Exact Name Pro").
Proof.
  split; [|split; [|split]].
  - intros value. split; [apply split_concat|apply split_no_sep].
  - intros R field value table r. apply elem_of_matching_str.
  - intros w value found Hnd Hfound p. unfold PrinterDb.find in Hfound.
    apply find_page_paginated in Hfound as (_ & Hall & _); [|done..].
    destruct (Hall eq_refl) as [Hperm _]. rewrite Hperm, elem_of_matching_str.
    split.
    + intros (Hin & term & s & Hterm & [= <-] & Hacc). eauto.
    + intros (Hin & term & Hterm & Hacc). split; [done|]. by exists term, (models.Printer.name p).
  - split; [|split; [|split]].
    + left. by exists "Exact Name".
    + left. by exists "Exact Name".
    + intros Hacc.
      assert (utils.term_matches (Spec.quoted "Exact Name") (Some "Exact Name Pro") = true)
        as Hrun by (apply term_matches_spec; eauto).
      vm_compute in Hrun. discriminate.
    + assert (utils.term_matches "Exact Name" (Some "Exact Name Pro") = true)
        as Hrun by reflexivity.
      apply term_matches_spec in Hrun as (s & [= <-] & Hacc). exact Hacc.
Qed.

Lemma string_filter_terms_witness :
  ∃ found,
    (PrinterDb.find (Some (Spec.quoted "Exact Name")) None None 0 Sample.world).1
      = Py.Ok found ∧
    models.Printer.name <$> found.1 = ["Exact Name"] ∧
    ∀ p, p ∈ found.1 →
         ∃ term, term ∈ Py.split ","%char (Spec.quoted "Exact Name") ∧
                 Spec.accepts term (models.Printer.name p).
Proof.
  destruct string_filter_terms as (_ & _ & Hfind & _).
  eexists. split; [vm_compute; reflexivity|]. split; [reflexivity|].
  intros p Hp.
  eapply (Hfind Sample.world (Spec.quoted "Exact Name")) in Hp as [_ Hterm].
  - exact Hterm.
  - by_compute.
  - vm_compute. reflexivity.
Defined.

(** ** Id filters *)




Lemma ints_spec (parts : list string) (ns : list Z) :
  CostApi.ints parts = Py.Ok ns ↔ Forall2 (λ part n, Py.int part = Py.Ok n) parts ns.
Proof.
  revert ns. induction parts as [|v parts IH]; intros ns; simpl.
  - split; [intros [= <-]; constructor|by intros ->%Forall2_nil_inv_l].
  - destruct (Py.int v) as [n|e] eqn:Hv.
    + destruct (CostApi.ints parts) as [ns'|e] eqn:Hparts.
      * split.
        -- intros [= <-]. constructor; [done|]. by apply IH.
        -- intros (n' & ns'' & Hn & Hrest & ->)%Forall2_cons_inv_l.
           apply IH in Hrest. congruence.
      * split; [done|]. intros (n' & ns'' & Hn & Hrest & ->)%Forall2_cons_inv_l.
        apply IH in Hrest. congruence.
    + split; [done|]. intros (n' & ns'' & Hn & Hrest & ->)%Forall2_cons_inv_l. congruence.
Qed.

Lemma parse_int_csv_spec (value : string) (ns : list Z) :
  CostApi._parse_int_csv (Some value) = Py.Ok (Some ns) ↔
  Forall2 (λ part n, Py.int part = Py.Ok n) (Py.split ","%char value) ns.
Proof.
  rewrite <- ints_spec. simpl.
  destruct (CostApi.ints (Py.split "," value)); split; congruence.
Qed.



(** ** Mutations *)

(** C4. The create and update endpoints of cost calculations pass the
    keywords [energy_cost_per_kwh], [labor_cost_per_hour] and [item_names],
    which [cost_db.create] and [cost_db.update] do not declare: whatever the
    body, the call raises [TypeError] while binding its keywords, the process
    is left as it was (no row persisted, no event published), and the endpoint
    never returns a success response. *)
Theorem cost_endpoints_raise_TypeError (w : Proc.World)
    (body : CostApi.CostCalculationParameters) (calculation_id : Z) :
  Forall (λ k, k ∈ (CostApi.keywords body).*1 ∧
               k ∉ CostDb.create_parameters ∧ k ∉ CostDb.update_parameters)
    ["energy_cost_per_kwh"; "labor_cost_per_hour"; "item_names"] ∧
  CostApi.create body w =
    (Py.Raise (Py.TypeError "create() got an unexpected keyword argument 'energy_cost_per_kwh'"),
     w) ∧
  CostApi.update calculation_id body w =
    (Py.Raise (Py.TypeError "update() got an unexpected keyword argument 'energy_cost_per_kwh'"),
     w) ∧
  ¬ CostApi.success (CostApi.create body w).1 ∧
  ¬ CostApi.success (CostApi.update calculation_id body w).1.
Proof.
  assert (CostApi.create body w =
            (Py.Raise (Py.TypeError
               "create() got an unexpected keyword argument 'energy_cost_per_kwh'"), w))
    as Hcreate by reflexivity.
  assert (CostApi.update calculation_id body w =
            (Py.Raise (Py.TypeError
               "update() got an unexpected keyword argument 'energy_cost_per_kwh'"), w))
    as Hupdate by reflexivity.
  split; [|split; [exact Hcreate|split; [exact Hupdate|]]].
  - repeat (apply Forall_cons; split; [split; [|split]; by_compute|]). apply Forall_nil_2.
  - rewrite Hcreate, Hupdate. simpl. tauto.
Qed.

Lemma row_by_id_None {R} (key : R → Z) (k : Z) (table : list R) :
  Io.row_by_id key k table = None ↔ k ∉ key <$> table.
Proof.
  unfold Io.row_by_id. induction table as [|r table IH]; simpl.
  - split; [intros _; apply not_elem_of_nil|done].
  - rewrite not_elem_of_cons. case_bool_decide as Hr; [|naive_solver].
    split; [done|]. intros [Hne _]. by destruct Hne.
Qed.



Lemma by_key_stored {R} (key : R → Z) (k : Z) (table : list R) (r : R) :
  Io.row_by_id key k table = Some r → Io.by_key key k table = Py.Ok (Some r).
Proof. unfold Io.by_key. by intros ->. Qed.



(** The change emitters return normally whatever [send] raises, as long as it
    is an [Exception]. *)
Lemma printer_changed_returns (printer : models.Printer.t) (typ : api_models.EventType)
    (w : Proc.World) :
  (∀ e, Proc.send_fault (Proc.env w) = Some e → Py.is_Exception e = true) →
  (PrinterDb.printer_changed printer typ w).1 = Py.Ok tt.
Proof.
  intros Hexc. unfold PrinterDb.printer_changed, Io.websocket_manager_send, Io.utcnow,
    Io.logger_exception, Proc.try_except, Proc.bind. simpl.
  destruct (Proc.send_fault (Proc.env w)) as [e|] eqn:Hfault; simpl; [|done].
  by rewrite (Hexc e eq_refl).
Qed.

Lemma cost_changed_returns (cost_calc : models.CostCalculation.obj)
    (typ : api_models.EventType) (w : Proc.World) :
  (∀ e, Proc.send_fault (Proc.env w) = Some e → Py.is_Exception e = true) →
  (CostDb.cost_changed cost_calc typ w).1 = Py.Ok tt.
Proof.
  intros Hexc. unfold CostDb.cost_changed, Io.websocket_manager_send, Io.utcnow,
    Io.logger_exception, Proc.try_except, Proc.bind. simpl.
  destruct (Proc.send_fault (Proc.env w)) as [e|] eqn:Hfault; simpl; [|done].
  by rewrite (Hexc e eq_refl).
Qed.

(** Unfolds a mutation down to the primitives of the session. *)
Ltac unfold_mutation :=
  unfold PrinterDb.create, PrinterDb.update, PrinterDb.delete, CostDb.create, CostDb.update,
    CostDb.delete, PrinterDb.get_by_id, CostDb.get_by_id, CostDb.filament_by_id,
    Io.scalar_one_joinedload, Io.get_printer, Io.get_filament, Io.get_cost, Io.by_key,
    Io.add_printer, Io.add_cost, Io.refresh_printer, Io.refresh_cost, Io.commit, Io.mark,
    Io.utcnow, Proc.try_except, Proc.bind, Proc.ret, Proc.raise; simpl.

Ltac unfold_emitter :=
  unfold PrinterDb.printer_changed, CostDb.cost_changed, Io.websocket_manager_send,
    Io.logger_exception, Io.utcnow, Proc.try_except, Proc.bind, Proc.ret; simpl.


Lemma row_by_id_Some {R} (key : R → Z) (k : Z) (table : list R) (r : R) :
  Io.row_by_id key k table = Some r → key r = k ∧ r ∈ table.
Proof.
  unfold Io.row_by_id. intros Hfind. apply find_some in Hfind as [Hin Hkey].
  apply bool_decide_eq_true in Hkey. by rewrite list_elem_of_In.
Qed.



(** Introduces the variables of a goal, not its premises. *)
Ltac intro_variables :=
  repeat match goal with
         | |- ∀ _ : ?T, _ =>
             lazymatch type of T with
             | Prop => fail
             | _ => intro
             end
         end.

(** C6. Whatever fails inside the notification step of a mutation (streams
    that are broken, or an [Exception] raised by [send], such as a
    serialization error), the mutation returns to its caller what it returns
    when nothing fails.  The delete of a printer, which does not reach its
    notification step, has the same outcome with and without such
    failures. *)
Theorem notification_failures_do_not_propagate (w : Proc.World) (b : gset nat)
    (f : option Py.exn) :
  (∀ e, f = Some e → Py.is_Exception e = true) →
  (∀ name power_watts depreciation comment r,
     (PrinterDb.create name power_watts depreciation comment
        (Proc.with_faults ∅ None w)).1 = Py.Ok r →
     (PrinterDb.create name power_watts depreciation comment
        (Proc.with_faults b f w)).1 = Py.Ok r) ∧
  (∀ printer_id name power_watts depreciation comment r,
     (PrinterDb.update printer_id name power_watts depreciation comment
        (Proc.with_faults ∅ None w)).1 = Py.Ok r →
     (PrinterDb.update printer_id name power_watts depreciation comment
        (Proc.with_faults b f w)).1 = Py.Ok r) ∧
  (∀ printer_id,
     (PrinterDb.delete printer_id (Proc.with_faults b f w)).1 =
     (PrinterDb.delete printer_id (Proc.with_faults ∅ None w)).1) ∧
  (∀ a r,
     (CostDb.create a (Proc.with_faults ∅ None w)).1 = Py.Ok r →
     (CostDb.create a (Proc.with_faults b f w)).1 = Py.Ok r) ∧
  (∀ calculation_id a r,
     (CostDb.update calculation_id a (Proc.with_faults ∅ None w)).1 = Py.Ok r →
     (CostDb.update calculation_id a (Proc.with_faults b f w)).1 = Py.Ok r) ∧
  (∀ calculation_id r,
     (CostDb.delete calculation_id (Proc.with_faults ∅ None w)).1 = Py.Ok r →
     (CostDb.delete calculation_id (Proc.with_faults b f w)).1 = Py.Ok r).
Proof.
  intros Hexc.
  assert (match f with Some e => Py.is_Exception e = true | None => True end) as Hf
    by (destruct f; [by apply Hexc|done]).
  clear Hexc.
  repeat split; intro_variables; unfold Proc.with_faults; unfold_mutation; unfold_emitter;
    destruct f as [e|]; rewrite ?Hf;
    repeat (case_match; simplify_eq/=; rewrite ?Hf; try done); intros; by simplify_eq/=.
Qed.

Lemma notification_failures_do_not_propagate_witness :
  let faulty := Proc.with_faults {[1%nat]}
                  (Some (Py.ValueError "Object of type datetime is not JSON serializable"))
                  Sample.world in
  (PrinterDb.update 3 (Some "Voron 2.4") None None None faulty).1 =
    Py.Ok (models.Printer.Build 3 3000000 "Voron 2.4" (Some (120 # 1)%Q) None
             (Some "0.6mm nozzle")) ∧
  (CostDb.delete 4 faulty).1 = Py.Ok tt.
Proof.
  intros faulty.
  destruct (notification_failures_do_not_propagate Sample.world {[1%nat]}
              (Some (Py.ValueError "Object of type datetime is not JSON serializable")))
    as (_ & Hupdate & _ & _ & _ & Hdelete).
  - intros e [= <-]. reflexivity.
  - split.
    + apply Hupdate. vm_compute. reflexivity.
    + apply Hdelete. vm_compute. reflexivity.
Defined.

(** ** Totality of create *)

Lemma row_by_id_is_Some {R} (key : R → Z) (table : list R) (r : R) :
  r ∈ table → is_Some (Io.row_by_id key (key r) table).
Proof.
  unfold Io.row_by_id. induction table as [|x table IH]; [by intros ?%elem_of_nil|].
  intros Hin. simpl. case_bool_decide as Hx; [by eexists|].
  apply elem_of_cons in Hin as [->|Hin]; [done|by apply IH].
Qed.

(** A printer can always be created: the refresh after the commit finds the
    row, and no [Exception] of the notification step reaches the caller. *)
Lemma printer_create_returns (w : Proc.World) name power_watts depreciation comment :
  (∀ e, Proc.send_fault (Proc.env w) = Some e → Py.is_Exception e = true) →
  ∃ printer, (PrinterDb.create name power_watts depreciation comment w).1 = Py.Ok printer.
Proof.
  intros Hexc. unfold_mutation. rewrite foldl_snoc. simpl.
  set (k := Io.next_id _).
  set (p := models.Printer.Build k _ name power_watts depreciation comment).
  destruct (row_by_id_is_Some models.Printer.id
              (Proc.printer_table (foldl Io.flush (Proc.db w) (Proc.session w)) ++ [p]) p)
    as [r Hr]; [set_solver|].
  change (models.Printer.id p) with k in Hr. rewrite Hr.
  unfold_emitter.
  destruct (Proc.send_fault (Proc.env w)) as [e|] eqn:Hfault; simpl; [|by eexists].
  rewrite (Hexc e eq_refl). by eexists.
Qed.

(** * Further properties of the code *)

Import Notions.

(** ** Integers and their decimal text *)

Lemma digit_of_chr (d : Z) :
  0 ≤ d < 10 → Py.digit_of (ascii_of_nat (48 + Z.to_nat d)) = Some d.
Proof.
  intros Hd.
  assert (d = 0 ∨ d = 1 ∨ d = 2 ∨ d = 3 ∨ d = 4 ∨ d = 5 ∨ d = 6 ∨ d = 7 ∨ d = 8 ∨ d = 9)
    as Hcases by lia.
  repeat (destruct Hcases as [->|Hcases]; [reflexivity|]). by subst.
Qed.

Lemma digits_str_pos (fuel : nat) (n a : Z) (acc : string) :
  0 < n < 2 ^ Z.of_nat fuel ∨ (n = 0 ∧ (1 ≤ fuel)%nat) →
  ∃ k, 0 ≤ k ∧ Py.digits a (Py.str_pos fuel n acc) = Py.digits (a * 10 ^ k + n) acc.
Proof.
  revert n a acc. induction fuel as [|fuel IH]; intros n a acc Hn.
  { destruct Hn as [Hn|[_ Hn]]; [|lia]. simpl in Hn. lia. }
  assert (0 ≤ n) as Hpos by lia.
  cbn [Py.str_pos]. cbv zeta.
  assert (Py.digits a (String (ascii_of_nat (48 + Z.to_nat (n `mod` 10))) acc) =
          Py.digits (10 * a + n `mod` 10) acc) as Hhead.
  { cbn [Py.digits]. rewrite digit_of_chr; [done|]. apply Z.mod_pos_bound. lia. }
  destruct (Z.ltb_spec n 10) as [Hsmall|Hbig].
  - exists 1. split; [lia|]. rewrite Hhead. f_equal.
    rewrite Z.mod_small by lia. lia.
  - destruct (IH (n / 10) a (String (ascii_of_nat (48 + Z.to_nat (n `mod` 10))) acc))
      as (k & Hk & Hrec).
    { left. split; [apply Z.div_str_pos; lia|].
      destruct Hn as [[_ Hn]|[Hn _]]; [|lia].
      apply Z.div_lt_upper_bound; [lia|].
      rewrite Nat2Z.inj_succ, Z.pow_succ_r in Hn by lia. lia. }
    exists (k + 1). split; [lia|]. rewrite Hrec. cbn [Py.digits].
    rewrite digit_of_chr by (apply Z.mod_pos_bound; lia). f_equal.
    rewrite Z.pow_add_r by lia. pose proof (Z.div_mod n 10). lia.
Qed.

Lemma digits_str_nonneg (n : Z) :
  0 ≤ n → Py.digits 0 (Py.str_pos (S (Z.to_nat (Z.log2 n))) n EmptyString) = Some n.
Proof.
  intros Hn.
  destruct (digits_str_pos (S (Z.to_nat (Z.log2 n))) n 0 EmptyString) as (k & _ & ->).
  - destruct (decide (n = 0)) as [->|Hne]; [right; split; [done|lia]|].
    left. split; [lia|]. rewrite Nat2Z.inj_succ, Z2Nat.id by apply Z.log2_nonneg.
    destruct (Z.log2_spec n) as [_ Hlog]; [lia|exact Hlog].
  - simpl. f_equal; lia.
Qed.

Lemma str_pos_digit_headed (fuel : nat) (n : Z) (acc : string) :
  (1 ≤ fuel)%nat ∨ digit_headed acc → digit_headed (Py.str_pos fuel n acc).
Proof.
  revert n acc. induction fuel as [|fuel IH]; intros n acc Hacc.
  { destruct Hacc as [?|?]; [lia|done]. }
  cbn [Py.str_pos]. cbv zeta.
  assert (digit_headed (String (ascii_of_nat (48 + Z.to_nat (n `mod` 10))) acc)) as Hhead.
  { exists (n `mod` 10), acc. split; [apply Z.mod_pos_bound; lia|done]. }
  destruct (n <? 10); [done|]. apply IH. by right.
Qed.

Lemma int_digit_headed (s : string) :
  digit_headed s →
  Py.int s = match Py.digits 0 s with
             | Some n => Py.Ok n
             | None => Py.Raise (Py.ValueError s)
             end.
Proof.
  intros (d & rest & Hd & ->).
  assert (d = 0 ∨ d = 1 ∨ d = 2 ∨ d = 3 ∨ d = 4 ∨ d = 5 ∨ d = 6 ∨ d = 7 ∨ d = 8 ∨ d = 9)
    as Hcases by lia.
  repeat (destruct Hcases as [->|Hcases]; [reflexivity|]). by subst.
Qed.

Lemma int_str (n : Z) : Py.int (Py.str n) = Py.Ok n.
Proof.
  unfold Py.str. destruct (Z.ltb_spec n 0) as [Hneg|Hpos].
  - pose proof (str_pos_digit_headed (S (Z.to_nat (Z.log2 (- n)))) (- n) EmptyString) as Hhead.
    destruct Hhead as (d & rest & Hd & Hrest); [left; lia|].
    pose proof (digits_str_nonneg (- n)) as Hdigits. rewrite Hrest in *.
    cbn [Py.int]. rewrite Hdigits by lia. f_equal. lia.
  - rewrite int_digit_headed by (apply str_pos_digit_headed; left; lia).
    by rewrite digits_str_nonneg.
Qed.

Lemma str_inj (a b : Z) : Py.str a = Py.str b → a = b.
Proof.
  intros Heq. pose proof (int_str a) as Ha. rewrite Heq, int_str in Ha. congruence.
Qed.

Lemma append_nil_r (a : string) : a +:+ EmptyString = a.
Proof. induction a as [|c a IH]; [done|]. by rewrite append_cons, IH. Qed.

Lemma split_cons_sep (sep : ascii) (s : string) :
  Py.split sep (String sep s) = EmptyString :: Py.split sep s.
Proof. simpl. by rewrite Ascii.eqb_refl. Qed.

Lemma split_app_no_sep (sep : ascii) (a s : string) :
  sep ∉ list_ascii_of_string a →
  Py.split sep (a +:+ s) =
  match Py.split sep s with
  | w :: ws => (a +:+ w) :: ws
  | [] => [a]
  end.
Proof.
  pose proof (split_nonempty sep s) as Hne.
  induction a as [|c a IH]; intros Hsep.
  - rewrite append_nil. by destruct (Py.split sep s).
  - simpl in Hsep. apply not_elem_of_cons in Hsep as [Hc Hsep].
    rewrite append_cons. simpl.
    destruct (Ascii.eqb_spec c sep) as [->|_]; [done|].
    rewrite (IH Hsep). by destruct (Py.split sep s).
Qed.

Lemma split_trailing_sep (sep : ascii) (value : string) :
  ∃ w ws, Py.split sep (value +:+ String sep EmptyString) = w :: ws ++ [EmptyString].
Proof.
  induction value as [|c value (w & ws & IH)].
  - exists EmptyString, []. rewrite append_nil. simpl. by rewrite Ascii.eqb_refl.
  - rewrite append_cons. simpl. rewrite IH. destruct (Ascii.eqb c sep).
    + by exists EmptyString, (w :: ws).
    + by exists (String c w), ws.
Qed.

(** Splitting undoes joining, for parts that do not hold the separator. *)
Lemma split_concat_inv (sep : ascii) (parts : list string) :
  parts ≠ [] → Forall (λ part, sep ∉ list_ascii_of_string part) parts →
  Py.split sep (String.concat (String sep EmptyString) parts) = parts.
Proof.
  induction parts as [|x parts IH]; [done|]. intros _ Hall.
  apply Forall_cons in Hall as [Hx Hall]. destruct parts as [|y parts].
  - simpl. rewrite <- (append_nil_r x) at 1. rewrite split_app_no_sep by done.
    simpl. by rewrite append_nil_r.
  - change (String.concat (String sep EmptyString) (x :: y :: parts))
      with (x +:+ String sep (String.concat (String sep EmptyString) (y :: parts))).
    rewrite split_app_no_sep by done. rewrite split_cons_sep, IH by done.
    by rewrite append_nil_r.
Qed.

Lemma chr_digit_not (c : ascii) (d : Z) :
  0 ≤ d < 10 → Py.digit_of c = None → c ≠ ascii_of_nat (48 + Z.to_nat d).
Proof. intros Hd Hc ->. rewrite digit_of_chr in Hc by done. discriminate. Qed.

Lemma str_pos_no_comma (fuel : nat) (n : Z) (acc : string) :
  ","%char ∉ list_ascii_of_string acc →
  ","%char ∉ list_ascii_of_string (Py.str_pos fuel n acc).
Proof.
  revert n acc. induction fuel as [|fuel IH]; intros n acc Hacc; [done|].
  cbn [Py.str_pos]. cbv zeta.
  assert (","%char ∉ list_ascii_of_string
            (String (ascii_of_nat (48 + Z.to_nat (n `mod` 10))) acc)) as Hhead.
  { cbn [list_ascii_of_string]. apply not_elem_of_cons. split; [|done].
    apply chr_digit_not; [apply Z.mod_pos_bound; lia|reflexivity]. }
  destruct (n <? 10); [done|]. by apply IH.
Qed.

Lemma str_no_comma (n : Z) : ","%char ∉ list_ascii_of_string (Py.str n).
Proof.
  unfold Py.str. destruct (n <? 0).
  - cbn [list_ascii_of_string]. apply not_elem_of_cons. split; [done|].
    apply str_pos_no_comma, not_elem_of_nil.
  - apply str_pos_no_comma, not_elem_of_nil.
Qed.

(** X1. [_parse_int_csv] reads back what was written: the comma-joined
    decimal texts of a non-empty list of integers parse to that list. *)
Theorem parse_int_csv_round_trip (ns : list Z) :
  ns ≠ [] →
  CostApi._parse_int_csv (Some (String.concat "," (Py.str <$> ns))) = Py.Ok (Some ns).
Proof.
  intros Hne. apply parse_int_csv_spec.
  change "," with (String ","%char EmptyString). rewrite split_concat_inv.
  - apply Forall2_fmap_l, Forall_Forall2_diag, Forall_forall. intros n _. apply int_str.
  - by destruct ns.
  - apply Forall_fmap, Forall_forall. intros n _. apply str_no_comma.
Qed.

Lemma parse_int_csv_round_trip_witness :
  CostApi._parse_int_csv (Some "12,-1,0,-305") = Py.Ok (Some [12; -1; 0; -305]).
Proof. exact (parse_int_csv_round_trip [12; -1; 0; -305] ltac:(discriminate)). Defined.

Lemma ints_outcome (parts : list string) :
  (∃ ns, CostApi.ints parts = Py.Ok ns ∧ length ns = length parts) ∨
  (∃ part, part ∈ parts ∧ CostApi.ints parts = Py.Raise (Py.ValueError part)).
Proof.
  induction parts as [|v parts IH]; simpl; [left; by exists []|].
  destruct (Py.int v) as [n|e] eqn:Hv.
  - destruct IH as [(ns & -> & Hlen)|(part & Hin & ->)].
    + left. exists (n :: ns). simpl. by rewrite Hlen.
    + right. exists part. split; [by right|done].
  - right. exists v. split; [by left|].
    unfold Py.int in Hv. repeat case_match; congruence.
Qed.

Lemma ints_empty_item (parts : list string) :
  EmptyString ∈ parts → ∃ part, CostApi.ints parts = Py.Raise (Py.ValueError part).
Proof.
  induction parts as [|v parts IH]; [by intros ?%elem_of_nil|].
  intros Hin. simpl. destruct (Py.int v) as [n|e] eqn:Hv.
  - apply elem_of_cons in Hin as [<-|Hin]; [done|].
    destruct (IH Hin) as [part ->]. by exists part.
  - unfold Py.int in Hv. repeat case_match; simplify_eq; by eexists.
Qed.

(** X2. [_parse_int_csv] at its edges: no value gives no list; a value gives
    one integer per comma-separated item, so never an empty list; the only
    exception is [ValueError], raised for an item of the value; and a value
    with an empty item (the empty text, a leading, trailing or doubled comma)
    always raises it. *)
Theorem parse_int_csv_edges :
  CostApi._parse_int_csv None = Py.Ok None ∧
  (∀ value,
     (∃ ns, CostApi._parse_int_csv (Some value) = Py.Ok (Some ns) ∧
            length ns = length (Py.split ","%char value) ∧ ns ≠ []) ∨
     (∃ part, part ∈ Py.split ","%char value ∧
              CostApi._parse_int_csv (Some value) = Py.Raise (Py.ValueError part))) ∧
  (∀ value, EmptyString ∈ Py.split ","%char value →
            ∃ part, CostApi._parse_int_csv (Some value) = Py.Raise (Py.ValueError part)) ∧
  (∀ value, EmptyString ∈ Py.split ","%char (String.append value ",") ∧
            EmptyString ∈ Py.split ","%char (String ","%char value)).
Proof.
  split; [done|]. split; [|split].
  - intros value. simpl.
    destruct (ints_outcome (Py.split "," value)) as [(ns & -> & Hlen)|(part & Hin & ->)].
    + left. exists ns. split; [done|]. split; [done|].
      intros ->. by destruct (split_nonempty ","%char value), (Py.split "," value).
    + right. by exists part.
  - intros value Hin. simpl. destruct (ints_empty_item _ Hin) as [part ->]. by exists part.
  - intros value. split.
    + destruct (split_trailing_sep ","%char value) as (w & ws & ->). set_solver.
    + rewrite split_cons_sep. by left.
Qed.

(** ** The sort parameter *)

Lemma dict_set_keys {V} (k : string) (v : V) (d : list (string * V)) :
  (Py.dict_set k v d).*1 = if decide (k ∈ d.*1) then d.*1 else d.*1 ++ [k].
Proof.
  induction d as [|[k' v'] d IH]; csimpl; [done|].
  destruct (decide (k = k')) as [->|Hne]; csimpl.
  - rewrite decide_True by (by left). done.
  - rewrite IH. destruct (decide (k ∈ d.*1)) as [Hin|Hnin].
    + rewrite decide_True by (by right). done.
    + rewrite decide_False; [done|]. by intros [?|?]%elem_of_cons.
Qed.

Lemma dict_set_NoDup {V} (k : string) (v : V) (d : list (string * V)) :
  NoDup d.*1 → NoDup (Py.dict_set k v d).*1.
Proof.
  intros Hnd. rewrite dict_set_keys. case_decide as Hin; [done|].
  apply NoDup_app. split; [done|]. split; [|apply NoDup_singleton].
  intros x Hx Hk. apply list_elem_of_singleton in Hk as ->. done.
Qed.

Lemma sort_items_dict (items : list string) (acc d : list (string * utils.SortOrder)) :
  PrinterApi.sort_items items acc = Py.Ok d → NoDup acc.*1 →
  NoDup d.*1 ∧
  Forall sort_item_ok items ∧
  (∀ field, field ∈ d.*1 ↔
            field ∈ acc.*1 ∨
            ∃ item direction, item ∈ items ∧ Py.split ":"%char item = [field; direction]) ∧
  (length acc ≤ length d ≤ length acc + length items)%nat.
Proof.
  revert acc. induction items as [|item items IH]; intros acc; simpl.
  - intros [= <-] Hnd. split; [done|]. split; [constructor|]. split; [|lia].
    intros field. split; [by left|]. intros [?|(? & ? & ?%elem_of_nil & _)]; done.
  - destruct (Py.split ":" item) as [|field [|direction [|]]] eqn:Hsplit; try done.
    destruct (utils.SortOrder_getitem (Py.upper direction)) as [order|] eqn:Hdir; [|done].
    intros Hrun Hnd.
    destruct (IH _ Hrun (dict_set_NoDup field order acc Hnd)) as (Hd & Hall & Hkeys & Hlen).
    split; [done|]. split; [constructor; [by exists field, direction, order|done]|].
    assert (length (Py.dict_set field order acc).*1 = length (Py.dict_set field order acc))
      as Hl1 by apply length_fmap.
    pose proof (length_fmap fst acc) as Hl2. rewrite dict_set_keys in Hl1.
    split.
    + intros f. rewrite Hkeys, dict_set_keys. split.
      * intros [Hin|(it & dir & Hin & Hit)].
        -- case_decide; [by left|]. apply elem_of_app in Hin as [?|Hnew]; [by left|].
           apply list_elem_of_singleton in Hnew as ->.
           right. exists item, direction. split; [by left|done].
        -- right. exists it, dir. split; [by right|done].
      * intros [Hin|(it & dir & Hin & Hit)].
        -- left. case_decide; [done|]. apply elem_of_app. by left.
        -- apply elem_of_cons in Hin as [->|Hin].
           ++ rewrite Hsplit in Hit. injection Hit as <- <-. left.
              case_decide; [done|]. apply elem_of_app. right. by left.
           ++ right. by exists it, dir.
    + case_decide; [|rewrite length_app in Hl1; simpl in Hl1]; lia.
Qed.

(** X3. The dict that [find] builds from the sort parameter: when the loop
    succeeds, every comma-separated item was [field:direction] with a
    direction that is asc or desc in any letter case, the dict is not empty,
    holds each field once however often it was listed, holds exactly the
    listed fields, and so has at most as many entries as there are items. *)
Theorem sort_parameter_dict (sort : string) (sort_by : list (string * utils.SortOrder)) :
  PrinterApi.parse_sort (Some sort) = Py.Ok sort_by →
  NoDup sort_by.*1 ∧
  Forall sort_item_ok (Py.split ","%char sort) ∧
  (∀ field, field ∈ sort_by.*1 ↔
            ∃ item direction, item ∈ Py.split ","%char sort ∧
                              Py.split ":"%char item = [field; direction]) ∧
  sort_by ≠ [] ∧
  (length sort_by ≤ length (Py.split ","%char sort))%nat.
Proof.
  intros Hrun. simpl in Hrun.
  destruct (sort_items_dict _ [] _ Hrun) as (Hnd & Hall & Hkeys & Hlen); [constructor|].
  split; [done|]. split; [done|]. split; [|split; [|simpl in Hlen; lia]].
  - intros field. rewrite Hkeys. split; [|by right].
    intros [?%elem_of_nil|?]; done.
  - intros ->. pose proof (split_nonempty ","%char sort) as Hne.
    destruct (Py.split "," sort) as [|item items]; [done|].
    apply Forall_cons in Hall as [(field & direction & order & Hsplit & _) _].
    assert (field ∈ ([] : list (string * utils.SortOrder)).*1) as Hin.
    { apply Hkeys. right. exists item, direction. split; [by left|done]. }
    by apply elem_of_nil in Hin.
Qed.

Lemma sort_parameter_dict_witness :
  PrinterApi.parse_sort (Some "name:asc,id:Desc,name:DESC") =
    Py.Ok [("name", utils.DESC); ("id", utils.DESC)] ∧
  NoDup [("name", utils.DESC); ("id", utils.DESC)].*1.
Proof.
  split; [reflexivity|].
  exact (proj1 (sort_parameter_dict "name:asc,id:Desc,name:DESC"
                  [("name", utils.DESC); ("id", utils.DESC)] eq_refl)).
Defined.

Lemma sort_items_malformed (pre post : list string) (item : string)
    (acc : list (string * utils.SortOrder)) :
  Forall sort_item_ok pre → length (Py.split ":"%char item) ≠ 2%nat →
  ∃ msg, PrinterApi.sort_items (pre ++ item :: post) acc = Py.Raise (Py.ValueError msg).
Proof.
  intros Hpre Hitem. revert acc.
  induction Hpre as [|x pre (field & direction & order & Hsplit & Hdir) _ IH]; intros acc; simpl.
  - destruct (Py.split ":" item) as [|? [|? [|]]]; simpl in Hitem; try done; by eexists.
  - rewrite Hsplit, Hdir. apply IH.
Qed.

Lemma split_length (sep : ascii) (s : string) :
  length (Py.split sep s) = S (length (filter (λ c, c = sep) (list_ascii_of_string s))).
Proof.
  induction s as [|c s IH]; [done|]. simpl.
  destruct (Ascii.eqb_spec c sep) as [->|Hne].
  - rewrite filter_cons_True by done. simpl. by rewrite IH.
  - rewrite filter_cons_False by done. pose proof (split_nonempty sep s).
    destruct (Py.split sep s); [done|]. by rewrite <- IH.
Qed.

(** X4. A malformed request parameter makes [find] fail before anything
    else happens.  An item of the sort parameter that does not hold exactly
    one colon (so also the empty sort parameter) raises [ValueError]; and
    whatever the sort or the id parameters raise leaves the endpoint with the
    process untouched: no statement was executed. *)
Theorem find_rejects_malformed_parameters :
  (∀ pre item post acc,
     Forall sort_item_ok pre →
     length (filter (λ c, c = ":"%char) (list_ascii_of_string item)) ≠ 1%nat →
     ∃ msg, PrinterApi.sort_items (pre ++ item :: post) acc = Py.Raise (Py.ValueError msg)) ∧
  (∃ msg, PrinterApi.parse_sort (Some EmptyString) = Py.Raise (Py.ValueError msg)) ∧
  (∀ (w : Proc.World) name sort limit offset e,
     PrinterApi.parse_sort sort = Py.Raise e →
     PrinterApi.find name sort limit offset w = (Py.Raise e, w)) ∧
  (∀ (w : Proc.World) parse printer_id filament_id sort limit offset e,
     PrinterApi.parse_sort sort = Py.Raise e ∨
     (∃ sort_by, PrinterApi.parse_sort sort = Py.Ok sort_by ∧
                 (CostApi._parse_int_csv printer_id = Py.Raise e ∨
                  (∃ ids, CostApi._parse_int_csv printer_id = Py.Ok ids ∧
                          CostApi._parse_int_csv filament_id = Py.Raise e))) →
     CostApi.find parse printer_id filament_id sort limit offset w = (Py.Raise e, w)).
Proof.
  split; [|split; [by eexists|split]].
  - intros pre item post acc Hpre Hcolons. apply sort_items_malformed; [done|].
    rewrite split_length. lia.
  - intros w name sort limit offset e Hsort.
    unfold PrinterApi.find, Proc.bind, Proc.lift. by rewrite Hsort.
  - intros w parse printer_id filament_id sort limit offset e Hbad.
    unfold CostApi.find, Proc.bind, Proc.lift.
    destruct Hbad as [->|(sort_by & -> & [->|(ids & -> & ->)])]; done.
Qed.

Lemma find_rejects_malformed_parameters_witness :
  (∃ msg, PrinterApi.sort_items ["name:asc"; "power_watts"; "id:desc"] [] =
            Py.Raise (Py.ValueError msg)) ∧
  CostApi.find (λ field, Py.Raise (Py.ValueError field)) (Some "1,") None (Some "id:asc")
    (Some 5) 0 Sample.world = (Py.Raise (Py.ValueError ""), Sample.world).
Proof.
  destruct find_rejects_malformed_parameters as (Hitem & _ & _ & Hcost). split.
  - apply (Hitem ["name:asc"] "power_watts" ["id:desc"] []).
    + constructor; [|constructor]. by exists "name", "asc", utils.ASC.
    + by_compute.
  - apply Hcost. right. exists [("id", utils.ASC)]. split; [reflexivity|]. by left.
Defined.

(** ** [find] in the database layer *)



Lemma unique_sublist {R} (key : R → Z) (seen : list Z) (l : list R) :
  utils.unique key seen l `sublist_of` l.
Proof.
  revert seen. induction l as [|r l IH]; intros seen; simpl; [done|].
  case_decide; [by apply sublist_cons|by apply sublist_skip].
Qed.

Lemma unique_keys {R} (key : R → Z) (seen : list Z) (l : list R) :
  NoDup (key <$> utils.unique key seen l) ∧
  ∀ x, x ∈ utils.unique key seen l → key x ∉ seen.
Proof.
  revert seen. induction l as [|r l IH]; intros seen; simpl.
  - split; [constructor|]. by intros x ?%elem_of_nil.
  - case_decide as Hseen; [apply IH|].
    destruct (IH (key r :: seen)) as [Hnd Hfresh]. split.
    + rewrite fmap_cons. apply NoDup_cons. split; [|done].
      intros (x & Hx & Hin)%list_elem_of_fmap. apply (Hfresh x Hin). rewrite <- Hx. by left.
    + intros x [->|Hin]%elem_of_cons; [done|].
      intros Hx. apply (Hfresh x Hin). by right.
Qed.

Lemma rows_sublist {R} (stmt : utils.Select R) (table : list R) :
  utils.rows stmt table `sublist_of`
    merge_sort (utils.precedes (utils.order_by_clauses stmt)) (utils.matching stmt table).
Proof.
  unfold utils.rows. destruct (utils.limit_clause stmt) as [n|]; [destruct (n <? 0)|].
  - apply sublist_drop.
  - etrans; [apply sublist_take|apply sublist_drop].
  - apply sublist_drop.
Qed.

Lemma find_page_items {R} (table : Proc.Database → list R) (key : R → Z)
    (parse : string → Py.result (R → utils.Value)) (stmt : utils.Select R)
    (sort_by : option (list (string * utils.SortOrder))) (limit : option Z) (offset : Z)
    (w : Proc.World) (items : list R) (total_count : nat) :
  (Common.find_page table key parse stmt sort_by limit offset w).1 = Py.Ok (items, total_count) →
  NoDup (key <$> items) ∧
  (∀ x, x ∈ items → x ∈ utils.matching stmt (table (Proc.db w))) ∧
  (∀ n, limit = Some n →
        (0 ≤ n → (length items ≤ Z.to_nat n)%nat) ∧
        Io.fits n = true ∧ Io.fits offset = true ∧
        total_count = length (utils.matching stmt (table (Proc.db w)))) ∧
  (limit = None → total_count = length items) ∧
  (length items ≤ total_count)%nat.
Proof.
  rewrite find_page_unfold. cbv zeta.
  destruct (Common.order_by_items parse _ _) as [ordered|e] eqn:Hord; [|done].
  apply order_by_items_clauses in Hord as (Hwhere & Hoff & Hlim).
  destruct (Common.bindable _) eqn:Hbind; [|done].
  simpl. intros [= <- <-].
  set (found := utils.rows ordered (table (Proc.db w))).
  assert (utils.unique key [] found `sublist_of` found) as Huniq by apply unique_sublist.
  assert (found `sublist_of`
            merge_sort (utils.precedes (utils.order_by_clauses ordered))
              (utils.matching stmt (table (Proc.db w)))) as Hrows.
  { assert (utils.whereclause ordered = utils.whereclause stmt) as Hsame
      by (rewrite Hwhere; by destruct limit).
    unfold found. rewrite <- (matching_clauses _ ordered) by done. apply rows_sublist. }
  assert (length (utils.unique key [] found) ≤
          length (utils.matching stmt (table (Proc.db w))))%nat as Hlen.
  { etrans; [apply sublist_length, Huniq|]. etrans; [apply sublist_length, Hrows|].
    by rewrite merge_sort_Permutation. }
  split; [apply unique_keys|]. split; [|split; [|split]].
  - intros x Hx. pose proof (elem_of_sublist _ _ _ (elem_of_sublist _ _ _ Hx Huniq) Hrows) as Hin.
    by rewrite merge_sort_Permutation in Hin.
  - intros n ->. unfold Common.bindable in Hbind. simpl in Hbind.
    apply andb_true_iff in Hbind as [Hfo Hfn]. split; [|done].
    intros Hn. etrans; [apply sublist_length, Huniq|].
    simpl in Hlim. unfold found, utils.rows. rewrite Hlim.
    destruct (Z.ltb_spec n 0); [lia|]. rewrite length_take. lia.
  - by intros ->.
  - destruct limit; [exact Hlen|done].
Qed.

(** X6. What [find] returns whatever the tables hold, even rows that share
    a primary key: no two items have the same id, every item is a row that
    passes the filters, a limit makes [total_count] the number of rows
    passing the filters and, when it is not negative, bounds the number of
    items (a negative limit bounds nothing: all rows after the offset come
    back), without a limit [total_count] is the number of items, and
    [total_count] is never below the number of items.  [find] returns with
    a limit only if limit and offset fit the 64 bits of a statement
    parameter.  Without a limit the offset is not used at all. *)
Theorem find_items_whatever_the_table (w : Proc.World) :
  (∀ name sort_by limit offset items total_count,
     (PrinterDb.find name sort_by limit offset w).1 = Py.Ok (items, total_count) →
     let passing := utils.matching
                      (utils.add_where_clause_str_opt utils.select
                         (λ p, Some (models.Printer.name p)) name)
                      (Proc.printer_table (Proc.db w)) in
     NoDup (models.Printer.id <$> items) ∧
     (∀ x, x ∈ items → x ∈ passing) ∧
     (∀ n, limit = Some n →
           (0 ≤ n → (length items ≤ Z.to_nat n)%nat) ∧
           Io.fits n = true ∧ Io.fits offset = true ∧
           total_count = length passing) ∧
     (limit = None → total_count = length items) ∧
     (length items ≤ total_count)%nat) ∧
  (∀ parse printer_id filament_id sort_by limit offset items total_count,
     (CostDb.find parse printer_id filament_id sort_by limit offset w).1 =
       Py.Ok (items, total_count) →
     let passing := utils.matching
                      (utils.add_where_clause_int_opt
                         (utils.add_where_clause_int_opt utils.select
                            (λ c, models.CostCalculation.printer_id (models.CostCalculation.row c))
                            printer_id)
                         (λ c, models.CostCalculation.filament_id (models.CostCalculation.row c))
                         filament_id)
                      (Io.load_cost (Proc.db w) <$> Proc.cost_table (Proc.db w)) in
     NoDup ((λ c, models.CostCalculation.id (models.CostCalculation.row c)) <$> items) ∧
     (∀ x, x ∈ items → x ∈ passing) ∧
     (∀ n, limit = Some n →
           (0 ≤ n → (length items ≤ Z.to_nat n)%nat) ∧
           Io.fits n = true ∧ Io.fits offset = true ∧
           total_count = length passing) ∧
     (limit = None → total_count = length items) ∧
     (length items ≤ total_count)%nat) ∧
  (∀ name sort_by offset,
     PrinterDb.find name sort_by None offset w = PrinterDb.find name sort_by None 0 w) ∧
  (∀ parse printer_id filament_id sort_by offset,
     CostDb.find parse printer_id filament_id sort_by None offset w =
     CostDb.find parse printer_id filament_id sort_by None 0 w).
Proof.
  split; [|split; [|split]].
  - intros name sort_by limit offset items total_count Hfind. cbv zeta.
    exact (find_page_items _ _ _ _ _ _ _ _ _ _ Hfind).
  - intros parse printer_id filament_id sort_by limit offset items total_count Hfind. cbv zeta.
    exact (find_page_items _ _ _ _ _ _ _ _ _ _ Hfind).
  - intros. unfold PrinterDb.find. by rewrite !find_page_unfold.
  - intros. unfold CostDb.find. by rewrite !find_page_unfold.
Qed.

Lemma find_items_whatever_the_table_witness :
  (∃ items total_count,
     (PrinterDb.find None None (Some 7) 0 doubled).1 = Py.Ok (items, total_count) ∧
     NoDup (models.Printer.id <$> items) ∧ length items = 5%nat ∧ total_count = 10%nat) ∧
  (∃ items total_count,
     (PrinterDb.find None None (Some (-1)) 0 Sample.world).1 = Py.Ok (items, total_count) ∧
     NoDup (models.Printer.id <$> items) ∧ length items = 5%nat ∧ total_count = 5%nat).
Proof.
  split.
  - eexists _, _. split; [vm_compute; reflexivity|].
    destruct (find_items_whatever_the_table doubled) as [Hprinter _].
    destruct (Hprinter None None (Some 7) 0 _ _ eq_refl) as (Hnd & _).
    split; [exact Hnd|]. split; reflexivity.
  - eexists _, _. split; [vm_compute; reflexivity|].
    destruct (find_items_whatever_the_table Sample.world) as [Hprinter _].
    destruct (Hprinter None None (Some (-1)) 0 _ _ eq_refl) as (Hnd & _).
    split; [exact Hnd|]. split; reflexivity.
Defined.

(** ** Tables and primary keys *)

Lemma next_id_fresh (used : list Z) : Io.next_id used ∉ used ∧ 0 < Io.next_id used.
Proof.
  unfold Io.next_id.
  assert (0 ≤ foldr Z.max 0 used ∧ ∀ k, k ∈ used → k ≤ foldr Z.max 0 used) as [Hpos Hmax].
  { induction used as [|x used [IH1 IH2]]; simpl.
    - split; [done|]. by intros k ?%elem_of_nil.
    - split; [lia|]. intros k [->|Hk]%elem_of_cons; [lia|]. specialize (IH2 k Hk). lia. }
  split; [|lia]. intros Hin. specialize (Hmax _ Hin). lia.
Qed.

Lemma row_by_id_snoc {R} (key : R → Z) (table : list R) (r : R) :
  key r ∉ key <$> table → Io.row_by_id key (key r) (table ++ [r]) = Some r.
Proof.
  unfold Io.row_by_id. induction table as [|x table IH]; simpl.
  - intros _. by rewrite bool_decide_eq_true_2.
  - rewrite not_elem_of_cons. intros [Hne Hfresh].
    rewrite bool_decide_eq_false_2 by done. by apply IH.
Qed.

Lemma row_by_id_snoc_other {R} (key : R → Z) (k : Z) (table : list R) (r : R) :
  key r ≠ k → Io.row_by_id key k (table ++ [r]) = Io.row_by_id key k table.
Proof.
  intros Hne. unfold Io.row_by_id. induction table as [|x table IH]; simpl.
  - by rewrite bool_decide_eq_false_2.
  - by rewrite IH.
Qed.

Lemma replace_row_keys {R} (key : R → Z) (r : R) (table : list R) :
  key <$> Io.replace_row key r table = key <$> table.
Proof.
  unfold Io.replace_row. rewrite <- list_fmap_compose. apply list_fmap_ext.
  intros i x _. simpl. case_decide; congruence.
Qed.

Lemma row_by_id_replace {R} (key : R → Z) (r : R) (table : list R) :
  key r ∈ key <$> table → Io.row_by_id key (key r) (Io.replace_row key r table) = Some r.
Proof.
  unfold Io.row_by_id, Io.replace_row. induction table as [|x table IH]; csimpl.
  - by intros ?%elem_of_nil.
  - intros Hin. case_decide as Hx; csimpl.
    + by rewrite bool_decide_eq_true_2.
    + rewrite bool_decide_eq_false_2 by done.
      apply elem_of_cons in Hin as [Heq|Hin]; [congruence|by apply IH].
Qed.

Lemma row_by_id_replace_other {R} (key : R → Z) (k : Z) (r : R) (table : list R) :
  key r ≠ k → Io.row_by_id key k (Io.replace_row key r table) = Io.row_by_id key k table.
Proof.
  intros Hne. unfold Io.row_by_id, Io.replace_row.
  induction table as [|x table IH]; csimpl; [done|].
  case_decide as Hx; csimpl.
  - rewrite !bool_decide_eq_false_2 by congruence. apply IH.
  - by rewrite IH.
Qed.

Lemma replace_row_same {R} (key : R → Z) (r : R) (table : list R) :
  NoDup (key <$> table) → r ∈ table → Io.replace_row key r table = table.
Proof.
  intros Hnd Hin. unfold Io.replace_row.
  rewrite <- (list_fmap_id table) at 2. apply list_fmap_ext.
  intros i x Hx. simpl. case_decide as Hkey; [|done].
  apply list_elem_of_lookup in Hin as [j Hj].
  assert (i = j) as ->; [|congruence].
  eapply NoDup_lookup; [exact Hnd| |]; rewrite list_lookup_fmap.
  - by rewrite Hx.
  - rewrite Hj. simpl. by rewrite Hkey.
Qed.

Lemma row_by_id_delete {R} (key : R → Z) (k k' : Z) (table : list R) :
  Io.row_by_id key k' (Io.delete_row key k table) =
  if decide (k' = k) then None else Io.row_by_id key k' table.
Proof.
  unfold Io.row_by_id, Io.delete_row. induction table as [|x table IH]; simpl.
  - by case_decide.
  - destruct (decide (key x = k)) as [Hx|Hx].
    + rewrite filter_cons_False by (intros Hne; by apply Hne). rewrite IH.
      case_decide; [done|]. by rewrite bool_decide_eq_false_2 by congruence.
    + rewrite filter_cons_True by done. simpl. rewrite IH.
      case_decide as Hk; [|done]. subst k'. by rewrite bool_decide_eq_false_2.
Qed.

Lemma delete_row_absent {R} (key : R → Z) (k : Z) (table : list R) :
  k ∉ key <$> table → Io.delete_row key k table = table.
Proof.
  intros Hk. unfold Io.delete_row. induction table as [|x table IH]; [done|].
  rewrite fmap_cons, not_elem_of_cons in Hk. destruct Hk as [Hne Hk].
  rewrite filter_cons_True by done. by rewrite IH.
Qed.

(** ** Mutations of printers *)

Lemma printer_changed_state (printer : models.Printer.t) (typ : api_models.EventType)
    (w : Proc.World) :
  let w' := (PrinterDb.printer_changed printer typ w).2 in
  Proc.db w' = Proc.db w ∧ Proc.session w' = Proc.session w ∧
  Proc.queries w' = Proc.queries w ∧ Proc.env w' = Proc.env w.
Proof.
  unfold_emitter. destruct (Proc.send_fault (Proc.env w)) as [e|]; simpl.
  - by destruct (Py.is_Exception e).
  - by repeat case_match.
Qed.

Lemma cost_changed_state (cost_calc : models.CostCalculation.obj) (typ : api_models.EventType)
    (w : Proc.World) :
  let w' := (CostDb.cost_changed cost_calc typ w).2 in
  Proc.db w' = Proc.db w ∧ Proc.session w' = Proc.session w ∧
  Proc.queries w' = Proc.queries w ∧ Proc.env w' = Proc.env w.
Proof.
  unfold_emitter. destruct (Proc.send_fault (Proc.env w)) as [e|]; simpl.
  - by destruct (Py.is_Exception e).
  - by repeat case_match.
Qed.

(** [create] of a printer on a fresh session, up to the notification. *)
Lemma printer_create_unfold (w : Proc.World) name power_watts depreciation comment :
  Proc.session w = [] →
  let now := Proc.clock (Proc.env w) in
  let printer :=
    models.Printer.Build
      (Io.next_id (models.Printer.id <$> Proc.printer_table (Proc.db w)))
      (now - now mod 1000000) name power_watts depreciation comment in
  PrinterDb.create name power_watts depreciation comment w =
  Proc.bind (PrinterDb.printer_changed printer api_models.ADDED) (λ _, Proc.ret printer)
    (Proc.set_session []
       (Proc.set_db (with_printers (Proc.printer_table (Proc.db w) ++ [printer]) (Proc.db w))
          w)).
Proof.
  intros Hsession. cbv zeta.
  pose proof (next_id_fresh (models.Printer.id <$> Proc.printer_table (Proc.db w)))
    as [Hfresh _].
  unfold PrinterDb.create, Io.add_printer, Io.commit, Io.refresh_printer, Io.utcnow,
    Proc.bind at 1 2 3 4, Proc.ret.
  rewrite Hsession. simpl. rewrite app_nil_r.
  set (printer := models.Printer.Build _ _ name power_watts depreciation comment).
  pose proof (row_by_id_snoc models.Printer.id _ printer Hfresh) as Hrow.
  change (models.Printer.id printer)
    with (Io.next_id (models.Printer.id <$> Proc.printer_table (Proc.db w))) in Hrow.
  rewrite Hrow. reflexivity.
Qed.

(** X7. [create] of a printer on a fresh session, when [send] raises nothing
    that escapes [except Exception]: the printer returned has an id that no
    stored printer had, the fields as given, and as [registered] the clock
    cut to the whole second; the printer table is the old one with the new
    row at its end and the other tables are untouched; nothing stays pending
    in the session; and [get_by_id] of the new id then returns the same
    printer. *)
Theorem printer_create_round_trip (w : Proc.World) name power_watts depreciation comment :
  Proc.session w = [] → send_raises_only_Exception w →
  let out := PrinterDb.create name power_watts depreciation comment w in
  ∃ printer,
    out.1 = Py.Ok printer ∧
    (models.Printer.id printer ∉ models.Printer.id <$> Proc.printer_table (Proc.db w)) ∧
    models.Printer.name printer = name ∧
    models.Printer.power_watts printer = power_watts ∧
    models.Printer.depreciation_cost_per_hour printer = depreciation ∧
    models.Printer.comment printer = comment ∧
    models.Printer.registered printer mod 1000000 = 0 ∧
    models.Printer.registered printer ≤ Proc.clock (Proc.env w)
      < models.Printer.registered printer + 1000000 ∧
    Proc.db out.2 = with_printers (Proc.printer_table (Proc.db w) ++ [printer]) (Proc.db w) ∧
    Proc.session out.2 = [] ∧
    (PrinterDb.get_by_id (models.Printer.id printer) out.2).1 = Py.Ok printer.
Proof.
  intros Hsession Hexc. cbv zeta. rewrite printer_create_unfold by done. cbv zeta.
  set (now := Proc.clock (Proc.env w)).
  set (printer := models.Printer.Build _ _ name power_watts depreciation comment).
  set (w1 := Proc.set_session [] _).
  pose proof (next_id_fresh (models.Printer.id <$> Proc.printer_table (Proc.db w)))
    as [Hfresh _].
  pose proof (printer_changed_state printer api_models.ADDED w1) as (Hdb & Hses & _ & _).
  pose proof (printer_changed_returns printer api_models.ADDED w1 Hexc) as Hok.
  cbv zeta in Hdb, Hses. unfold Proc.bind, Proc.ret.
  destruct (PrinterDb.printer_changed printer api_models.ADDED w1) as [[[]|e] w2];
    simpl in *; [|done].
  exists printer. split; [done|]. split; [exact Hfresh|].
  do 4 (split; [done|]).
  pose proof (Z.mod_pos_bound now 1000000 eq_refl) as Hmod.
  change (models.Printer.registered printer) with (now - now mod 1000000).
  split; [|split; [lia|]].
  { rewrite Zminus_mod, Zmod_mod, Z.sub_diag. done. }
  split; [done|]. split; [done|].
  pose proof (row_by_id_snoc models.Printer.id _ printer Hfresh) as Hrow.
  unfold PrinterDb.get_by_id, Io.get_printer, Io.by_key, Proc.bind, Proc.ret.
  cbn [fst snd]. rewrite Hdb. cbn [with_printers Proc.printer_table].
  by rewrite Hrow.
Qed.

Lemma printer_create_round_trip_witness :
  ∃ printer,
    (PrinterDb.create "Ender 3" (Some (125 # 1)%Q) None (Some "spare") Sample.world).1
      = Py.Ok printer ∧
    models.Printer.id printer = 6 ∧ models.Printer.registered printer = 1700000000000000 ∧
    (models.Printer.id printer ∉ models.Printer.id <$> Sample.printers).
Proof.
  destruct (printer_create_round_trip Sample.world "Ender 3" (Some (125 # 1)%Q) None
              (Some "spare") eq_refl) as (printer & Hrun & Hfresh & _).
  { intros e [=]. }
  exists printer. split; [exact Hrun|]. split; [|split; [|exact Hfresh]].
  - vm_compute in Hrun. by injection Hrun as <-.
  - vm_compute in Hrun. by injection Hrun as <-.
Defined.

(** [update] of a stored printer on a fresh session, up to the notification. *)
Lemma printer_update_unfold (w : Proc.World) printer_id name power_watts depreciation comment
    (old : models.Printer.t) :
  Proc.session w = [] →
  Io.row_by_id models.Printer.id printer_id (Proc.printer_table (Proc.db w)) = Some old →
  let printer :=
    models.Printer.Build (models.Printer.id old) (models.Printer.registered old)
      (default (models.Printer.name old) name)
      (Common.or_else power_watts (models.Printer.power_watts old))
      (Common.or_else depreciation (models.Printer.depreciation_cost_per_hour old))
      (Common.or_else comment (models.Printer.comment old)) in
  PrinterDb.update printer_id name power_watts depreciation comment w =
  Proc.bind (PrinterDb.printer_changed printer api_models.UPDATED) (λ _, Proc.ret printer)
    (Proc.set_session []
       (Proc.set_db
          (with_printers
             (Io.replace_row models.Printer.id printer (Proc.printer_table (Proc.db w)))
             (Proc.db w))
          w)).
Proof.
  intros Hsession Hold. cbv zeta.
  unfold PrinterDb.update, PrinterDb.get_by_id, Io.get_printer, Io.by_key, Io.mark, Io.commit,
    Proc.bind at 1 2 3 4, Proc.ret.
  rewrite Hold, Hsession. reflexivity.
Qed.

(** X8. [update] of a stored printer on a fresh session, when [send] raises
    nothing that escapes [except Exception]: the printer returned keeps its
    id and [registered], takes every field that was given and keeps every
    field that was not, so that no field can be set back to [None]; the row
    is replaced in place (the ids of the table and every other row stay);
    [get_by_id] then returns the updated printer; and an update that gives
    no field leaves a table with unique ids as it was. *)
Theorem printer_update_stores (w : Proc.World) printer_id name power_watts depreciation comment
    (old : models.Printer.t) :
  Proc.session w = [] → send_raises_only_Exception w →
  Io.row_by_id models.Printer.id printer_id (Proc.printer_table (Proc.db w)) = Some old →
  let out := PrinterDb.update printer_id name power_watts depreciation comment w in
  ∃ printer,
    out.1 = Py.Ok printer ∧
    models.Printer.id printer = printer_id ∧
    models.Printer.registered printer = models.Printer.registered old ∧
    models.Printer.name printer = default (models.Printer.name old) name ∧
    models.Printer.power_watts printer =
      Common.or_else power_watts (models.Printer.power_watts old) ∧
    models.Printer.depreciation_cost_per_hour printer =
      Common.or_else depreciation (models.Printer.depreciation_cost_per_hour old) ∧
    models.Printer.comment printer = Common.or_else comment (models.Printer.comment old) ∧
    (is_Some (models.Printer.power_watts old) → is_Some (models.Printer.power_watts printer)) ∧
    (is_Some (models.Printer.depreciation_cost_per_hour old) →
     is_Some (models.Printer.depreciation_cost_per_hour printer)) ∧
    (is_Some (models.Printer.comment old) → is_Some (models.Printer.comment printer)) ∧
    Proc.db out.2 =
      with_printers (Io.replace_row models.Printer.id printer (Proc.printer_table (Proc.db w)))
        (Proc.db w) ∧
    models.Printer.id <$> Proc.printer_table (Proc.db out.2) =
      models.Printer.id <$> Proc.printer_table (Proc.db w) ∧
    (∀ k, k ≠ printer_id →
          Io.row_by_id models.Printer.id k (Proc.printer_table (Proc.db out.2)) =
          Io.row_by_id models.Printer.id k (Proc.printer_table (Proc.db w))) ∧
    (PrinterDb.get_by_id printer_id out.2).1 = Py.Ok printer ∧
    (name = None → power_watts = None → depreciation = None → comment = None →
     NoDup (models.Printer.id <$> Proc.printer_table (Proc.db w)) →
     printer = old ∧ Proc.db out.2 = Proc.db w).
Proof.
  intros Hsession Hexc Hold. cbv zeta.
  rewrite (printer_update_unfold w _ _ _ _ _ old) by done. cbv zeta.
  set (printer := models.Printer.Build _ _ _ _ _ _).
  set (w1 := Proc.set_session [] _).
  pose proof (row_by_id_Some _ _ _ _ Hold) as [Hid Hin].
  pose proof (printer_changed_state printer api_models.UPDATED w1) as (Hdb & _).
  pose proof (printer_changed_returns printer api_models.UPDATED w1 Hexc) as Hok.
  cbv zeta in Hdb. unfold Proc.bind, Proc.ret.
  destruct (PrinterDb.printer_changed printer api_models.UPDATED w1) as [[[]|e] w2];
    simpl in Hdb, Hok |- *; [|done].
  exists printer. split; [done|]. split; [exact Hid|]. do 5 (split; [done|]).
  split; [by destruct power_watts|]. split; [by destruct depreciation|].
  split; [by destruct comment|].
  split; [done|]. rewrite Hdb. cbn [with_printers Proc.printer_table].
  split; [apply replace_row_keys|].
  split; [intros k Hk; apply row_by_id_replace_other; simpl; congruence|].
  split.
  - unfold PrinterDb.get_by_id, Io.get_printer, Io.by_key, Proc.bind, Proc.ret. cbn [fst snd].
    rewrite Hdb. cbn [with_printers Proc.printer_table].
    pose proof (row_by_id_replace models.Printer.id printer (Proc.printer_table (Proc.db w)))
      as Hrow.
    change (models.Printer.id printer) with (models.Printer.id old) in Hrow.
    rewrite Hid in Hrow. rewrite Hrow; [done|].
    rewrite <- Hid. by apply list_elem_of_fmap_2.
  - intros -> -> -> -> Hnd.
    assert (printer = old) as Hsame by (unfold printer; by destruct old).
    split; [done|]. rewrite Hsame, replace_row_same by done. by destruct (Proc.db w).
Qed.

Lemma printer_update_stores_witness :
  ∃ printer,
    (PrinterDb.update 3 None None (Some (3 # 4)%Q) None Sample.world).1 = Py.Ok printer ∧
    printer = models.Printer.Build 3 3000000 "Voron" (Some (120 # 1)%Q) (Some (3 # 4)%Q)
                (Some "0.6mm nozzle") ∧
    (PrinterDb.get_by_id 3
       (PrinterDb.update 3 None None (Some (3 # 4)%Q) None Sample.world).2).1 = Py.Ok printer.
Proof.
  destruct (printer_update_stores Sample.world 3 None None (Some (3 # 4)%Q) None
              (models.Printer.Build 3 3000000 "Voron" (Some (120 # 1)%Q) None
                 (Some "0.6mm nozzle")) eq_refl)
    as (printer & Hrun & _ & _ & _ & _ & _ & _ & _ & _ & _ & _ & _ & _ & Hget & _).
  { intros e [=]. }
  { reflexivity. }
  exists printer. split; [exact Hrun|]. split; [|exact Hget].
  vm_compute in Hrun. by injection Hrun as <-.
Defined.

(** [delete] of a stored printer stops at [scalar_one]. *)
Lemma printer_delete_stored (w : Proc.World) printer_id (old : models.Printer.t) :
  Io.row_by_id models.Printer.id printer_id (Proc.printer_table (Proc.db w)) = Some old →
  PrinterDb.delete printer_id w = (Py.Raise Io.unique_not_invoked, w).
Proof.
  intros Hold.
  unfold PrinterDb.delete, Io.scalar_one_joinedload, Proc.try_except, Proc.bind.
  by rewrite (by_key_stored _ _ _ _ Hold).
Qed.

(** X9. [delete] of a stored printer, whatever the session holds and
    whatever the notification would do: [scalar_one] on the result of
    [joinedload] raises [InvalidRequestError], which is not the
    [NoResultFound] that the function catches, so [delete] raises it and
    leaves the process exactly as it was: no row is deleted, nothing is
    committed, nothing is published, and [get_by_id] still returns the
    printer. *)
Theorem printer_delete_refused (w : Proc.World) printer_id (old : models.Printer.t) :
  Io.row_by_id models.Printer.id printer_id (Proc.printer_table (Proc.db w)) = Some old →
  let out := PrinterDb.delete printer_id w in
  out.1 = Py.Raise Io.unique_not_invoked ∧
  Py.is_ItemNotFoundError Io.unique_not_invoked = false ∧
  out.2 = w ∧
  Io.row_by_id models.Printer.id printer_id (Proc.printer_table (Proc.db out.2)) = Some old ∧
  Proc.published (Proc.hub out.2) = Proc.published (Proc.hub w) ∧
  (PrinterDb.get_by_id printer_id out.2).1 = Py.Ok old.
Proof.
  intros Hold. cbv zeta. rewrite (printer_delete_stored w _ old Hold). cbn [fst snd].
  do 5 (split; [done|]).
  unfold PrinterDb.get_by_id, Io.get_printer, Io.by_key, Proc.bind, Proc.ret.
  by rewrite Hold.
Qed.

Lemma printer_delete_refused_witness :
  (∃ msg, (PrinterDb.delete 4 Sample.world).1 = Py.Raise (Py.InvalidRequestError msg)) ∧
  models.Printer.id <$> Proc.printer_table (Proc.db (PrinterDb.delete 4 Sample.world).2) =
    [1; 2; 3; 4; 5] ∧
  (PrinterDb.get_by_id 4 (PrinterDb.delete 4 Sample.world).2).1 =
    Py.Ok (models.Printer.Build 4 4000000 "Prusa" None None None).
Proof.
  destruct (printer_delete_refused Sample.world 4
              (models.Printer.Build 4 4000000 "Prusa" None None None) eq_refl)
    as (Hrun & _ & Hsame & _ & _ & Hget).
  split; [by eexists|]. split; [by rewrite Hsame|exact Hget].
Defined.

(** ** Mutations of cost calculations *)

Lemma row_by_id_elem_of {R} (key : R → Z) (k : Z) (table : list R) :
  k ∈ key <$> table → ∃ r, Io.row_by_id key k table = Some r ∧ key r = k.
Proof.
  intros Hin. destruct (Io.row_by_id key k table) as [r|] eqn:Hrow.
  - exists r. split; [done|]. by apply row_by_id_Some in Hrow as [? _].
  - by apply row_by_id_None in Hrow.
Qed.

Lemma references_resolve_lookup (w : Proc.World) (a : CostDb.Fields) :
  references_resolve w a →
  models.Printer.id <$> printer_of w a = CostDb.printer_id a ∧
  models.Filament.id <$> filament_of w a = CostDb.filament_id a.
Proof.
  intros [Hprinter Hfilament]. unfold printer_of, filament_of. split.
  - destruct (CostDb.printer_id a) as [k|]; simpl; [|done].
    destruct (row_by_id_elem_of models.Printer.id k _ (Hprinter k eq_refl)) as (r & -> & <-).
    done.
  - destruct (CostDb.filament_id a) as [k|]; simpl; [|done].
    destruct (row_by_id_elem_of models.Filament.id k _ (Hfilament k eq_refl)) as (r & -> & <-).
    done.
Qed.

(** [create] of a cost calculation on a fresh session, up to the
    notification. *)
Lemma cost_create_unfold (w : Proc.World) (a : CostDb.Fields) :
  Proc.session w = [] → references_resolve w a →
  let now := Proc.clock (Proc.env w) in
  let row :=
    models.CostCalculation.Build
      (Io.next_id (models.CostCalculation.id <$> Proc.cost_table (Proc.db w)))
      (now - now mod 1000000) (CostDb.printer_id a) (CostDb.filament_id a)
      (CostDb.print_time_hours a) (CostDb.labor_time_hours a) (CostDb.filament_weight_g a)
      (CostDb.material_cost a) (CostDb.energy_cost a) None (CostDb.depreciation_cost a)
      (CostDb.labor_cost a) None (CostDb.consumables_cost a) (CostDb.failure_rate a)
      (CostDb.markup_rate a) (CostDb.base_price a) (CostDb.uplifted_price a)
      (CostDb.final_price a) (CostDb.currency a) None (CostDb.notes a) in
  let calculation := models.CostCalculation.Obj row (printer_of w a) (filament_of w a) in
  CostDb.create a w =
  Proc.bind (CostDb.cost_changed calculation api_models.ADDED) (λ _, Proc.ret calculation)
    (Proc.set_session []
       (Proc.set_db (with_costs (Proc.cost_table (Proc.db w) ++ [row]) (Proc.db w)) w)).
Proof.
  intros Hsession Hrefs. cbv zeta.
  pose proof (next_id_fresh (models.CostCalculation.id <$> Proc.cost_table (Proc.db w)))
    as [Hfresh _].
  destruct (references_resolve_lookup w a Hrefs) as [Hp Hf].
  set (row := models.CostCalculation.Build _ _ _ _ _ _ _ _ _ _ _ _ _ _ _ _ _ _ _ _ _ _).
  pose proof (row_by_id_snoc models.CostCalculation.id _ row Hfresh) as Hrow.
  change (models.CostCalculation.id row)
    with (Io.next_id (models.CostCalculation.id <$> Proc.cost_table (Proc.db w))) in Hrow.
  unfold printer_of, filament_of in *.
  unfold CostDb.create, PrinterDb.get_by_id, CostDb.filament_by_id, Io.get_printer,
    Io.get_filament, Io.by_key, Io.add_cost, Io.commit, Io.refresh_cost, Io.utcnow,
    Proc.bind, Proc.ret, Proc.raise.
  destruct (CostDb.printer_id a) as [kp|], (CostDb.filament_id a) as [kf|]; simpl in *;
    repeat match goal with
           | H : _ <$> Io.row_by_id ?key ?k ?t = Some _ |- _ =>
               destruct (Io.row_by_id key k t) eqn:?; simpl in H; [injection H as H|done]
           end;
    simpl;
    repeat (match goal with
            | H : Io.row_by_id _ _ _ = Some _ |- _ => rewrite H
            end; simpl);
    rewrite ?Hsession; simpl; rewrite ?app_nil_r; subst; fold row; rewrite ?Hrow;
    reflexivity.
Qed.

(** X10. [create] of a cost calculation whose references name stored rows,
    on a fresh session, when [send] raises nothing that escapes
    [except Exception]: the calculation returned has an id that no stored
    calculation had, holds the request fields as given and the printer and
    filament that the references name, has [created] cut to the whole
    second, and has no value in the columns [energy_cost_per_kwh],
    [labor_cost_per_hour] and [item_names]; the row is appended to the table
    and the other tables are untouched; nothing stays pending; and
    [get_by_id] of the new id returns the same calculation with the same
    printer and filament. *)
Theorem cost_create_round_trip (w : Proc.World) (a : CostDb.Fields) :
  Proc.session w = [] → send_raises_only_Exception w → references_resolve w a →
  let out := CostDb.create a w in
  ∃ calculation,
    out.1 = Py.Ok calculation ∧
    (models.CostCalculation.id (models.CostCalculation.row calculation)
       ∉ models.CostCalculation.id <$> Proc.cost_table (Proc.db w)) ∧
    fields_of (models.CostCalculation.row calculation) = a ∧
    form_fields (models.CostCalculation.row calculation) = (None, None, None) ∧
    models.CostCalculation.printer calculation = printer_of w a ∧
    models.CostCalculation.filament calculation = filament_of w a ∧
    models.CostCalculation.created (models.CostCalculation.row calculation) mod 1000000 = 0 ∧
    models.CostCalculation.created (models.CostCalculation.row calculation)
      ≤ Proc.clock (Proc.env w)
      < models.CostCalculation.created (models.CostCalculation.row calculation) + 1000000 ∧
    Proc.db out.2 =
      with_costs (Proc.cost_table (Proc.db w) ++ [models.CostCalculation.row calculation])
        (Proc.db w) ∧
    Proc.session out.2 = [] ∧
    (CostDb.get_by_id (models.CostCalculation.id (models.CostCalculation.row calculation))
       out.2).1 = Py.Ok calculation.
Proof.
  intros Hsession Hexc Hrefs. cbv zeta. rewrite cost_create_unfold by done. cbv zeta.
  set (now := Proc.clock (Proc.env w)).
  set (row := models.CostCalculation.Build _ _ _ _ _ _ _ _ _ _ _ _ _ _ _ _ _ _ _ _ _ _).
  set (calculation := models.CostCalculation.Obj row _ _).
  set (w1 := Proc.set_session [] _).
  pose proof (next_id_fresh (models.CostCalculation.id <$> Proc.cost_table (Proc.db w)))
    as [Hfresh _].
  pose proof (cost_changed_state calculation api_models.ADDED w1) as (Hdb & Hses & _ & _).
  pose proof (cost_changed_returns calculation api_models.ADDED w1 Hexc) as Hok.
  cbv zeta in Hdb, Hses. unfold Proc.bind, Proc.ret.
  destruct (CostDb.cost_changed calculation api_models.ADDED w1) as [[[]|e] w2];
    simpl in Hdb, Hses, Hok |- *; [|done].
  exists calculation. split; [done|]. split; [exact Hfresh|].
  split; [by destruct a|]. do 3 (split; [done|]).
  pose proof (Z.mod_pos_bound now 1000000 eq_refl) as Hmod.
  change (models.CostCalculation.row calculation) with row.
  change (models.CostCalculation.created row) with (now - now mod 1000000).
  split; [by rewrite Zminus_mod, Zmod_mod, Z.sub_diag|]. split; [lia|].
  split; [done|]. split; [done|].
  pose proof (row_by_id_snoc models.CostCalculation.id _ row Hfresh) as Hrow.
  unfold CostDb.get_by_id, Io.get_cost, Io.by_key, Proc.bind, Proc.ret. cbn [fst snd]. rewrite Hdb.
  cbn [with_costs Proc.cost_table]. rewrite Hrow. reflexivity.
Qed.

Lemma cost_create_round_trip_witness :
  let a := CostDb.BuildFields (Some 3) (Some 1) (Some (3 # 2)%Q) None None None None None None
             None None None None None None (Some "EUR") None in
  ∃ calculation,
    (CostDb.create a Sample.world).1 = Py.Ok calculation ∧
    models.CostCalculation.id (models.CostCalculation.row calculation) = 6 ∧
    (models.Printer.name <$> models.CostCalculation.printer calculation) = Some "Voron" ∧
    fields_of (models.CostCalculation.row calculation) = a.
Proof.
  intros a.
  destruct (cost_create_round_trip Sample.world a eq_refl)
    as (calculation & Hrun & _ & Hfields & _ & Hprinter & _).
  { intros e [=]. }
  { split; intros k [= <-]; by_compute. }
  exists calculation. split; [exact Hrun|]. split; [|split; [by rewrite Hprinter|exact Hfields]].
  vm_compute in Hrun. by injection Hrun as <-.
Defined.

Lemma replace_row_replace {R} (key : R → Z) (r1 r2 : R) (table : list R) :
  key r1 = key r2 →
  Io.replace_row key r2 (Io.replace_row key r1 table) = Io.replace_row key r2 table.
Proof.
  intros Hkey. unfold Io.replace_row. rewrite <- list_fmap_compose. apply list_fmap_ext.
  intros i x _. simpl. rewrite Hkey. repeat case_decide; congruence.
Qed.

Lemma updated_row (w : Proc.World) (a : CostDb.Fields) (old : models.CostCalculation.t) :
  references_resolve w a →
  let row := models.CostCalculation.row (updated w a old) in
  models.CostCalculation.id row = models.CostCalculation.id old ∧
  models.CostCalculation.created row = models.CostCalculation.created old ∧
  form_fields row = form_fields old ∧
  fields_of row = overlay a (fields_of old).
Proof.
  intros Hrefs. destruct (references_resolve_lookup w a Hrefs) as [Hp Hf].
  unfold updated. cbv zeta.
  destruct a, old. simpl in Hp, Hf.
  destruct (printer_of w _) as [p|], (filament_of w _) as [f|]; simpl in Hp, Hf; subst;
    by unfold form_fields, fields_of, overlay.
Qed.

(** [update] of a stored cost calculation on a fresh session, up to the
    notification. *)
Lemma cost_update_unfold (w : Proc.World) calculation_id (a : CostDb.Fields)
    (old : models.CostCalculation.t) :
  Proc.session w = [] → references_resolve w a →
  Io.row_by_id models.CostCalculation.id calculation_id (Proc.cost_table (Proc.db w))
    = Some old →
  CostDb.update calculation_id a w =
  Proc.bind (CostDb.cost_changed (updated w a old) api_models.UPDATED)
    (λ _, Proc.ret (updated w a old))
    (Proc.set_session []
       (Proc.set_db
          (with_costs
             (Io.replace_row models.CostCalculation.id
                (models.CostCalculation.row (updated w a old)) (Proc.cost_table (Proc.db w)))
             (Proc.db w))
          w)).
Proof.
  intros Hsession Hrefs Hold.
  destruct (references_resolve_lookup w a Hrefs) as [Hp Hf].
  unfold updated, printer_of, filament_of in *.
  unfold CostDb.update, CostDb.get_by_id, PrinterDb.get_by_id, CostDb.filament_by_id,
    Io.get_cost, Io.get_printer, Io.get_filament, Io.by_key, Io.mark, Io.commit,
    Proc.bind, Proc.ret, Proc.raise.
  rewrite Hold. destruct old, a. cbn [fmap option_fmap option_map].
  cbn [CostDb.printer_id CostDb.filament_id] in *.
  destruct printer_id0 as [kp|], filament_id0 as [kf|]; simpl in Hp, Hf |- *;
    repeat match goal with
           | H : _ <$> Io.row_by_id ?key ?k ?t = Some _ |- _ =>
               destruct (Io.row_by_id key k t) eqn:?; simpl in H; [injection H as H|done]
           end;
    simpl;
    repeat (match goal with
            | H : Io.row_by_id _ _ _ = Some _ |- _ => rewrite H
            end; simpl);
    rewrite Hsession; simpl; unfold with_costs; simpl;
    rewrite ?replace_row_replace by done; reflexivity.
Qed.

Lemma updated_loaded (w : Proc.World) (a : CostDb.Fields) (old : models.CostCalculation.t) :
  references_resolve w a →
  updated w a old = Io.load_cost (Proc.db w) (models.CostCalculation.row (updated w a old)).
Proof.
  intros [Hprinter Hfilament]. unfold updated, printer_of, filament_of. cbv zeta.
  destruct a as [pid fid ? ? ? ? ? ? ? ? ? ? ? ? ? ? ?], old.
  cbn [CostDb.printer_id CostDb.filament_id] in *.
  destruct pid as [kp|], fid as [kf|]; cbn [mbind option_bind];
    repeat match goal with
           | H : ∀ k, Some ?x = Some k → k ∈ ?key <$> ?t |- _ =>
               destruct (row_by_id_elem_of key x t (H x eq_refl)) as (? & ? & ?); clear H
           | H : ∀ k, None = Some k → _ |- _ => clear H
           end;
    repeat match goal with
           | H : Io.row_by_id _ _ _ = Some _ |- _ => rewrite H
           end;
    unfold Io.load_cost; simpl; subst;
    repeat match goal with
           | H : Io.row_by_id _ _ _ = Some _ |- _ => rewrite H
           end;
    reflexivity.
Qed.

(** X11. [update] of a stored cost calculation whose references name stored
    rows, on a fresh session, when [send] raises nothing that escapes
    [except Exception]: the calculation returned keeps its id, [created]
    and the columns [energy_cost_per_kwh], [labor_cost_per_hour] and
    [item_names]; each request field, the references included, is the given
    value where one was given and the stored value elsewhere; its printer
    and filament are the rows that its references name; the row is replaced
    in place and every other row stays; and [get_by_id] then returns the
    updated calculation. *)
Theorem cost_update_stores (w : Proc.World) calculation_id (a : CostDb.Fields)
    (old : models.CostCalculation.t) :
  Proc.session w = [] → send_raises_only_Exception w → references_resolve w a →
  Io.row_by_id models.CostCalculation.id calculation_id (Proc.cost_table (Proc.db w))
    = Some old →
  let out := CostDb.update calculation_id a w in
  ∃ calculation,
    out.1 = Py.Ok calculation ∧
    models.CostCalculation.id (models.CostCalculation.row calculation) = calculation_id ∧
    models.CostCalculation.created (models.CostCalculation.row calculation) =
      models.CostCalculation.created old ∧
    form_fields (models.CostCalculation.row calculation) = form_fields old ∧
    fields_of (models.CostCalculation.row calculation) = overlay a (fields_of old) ∧
    calculation = Io.load_cost (Proc.db w) (models.CostCalculation.row calculation) ∧
    Proc.db out.2 =
      with_costs
        (Io.replace_row models.CostCalculation.id (models.CostCalculation.row calculation)
           (Proc.cost_table (Proc.db w)))
        (Proc.db w) ∧
    (∀ k, k ≠ calculation_id →
          Io.row_by_id models.CostCalculation.id k (Proc.cost_table (Proc.db out.2)) =
          Io.row_by_id models.CostCalculation.id k (Proc.cost_table (Proc.db w))) ∧
    (CostDb.get_by_id calculation_id out.2).1 = Py.Ok calculation.
Proof.
  intros Hsession Hexc Hrefs Hold. cbv zeta.
  rewrite (cost_update_unfold w _ a old) by done.
  pose proof (updated_row w a old Hrefs) as (Hid & Hcreated & Hform & Hfields).
  pose proof (updated_loaded w a old Hrefs) as Hloaded.
  cbv zeta in Hid, Hcreated, Hform, Hfields.
  set (calculation := updated w a old) in *.
  set (w1 := Proc.set_session [] _).
  pose proof (row_by_id_Some _ _ _ _ Hold) as [Hkey Hin].
  pose proof (cost_changed_state calculation api_models.UPDATED w1) as (Hdb & _).
  pose proof (cost_changed_returns calculation api_models.UPDATED w1 Hexc) as Hok.
  cbv zeta in Hdb. unfold Proc.bind, Proc.ret.
  destruct (CostDb.cost_changed calculation api_models.UPDATED w1) as [[[]|e] w2];
    cbn [fst snd] in Hdb, Hok |- *; [|done].
  exists calculation. split; [done|]. split; [congruence|]. do 4 (split; [done|]).
  assert (Proc.db w2 =
          with_costs
            (Io.replace_row models.CostCalculation.id (models.CostCalculation.row calculation)
               (Proc.cost_table (Proc.db w)))
            (Proc.db w)) as Hdb' by (by rewrite Hdb).
  split; [done|]. rewrite Hdb'. cbn [with_costs Proc.cost_table].
  split; [intros k Hk; apply row_by_id_replace_other; congruence|].
  unfold CostDb.get_by_id, Io.get_cost, Io.by_key, Proc.bind, Proc.ret. cbn [fst snd]. rewrite Hdb'.
  cbn [with_costs Proc.cost_table].
  pose proof (row_by_id_replace models.CostCalculation.id (models.CostCalculation.row calculation)
                (Proc.cost_table (Proc.db w))) as Hrow.
  rewrite Hid, Hkey in Hrow. rewrite Hrow.
  - change (Io.load_cost (with_costs _ (Proc.db w))) with (Io.load_cost (Proc.db w)).
    cbn [fmap option_fmap option_map]. by rewrite <- Hloaded.
  - rewrite <- Hkey. by apply list_elem_of_fmap_2.
Qed.

Lemma cost_update_stores_witness :
  let a := CostDb.BuildFields None (Some 1) None None None None None None None None None None
             None None (Some (25 # 2)%Q) None (Some "quoted") in
  ∃ calculation,
    (CostDb.update 3 a Sample.world).1 = Py.Ok calculation ∧
    fields_of (models.CostCalculation.row calculation) =
      CostDb.BuildFields (Some 2) (Some 1) None None None None None None None None None None
        None None (Some (25 # 2)%Q) None (Some "quoted") ∧
    (CostDb.get_by_id 3 (CostDb.update 3 a Sample.world).2).1 = Py.Ok calculation.
Proof.
  intros a.
  destruct (cost_update_stores Sample.world 3 a (Sample.blank 3 (Some 2) None) eq_refl)
    as (calculation & Hrun & _ & _ & _ & Hfields & _ & _ & _ & Hget).
  { intros e [=]. }
  { split; intros k [= <-]; by_compute. }
  { reflexivity. }
  exists calculation. split; [exact Hrun|]. split; [exact Hfields|exact Hget].
Defined.

(** [delete] of a stored cost calculation on a fresh session, up to the
    notification. *)
Lemma cost_delete_unfold (w : Proc.World) calculation_id (old : models.CostCalculation.t) :
  Proc.session w = [] →
  Io.row_by_id models.CostCalculation.id calculation_id (Proc.cost_table (Proc.db w))
    = Some old →
  CostDb.delete calculation_id w =
  CostDb.cost_changed (Io.load_cost (Proc.db w) old) api_models.DELETED
    (Proc.set_session []
       (Proc.set_db
          (with_costs
             (Io.delete_row models.CostCalculation.id calculation_id
                (Proc.cost_table (Proc.db w)))
             (Proc.db w))
          w)).
Proof.
  intros Hsession Hold. pose proof (row_by_id_Some _ _ _ _ Hold) as [Hid _].
  unfold CostDb.delete, Io.get_cost, Io.by_key, Io.mark, Io.commit, Proc.bind, Proc.ret.
  rewrite Hold. cbn [fmap option_fmap option_map Proc.session Proc.set_session].
  rewrite Hsession. simpl. rewrite Hid. reflexivity.
Qed.

(** X12. [delete] of a stored cost calculation on a fresh session, when
    [send] raises nothing that escapes [except Exception]: it returns, the
    rows with that id are gone and every other row stays, the printers and
    filaments are untouched, and afterwards [get_by_id], [update] and a
    second [delete] of the same id raise [ItemNotFoundError], the id being
    one that fits the key column, as a stored id does. *)
Theorem cost_delete_removes (w : Proc.World) calculation_id (old : models.CostCalculation.t) :
  Proc.session w = [] → send_raises_only_Exception w →
  Io.row_by_id models.CostCalculation.id calculation_id (Proc.cost_table (Proc.db w))
    = Some old →
  let out := CostDb.delete calculation_id w in
  let gone :=
    if Io.fits calculation_id then Common.not_found "cost calculation" calculation_id
    else Io.overflow in
  out.1 = Py.Ok tt ∧
  Proc.db out.2 =
    with_costs
      (Io.delete_row models.CostCalculation.id calculation_id (Proc.cost_table (Proc.db w)))
      (Proc.db w) ∧
  (calculation_id ∉ models.CostCalculation.id <$> Proc.cost_table (Proc.db out.2)) ∧
  (∀ k, k ≠ calculation_id →
        Io.row_by_id models.CostCalculation.id k (Proc.cost_table (Proc.db out.2)) =
        Io.row_by_id models.CostCalculation.id k (Proc.cost_table (Proc.db w))) ∧
  (CostDb.get_by_id calculation_id out.2).1 = Py.Raise gone ∧
  (∀ a, (CostDb.update calculation_id a out.2).1 = Py.Raise gone) ∧
  CostDb.delete calculation_id out.2 = (Py.Raise gone, out.2).
Proof.
  intros Hsession Hexc Hold. cbv zeta.
  rewrite (cost_delete_unfold w _ old) by done.
  set (w1 := Proc.set_session [] _).
  pose proof (cost_changed_state (Io.load_cost (Proc.db w) old) api_models.DELETED w1)
    as (Hdb & _).
  pose proof (cost_changed_returns (Io.load_cost (Proc.db w) old) api_models.DELETED w1 Hexc)
    as Hok.
  cbv zeta in Hdb.
  destruct (CostDb.cost_changed _ api_models.DELETED w1) as [[[]|e] w2];
    cbn [fst snd] in Hdb, Hok |- *; [|done].
  assert (Proc.db w2 =
          with_costs
            (Io.delete_row models.CostCalculation.id calculation_id
               (Proc.cost_table (Proc.db w)))
            (Proc.db w)) as Hdb' by (by rewrite Hdb).
  assert (Io.row_by_id models.CostCalculation.id calculation_id
            (Proc.cost_table (Proc.db w2)) = None) as Hgone.
  { rewrite Hdb'. cbn [with_costs Proc.cost_table]. rewrite row_by_id_delete.
    by rewrite decide_True. }
  split; [done|]. split; [done|]. split; [by apply row_by_id_None|].
  split.
  { intros k Hk. rewrite Hdb'. cbn [with_costs Proc.cost_table].
    rewrite row_by_id_delete. by rewrite decide_False. }
  unfold CostDb.update, CostDb.get_by_id, CostDb.delete, Io.get_cost, Io.by_key,
    Common.not_found, Proc.bind, Proc.raise.
  rewrite Hgone. by destruct (Io.fits calculation_id).
Qed.

Lemma cost_delete_removes_witness :
  (CostDb.delete 2 Sample.world).1 = Py.Ok tt ∧
  models.CostCalculation.id <$> Proc.cost_table (Proc.db (CostDb.delete 2 Sample.world).2) =
    [1; 3; 4; 5] ∧
  (CostDb.get_by_id 2 (CostDb.delete 2 Sample.world).2).1 =
    Py.Raise (Py.ItemNotFoundError "No cost calculation with ID 2 found.").
Proof.
  destruct (cost_delete_removes Sample.world 2 (Sample.blank 2 None (Some 1)) eq_refl)
    as (Hrun & Hdb & _ & _ & Hget & _).
  { intros e [=]. }
  { reflexivity. }
  split; [exact Hrun|]. split; [by rewrite Hdb|exact Hget].
Defined.

(** ** Ids that name no row *)

(** X13. An id that names no stored row: [get_by_id], [update] (whatever
    the fields, and before any reference of a cost calculation is looked
    up) and [delete] raise, and leave the process exactly as it was: nothing
    pending, nothing committed, nothing published, nothing logged.  For an
    id that fits the 64-bit key column the exception is [ItemNotFoundError]
    with the message [No <resource> with ID <id> found.]; an id beyond that
    range is refused with [OverflowError] when the statement binds it. *)
Theorem missing_id_raises (w : Proc.World) (k : Z) :
  ((k ∉ models.Printer.id <$> Proc.printer_table (Proc.db w)) →
   let e := if Io.fits k
            then Py.ItemNotFoundError
                   (String.append "No printer with ID " (String.append (Py.str k) " found."))
            else Io.overflow in
   PrinterDb.get_by_id k w = (Py.Raise e, w) ∧
   (∀ name power_watts depreciation comment,
      PrinterDb.update k name power_watts depreciation comment w = (Py.Raise e, w)) ∧
   PrinterDb.delete k w = (Py.Raise e, w)) ∧
  ((k ∉ models.CostCalculation.id <$> Proc.cost_table (Proc.db w)) →
   let e := if Io.fits k
            then Py.ItemNotFoundError
                   (String.append "No cost calculation with ID "
                      (String.append (Py.str k) " found."))
            else Io.overflow in
   CostDb.get_by_id k w = (Py.Raise e, w) ∧
   (∀ a, CostDb.update k a w = (Py.Raise e, w)) ∧
   CostDb.delete k w = (Py.Raise e, w)).
Proof.
  split; intros Hk%row_by_id_None; cbv zeta.
  - unfold PrinterDb.update, PrinterDb.get_by_id, PrinterDb.delete, Io.scalar_one_joinedload,
      Io.get_printer, Io.by_key, Proc.try_except, Proc.bind, Proc.raise.
    rewrite Hk. by destruct (Io.fits k).
  - unfold CostDb.update, CostDb.get_by_id, CostDb.delete, Io.get_cost, Io.by_key,
      Proc.bind, Proc.raise.
    rewrite Hk. by destruct (Io.fits k).
Qed.

Lemma missing_id_raises_witness :
  PrinterDb.delete 42 Sample.world =
    (Py.Raise (Py.ItemNotFoundError "No printer with ID 42 found."), Sample.world) ∧
  CostDb.get_by_id (-7) Sample.world =
    (Py.Raise (Py.ItemNotFoundError "No cost calculation with ID -7 found."), Sample.world) ∧
  PrinterDb.get_by_id (2 ^ 63) Sample.world = (Py.Raise Io.overflow, Sample.world).
Proof.
  split; [|split].
  - destruct (missing_id_raises Sample.world 42) as [Hprinter _].
    destruct Hprinter as (_ & _ & Hdelete); [by_compute|exact Hdelete].
  - destruct (missing_id_raises Sample.world (-7)) as [_ Hcost].
    destruct Hcost as (Hget & _); [by_compute|exact Hget].
  - destruct (missing_id_raises Sample.world (2 ^ 63)) as [Hprinter _].
    destruct Hprinter as (Hget & _); [by_compute|exact Hget].
Defined.

(** ** References that name no row *)

(** X14. [update] of a stored cost calculation with a reference that names
    no row raises and commits nothing: [ItemNotFoundError] when the
    reference fits the 64-bit key column, [OverflowError] when it does not.
    A missing printer leaves the process exactly as it was.  A missing
    filament is found only after the printer, when one was given, has been
    assigned: the tables, the websocket manager and the log are as they
    were, but the assignment of the printer stays pending in the session. *)
Theorem cost_update_missing_reference (w : Proc.World) calculation_id (a : CostDb.Fields)
    (old : models.CostCalculation.t) :
  Io.row_by_id models.CostCalculation.id calculation_id (Proc.cost_table (Proc.db w))
    = Some old →
  (∀ k, CostDb.printer_id a = Some k →
        (k ∉ models.Printer.id <$> Proc.printer_table (Proc.db w)) →
        CostDb.update calculation_id a w =
        (Py.Raise (if Io.fits k then Common.not_found "printer" k else Io.overflow), w)) ∧
  (∀ k, CostDb.filament_id a = Some k →
        (k ∉ models.Filament.id <$> Proc.filament_table (Proc.db w)) →
        let out := CostDb.update calculation_id a w in
        let e := if Io.fits k then Common.not_found "filament" k else Io.overflow in
        match CostDb.printer_id a with
        | None => out = (Py.Raise e, w)
        | Some kp =>
            ∀ p, Io.row_by_id models.Printer.id kp (Proc.printer_table (Proc.db w)) = Some p →
                 out.1 = Py.Raise e ∧
                 Proc.db out.2 = Proc.db w ∧ Proc.hub out.2 = Proc.hub w ∧
                 Proc.logged out.2 = Proc.logged w ∧
                 Proc.session out.2 =
                   Proc.session w ++
                   [Proc.DirtyCost
                      (models.CostCalculation.row
                         (CostDb.with_printer p (Io.load_cost (Proc.db w) old)))]
        end).
Proof.
  intros Hold. split.
  - intros k Hk Hmissing%row_by_id_None.
    unfold CostDb.update, CostDb.get_by_id, PrinterDb.get_by_id, Io.get_cost, Io.get_printer,
      Io.by_key, Common.not_found, Proc.bind, Proc.ret, Proc.raise.
    rewrite Hold, Hk. simpl. rewrite Hmissing. by destruct (Io.fits k).
  - intros k Hk Hmissing%row_by_id_None. cbv zeta.
    unfold CostDb.update, CostDb.get_by_id, PrinterDb.get_by_id, CostDb.filament_by_id,
      Io.get_cost, Io.get_printer, Io.get_filament, Io.by_key, Io.mark, Common.not_found,
      Proc.bind, Proc.ret, Proc.raise.
    rewrite Hold, Hk. destruct (CostDb.printer_id a) as [kp|]; simpl.
    + intros p Hp. rewrite Hp. simpl. rewrite Hmissing. by destruct (Io.fits k).
    + rewrite Hmissing. by destruct (Io.fits k).
Qed.

Lemma cost_update_missing_reference_witness :
  let a := CostDb.BuildFields (Some 2) (Some 9) None None None None None None None None None
             None None None None None None in
  (CostDb.update 5 a Sample.world).1 =
    Py.Raise (Py.ItemNotFoundError "No filament with ID 9 found.") ∧
  Proc.db (CostDb.update 5 a Sample.world).2 = Proc.db Sample.world ∧
  Proc.session (CostDb.update 5 a Sample.world).2 =
    [Proc.DirtyCost (Sample.blank 5 (Some 2) None)].
Proof.
  intros a.
  destruct (cost_update_missing_reference Sample.world 5 a (Sample.blank 5 None None) eq_refl)
    as [_ Hfilament].
  destruct (Hfilament 9 eq_refl) with
    (p := models.Printer.Build 2 2000000 "Exact Name Pro" (Some (250 # 1)%Q)
            (Some (1 # 2)%Q) None)
    as (Hrun & Hdb & _ & _ & Hsession).
  { by_compute. }
  { reflexivity. }
  split; [exact Hrun|]. split; [exact Hdb|exact Hsession].
Defined.

(** ** Failures of the notification *)

Lemma internal_ret {A} (a : A) : internal (Proc.ret a).
Proof. done. Qed.

Lemma internal_raise {A} (e : Py.exn) : internal (@Proc.raise A e).
Proof. done. Qed.

Lemma internal_bind {A B} (m : Proc.M A) (k : A → Proc.M B) :
  internal m → (∀ a, internal (k a)) → internal (Proc.bind m k).
Proof.
  intros Hm Hk w b f. unfold Proc.bind. destruct (Hm w b f) as (-> & Hhub & Hlog).
  destruct (m w) as [[a|e] w1]; simpl in *; [|done].
  destruct (Hk a w1 b f) as (-> & -> & ->). done.
Qed.

Ltac solve_primitive :=
  intros w b f; unfold Proc.with_faults; simpl; repeat case_match; done.

Lemma internal_get_printer k : internal (Io.get_printer k).
Proof. unfold Io.get_printer. solve_primitive. Qed.
Lemma internal_get_filament k : internal (Io.get_filament k).
Proof. unfold Io.get_filament. solve_primitive. Qed.
Lemma internal_get_cost k : internal (Io.get_cost k).
Proof. unfold Io.get_cost. solve_primitive. Qed.
Lemma internal_scalar_one_joinedload k :
  internal
    (Proc.try_except (Io.scalar_one_joinedload k)
       (λ e, if Py.is_NoResultFound e
             then Some (Proc.raise (Common.not_found "printer" k)) else None)).
Proof.
  intros w b f.
  unfold Proc.try_except, Io.scalar_one_joinedload, Io.unique_not_invoked, Proc.raise,
    Proc.with_faults.
  simpl. destruct (Io.by_key _ _ _) as [[r|]|e]; simpl; [done|done|].
  by destruct (Py.is_NoResultFound e).
Qed.
Lemma internal_add_printer p : internal (Io.add_printer p).
Proof. solve_primitive. Qed.
Lemma internal_add_cost c : internal (Io.add_cost c).
Proof. solve_primitive. Qed.
Lemma internal_mark p : internal (Io.mark p).
Proof. solve_primitive. Qed.
Lemma internal_commit : internal Io.commit.
Proof. solve_primitive. Qed.
Lemma internal_refresh_printer p : internal (Io.refresh_printer p).
Proof. unfold Io.refresh_printer. solve_primitive. Qed.
Lemma internal_refresh_cost c : internal (Io.refresh_cost c).
Proof. unfold Io.refresh_cost. solve_primitive. Qed.
Lemma internal_utcnow : internal Io.utcnow.
Proof. solve_primitive. Qed.

Create HintDb internal discriminated.
#[local] Hint Resolve internal_ret internal_raise internal_get_printer internal_get_filament
  internal_get_cost internal_scalar_one_joinedload internal_add_printer internal_add_cost
  internal_mark internal_commit internal_refresh_printer internal_refresh_cost internal_utcnow
  : internal.

Ltac solve_internal :=
  repeat lazymatch goal with
         | |- internal (Proc.bind _ _) => apply internal_bind; [|intros ?]
         | |- internal (match ?x with _ => _ end) => destruct x
         | |- internal _ => solve [auto with internal]
         end.

Lemma internal_printer_get_by_id k : internal (PrinterDb.get_by_id k).
Proof. unfold PrinterDb.get_by_id. solve_internal. Qed.
Lemma internal_cost_get_by_id k : internal (CostDb.get_by_id k).
Proof. unfold CostDb.get_by_id. solve_internal. Qed.
Lemma internal_filament_by_id k : internal (CostDb.filament_by_id k).
Proof. unfold CostDb.filament_by_id. solve_internal. Qed.

#[local] Hint Resolve internal_printer_get_by_id internal_cost_get_by_id
  internal_filament_by_id : internal.

Lemma fault_internal {A} (m : Proc.M A) (w : Proc.World) (b : gset nat) (e : Py.exn) :
  internal m → (∀ w, ∃ x, (m w).1 = Py.Raise x) → notification_fault m w b e.
Proof.
  intros Hm Hraise. unfold notification_fault. cbv zeta.
  destruct (Hm w b (Some e)) as (-> & Hhub & Hlog).
  destruct (Hm w ∅ None) as (-> & _ & _).
  destruct (Hraise w) as [x Hx]. simpl. rewrite Hx, Hhub, Hlog. done.
Qed.

Lemma fault_bind {A B} (m : Proc.M A) (k : A → Proc.M B) (w : Proc.World) (b : gset nat)
    (e : Py.exn) :
  internal m → (∀ a w', notification_fault (k a) w' b e) →
  notification_fault (Proc.bind m k) w b e.
Proof.
  intros Hm Hk. unfold notification_fault, Proc.bind. cbv zeta.
  destruct (Hm w b (Some e)) as (-> & Hhub & Hlog).
  destruct (Hm w ∅ None) as (-> & _ & _).
  destruct (m w) as [[a|x] w1]; simpl in *.
  - specialize (Hk a w1). unfold notification_fault in Hk. cbv zeta in Hk.
    by rewrite <- Hhub, <- Hlog.
  - by rewrite Hhub, Hlog.
Qed.

Lemma fault_then_ret {A B} (m : Proc.M A) (r : B) (w : Proc.World) (b : gset nat)
    (e : Py.exn) :
  notification_fault m w b e → notification_fault (Proc.bind m (λ _, Proc.ret r)) w b e.
Proof.
  unfold notification_fault, Proc.bind, Proc.ret. cbv zeta.
  destruct (m (Proc.with_faults b (Some e) w)) as [[r1|x1] w1],
    (m (Proc.with_faults ∅ None w)) as [[r2|x2] w2]; simpl;
    destruct (Py.is_Exception e); naive_solver.
Qed.

Lemma fault_printer_changed printer typ (w : Proc.World) (b : gset nat) (e : Py.exn) :
  notification_fault (PrinterDb.printer_changed printer typ) w b e.
Proof.
  unfold notification_fault, Proc.with_faults. cbv zeta. unfold_emitter.
  by destruct (Py.is_Exception e).
Qed.

Lemma fault_cost_changed cost_calc typ (w : Proc.World) (b : gset nat) (e : Py.exn) :
  notification_fault (CostDb.cost_changed cost_calc typ) w b e.
Proof.
  unfold notification_fault, Proc.with_faults. cbv zeta. unfold_emitter.
  by destruct (Py.is_Exception e).
Qed.

Ltac solve_fault :=
  repeat lazymatch goal with
         | |- notification_fault (PrinterDb.printer_changed _ _) _ _ _ =>
             apply fault_printer_changed
         | |- notification_fault (CostDb.cost_changed _ _) _ _ _ =>
             apply fault_cost_changed
         | |- notification_fault (Proc.bind _ (λ _, Proc.ret _)) _ _ _ =>
             apply fault_then_ret
         | |- notification_fault (Proc.bind _ _) _ _ _ =>
             apply fault_bind; [solve_internal|intros ? ?]
         | |- notification_fault (Proc.raise _) _ _ _ =>
             apply fault_internal; [apply internal_raise|intros ?; by eexists]
         | |- notification_fault (match ?x with _ => _ end) _ _ _ => destruct x
         | |- notification_fault (let _ := _ in _) _ _ _ => cbv zeta
         end.

(** X15. When [send] raises, every mutation of printers and of cost
    calculations ends with the tables and the session that it ends with
    when nothing fails, writes no frame and leaves the registry alone.  An
    [Exception] is logged once and the result is the one of the undisturbed
    mutation; an exception that is no [Exception] (a cancellation) is not
    logged and reaches the caller after the commit was done.  A mutation
    that raises by itself raises the same and logs nothing. *)
Theorem mutations_under_send_failure (w : Proc.World) (b : gset nat) (e : Py.exn) :
  (∀ name power_watts depreciation comment,
     notification_fault (PrinterDb.create name power_watts depreciation comment) w b e) ∧
  (∀ printer_id name power_watts depreciation comment,
     notification_fault (PrinterDb.update printer_id name power_watts depreciation comment)
       w b e) ∧
  (∀ printer_id, notification_fault (PrinterDb.delete printer_id) w b e) ∧
  (∀ a, notification_fault (CostDb.create a) w b e) ∧
  (∀ calculation_id a, notification_fault (CostDb.update calculation_id a) w b e) ∧
  (∀ calculation_id, notification_fault (CostDb.delete calculation_id) w b e).
Proof.
  repeat match goal with |- _ ∧ _ => split end; intro_variables;
    unfold PrinterDb.create, PrinterDb.update, PrinterDb.delete, CostDb.create, CostDb.update,
      CostDb.delete; solve_fault.
Qed.


(** ** The endpoints of printers *)

Lemma printer_create_binds (body : PrinterCrud.PrinterParameters) (w : Proc.World) :
  PrinterCrud.create body w =
  Proc.bind
    (PrinterDb.create (PrinterCrud.name body) (PrinterCrud.power_watts body)
       (PrinterCrud.depreciation_cost_per_hour body) (PrinterCrud.comment body))
    (λ printer, Proc.ret (PrinterCrud.item_response 201 printer)) w.
Proof.
  destruct body as [name [pw|] [dc|] [c|]]; reflexivity.
Qed.

Lemma printer_update_binds (printer_id : Z) (body : PrinterCrud.PrinterUpdateParameters)
    (w : Proc.World) :
  PrinterCrud.update printer_id body w =
  answered (PrinterCrud.item_response 200) PrinterCrud.not_found_response
    (PrinterDb.update printer_id (PrinterCrud.update_name body)
       (PrinterCrud.update_power_watts body)
       (PrinterCrud.update_depreciation_cost_per_hour body)
       (PrinterCrud.update_comment body) w).
Proof.
  unfold PrinterCrud.update, PrinterCrud.call_update, answered, Proc.bind, Proc.try_except,
    Proc.lift, Proc.ret.
  destruct body as [[name|] [pw|] [dc|] [c|]]; simpl;
    destruct (PrinterDb.update _ _ _ _ _ w) as [[printer|e] w']; simpl; try done;
    by destruct (Py.is_ItemNotFoundError e).
Qed.

Lemma printer_delete_answers (printer_id : Z) (w : Proc.World) :
  PrinterCrud.delete printer_id w =
  answered (λ _, api_models.BuildResponse 200 (api_models.Message "Printer deleted.") [])
    PrinterCrud.not_found_response (PrinterDb.delete printer_id w).
Proof.
  unfold PrinterCrud.delete, answered, Proc.bind, Proc.try_except, Proc.ret.
  destruct (PrinterDb.delete printer_id w) as [[[]|e] w']; simpl; [done|].
  by destruct (Py.is_ItemNotFoundError e).
Qed.

Lemma printer_get_answers (printer_id : Z) (w : Proc.World) :
  PrinterCrud.get printer_id w =
  answered (PrinterCrud.item_response 200) PrinterCrud.not_found_response
    (PrinterDb.get_by_id printer_id w).
Proof.
  unfold PrinterCrud.get, answered, Proc.bind, Proc.try_except, Proc.ret.
  destruct (PrinterDb.get_by_id printer_id w) as [[printer|e] w']; simpl; [done|].
  by destruct (Py.is_ItemNotFoundError e).
Qed.

Lemma answered_not_ItemNotFoundError {A} respond not_found (out : Py.result A * Proc.World)
    (e : Py.exn) :
  (answered respond not_found out).1 = Py.Raise e → Py.is_ItemNotFoundError e = false.
Proof.
  destruct out as [[a|x] w']; simpl; [done|].
  destruct (Py.is_ItemNotFoundError x) eqn:Hx; simpl; [done|]. by intros [= <-].
Qed.

(** X16. The endpoints of printers on an id that names no stored printer:
    when the id fits the 64-bit key column, get, update (whatever the body)
    and delete answer 404 with the message [No printer with ID <id> found.];
    when it does not, the [OverflowError] of the lookup reaches the caller
    of the endpoint.  Either way the process is left exactly as it was.  And
    whatever the id and the state, none of the three lets
    [ItemNotFoundError] reach its caller. *)
Theorem printer_endpoints_not_found (w : Proc.World) (printer_id : Z) :
  ((printer_id ∉ models.Printer.id <$> Proc.printer_table (Proc.db w)) →
   Io.fits printer_id = true →
   let response :=
     api_models.BuildResponse 404
       (api_models.Message
          (String.append "No printer with ID "
             (String.append (Py.str printer_id) " found."))) [] in
   PrinterCrud.get printer_id w = (Py.Ok response, w) ∧
   (∀ body, PrinterCrud.update printer_id body w = (Py.Ok response, w)) ∧
   PrinterCrud.delete printer_id w = (Py.Ok response, w)) ∧
  ((printer_id ∉ models.Printer.id <$> Proc.printer_table (Proc.db w)) →
   Io.fits printer_id = false →
   PrinterCrud.get printer_id w = (Py.Raise Io.overflow, w) ∧
   (∀ body, PrinterCrud.update printer_id body w = (Py.Raise Io.overflow, w)) ∧
   PrinterCrud.delete printer_id w = (Py.Raise Io.overflow, w)) ∧
  (∀ e, (PrinterCrud.get printer_id w).1 = Py.Raise e → Py.is_ItemNotFoundError e = false) ∧
  (∀ body e, (PrinterCrud.update printer_id body w).1 = Py.Raise e →
             Py.is_ItemNotFoundError e = false) ∧
  (∀ e, (PrinterCrud.delete printer_id w).1 = Py.Raise e → Py.is_ItemNotFoundError e = false).
Proof.
  split; [|split; [|split; [|split]]].
  - intros Hmissing%row_by_id_None Hfits. cbv zeta.
    split; [|split; [intros body|]];
      rewrite ?printer_get_answers, ?printer_update_binds, ?printer_delete_answers;
      unfold PrinterDb.update, PrinterDb.delete, PrinterDb.get_by_id,
        Io.scalar_one_joinedload, Io.get_printer, Io.by_key, Proc.try_except, Proc.bind,
        Proc.raise; cbv beta; by rewrite Hmissing, Hfits.
  - intros Hmissing%row_by_id_None Hfits.
    split; [|split; [intros body|]];
      rewrite ?printer_get_answers, ?printer_update_binds, ?printer_delete_answers;
      unfold PrinterDb.update, PrinterDb.delete, PrinterDb.get_by_id,
        Io.scalar_one_joinedload, Io.get_printer, Io.by_key, Proc.try_except, Proc.bind,
        Proc.raise; cbv beta; by rewrite Hmissing, Hfits.
  - intros e. rewrite printer_get_answers. apply answered_not_ItemNotFoundError.
  - intros body e. rewrite printer_update_binds. apply answered_not_ItemNotFoundError.
  - intros e. rewrite printer_delete_answers. apply answered_not_ItemNotFoundError.
Qed.

Lemma printer_endpoints_not_found_witness :
  PrinterCrud.update 9 (PrinterCrud.BuildUpdateParameters (Some "Mk4") None None None)
    Sample.world =
  (Py.Ok (api_models.BuildResponse 404 (api_models.Message "No printer with ID 9 found.") []),
   Sample.world) ∧
  PrinterCrud.delete (2 ^ 63) Sample.world = (Py.Raise Io.overflow, Sample.world).
Proof.
  split.
  - destruct (printer_endpoints_not_found Sample.world 9) as [Hmissing _].
    destruct Hmissing as (_ & Hupdate & _); [by_compute|reflexivity|].
    exact (Hupdate (PrinterCrud.BuildUpdateParameters (Some "Mk4") None None None)).
  - destruct (printer_endpoints_not_found Sample.world (2 ^ 63)) as (_ & Hbeyond & _).
    destruct Hbeyond as (_ & _ & Hdelete); [by_compute|reflexivity|exact Hdelete].
Defined.

(** X17. The endpoints of printers in sequence, on a fresh session each
    and when [send] raises nothing that escapes [except Exception].  The
    call of the database layer binds: every keyword that create and update
    pass is a parameter of the callee.  Create answers 201 with the new
    printer, and get of its id then answers 200 with the same content;
    update of a stored printer answers 200 with the updated printer, and get
    then answers the same.  Delete of a stored printer answers nothing: the
    [InvalidRequestError] of the database layer is not the
    [ItemNotFoundError] that the endpoint turns into 404, so it reaches the
    caller of the endpoint, the process is left as it was, and get then
    still answers 200 with the printer. *)
Theorem printer_endpoints_in_sequence (w : Proc.World) :
  Proc.session w = [] → send_raises_only_Exception w →
  (∀ body,
     ∃ printer,
       (PrinterCrud.create body w).1 = Py.Ok (PrinterCrud.item_response 201 printer) ∧
       models.Printer.name printer = PrinterCrud.name body ∧
       (PrinterCrud.get (models.Printer.id printer) (PrinterCrud.create body w).2).1 =
         Py.Ok (PrinterCrud.item_response 200 printer)) ∧
  (∀ printer_id body,
     printer_id ∈ models.Printer.id <$> Proc.printer_table (Proc.db w) →
     ∃ printer,
       (PrinterCrud.update printer_id body w).1 =
         Py.Ok (PrinterCrud.item_response 200 printer) ∧
       models.Printer.id printer = printer_id ∧
       (PrinterCrud.get printer_id (PrinterCrud.update printer_id body w).2).1 =
         Py.Ok (PrinterCrud.item_response 200 printer)) ∧
  (∀ printer_id,
     printer_id ∈ models.Printer.id <$> Proc.printer_table (Proc.db w) →
     PrinterCrud.delete printer_id w = (Py.Raise Io.unique_not_invoked, w) ∧
     ∃ printer,
       Io.row_by_id models.Printer.id printer_id (Proc.printer_table (Proc.db w))
         = Some printer ∧
       (PrinterCrud.get printer_id (PrinterCrud.delete printer_id w).2).1 =
         Py.Ok (PrinterCrud.item_response 200 printer)).
Proof.
  intros Hsession Hexc. split; [|split].
  - intros body.
    destruct (printer_create_round_trip w (PrinterCrud.name body) (PrinterCrud.power_watts body)
                (PrinterCrud.depreciation_cost_per_hour body) (PrinterCrud.comment body)
                Hsession Hexc)
      as (printer & Hrun & _ & Hname & _ & _ & _ & _ & _ & _ & _ & Hget).
    exists printer. rewrite printer_create_binds. unfold Proc.bind, Proc.ret.
    destruct (PrinterDb.create _ _ _ _ w) as [[r|e] w']; simpl in Hrun, Hget |- *; [|done].
    injection Hrun as ->. split; [done|]. split; [done|].
    rewrite printer_get_answers. unfold answered.
    by destruct (PrinterDb.get_by_id _ w') as [[r|e] w'']; simplify_eq/=.
  - intros printer_id body Hin.
    destruct (row_by_id_elem_of models.Printer.id printer_id _ Hin) as (old & Hold & _).
    destruct (printer_update_stores w printer_id (PrinterCrud.update_name body)
                (PrinterCrud.update_power_watts body)
                (PrinterCrud.update_depreciation_cost_per_hour body)
                (PrinterCrud.update_comment body) old Hsession Hexc Hold)
      as (printer & Hrun & Hid & _ & _ & _ & _ & _ & _ & _ & _ & _ & _ & _ & Hget & _).
    exists printer. rewrite printer_update_binds. unfold answered at 1 2.
    destruct (PrinterDb.update _ _ _ _ _ w) as [[r|e] w']; simpl in Hrun, Hget |- *; [|done].
    injection Hrun as ->. split; [done|]. split; [done|].
    rewrite printer_get_answers. unfold answered.
    by destruct (PrinterDb.get_by_id _ w') as [[r|e] w'']; simplify_eq/=.
  - intros printer_id Hin.
    destruct (row_by_id_elem_of models.Printer.id printer_id _ Hin) as (old & Hold & _).
    rewrite printer_delete_answers, (printer_delete_stored w _ old Hold).
    change (answered _ _ (Py.Raise Io.unique_not_invoked, w))
      with (@Py.Raise api_models.JSONResponse Io.unique_not_invoked, w).
    split; [done|]. exists old. split; [done|]. cbn [snd].
    rewrite printer_get_answers.
    unfold PrinterDb.get_by_id, Io.get_printer, Io.by_key, Proc.bind, Proc.ret. cbv beta.
    by rewrite Hold.
Qed.

Lemma printer_endpoints_in_sequence_witness :
  (∃ printer,
     (PrinterCrud.create (PrinterCrud.BuildParameters "Mk4" None (Some (1 # 4)%Q) None)
        Sample.world).1 = Py.Ok (PrinterCrud.item_response 201 printer) ∧
     models.Printer.name printer = "Mk4") ∧
  PrinterCrud.delete 4 Sample.world = (Py.Raise Io.unique_not_invoked, Sample.world).
Proof.
  destruct (printer_endpoints_in_sequence Sample.world eq_refl) as (Hcreate & _ & Hdelete).
  { intros e [=]. }
  split.
  - destruct (Hcreate (PrinterCrud.BuildParameters "Mk4" None (Some (1 # 4)%Q) None))
      as (printer & Hrun & Hname & _).
    exists printer. split; [exact Hrun|exact Hname].
  - destruct (Hdelete 4) as [Hrun _]; [by_compute|exact Hrun].
Defined.

(** ** The endpoints of cost calculations *)

Lemma cost_get_answers (calculation_id : Z) (w : Proc.World) :
  CostCrud.get calculation_id w =
  answered (CostApi.item_response 200) CostApi.not_found_response
    (CostDb.get_by_id calculation_id w).
Proof.
  unfold CostCrud.get, answered, Proc.bind, Proc.try_except, Proc.ret.
  destruct (CostDb.get_by_id calculation_id w) as [[calculation|e] w']; simpl; [done|].
  by destruct (Py.is_ItemNotFoundError e).
Qed.

Lemma cost_delete_answers (calculation_id : Z) (w : Proc.World) :
  CostCrud.delete calculation_id w =
  answered
    (λ _, api_models.BuildResponse 200 (api_models.Message "Cost calculation deleted.") [])
    CostApi.not_found_response (CostDb.delete calculation_id w).
Proof.
  unfold CostCrud.delete, answered, Proc.bind, Proc.try_except, Proc.ret.
  destruct (CostDb.delete calculation_id w) as [[[]|e] w']; simpl; [done|].
  by destruct (Py.is_ItemNotFoundError e).
Qed.

(** X18. The get and delete endpoints of cost calculations.  On an id that
    names no stored calculation both leave the process exactly as it was;
    they answer 404 with the message
    [No cost calculation with ID <id> found.] when the id fits the 64-bit
    key column, and let the [OverflowError] of the lookup reach their caller
    when it does not.  On a stored calculation, get answers 200 with the row
    and changes nothing; delete, on a fresh session and when [send] raises
    nothing that escapes [except Exception], answers 200, and get of the id,
    one that fits the key column as a stored id does, then answers 404.
    Neither lets [ItemNotFoundError] reach its caller. *)
Theorem cost_endpoints_get_delete (w : Proc.World) (calculation_id : Z) :
  ((calculation_id ∉ models.CostCalculation.id <$> Proc.cost_table (Proc.db w)) →
   Io.fits calculation_id = true →
   let response :=
     api_models.BuildResponse 404
       (api_models.Message
          (String.append "No cost calculation with ID "
             (String.append (Py.str calculation_id) " found."))) [] in
   CostCrud.get calculation_id w = (Py.Ok response, w) ∧
   CostCrud.delete calculation_id w = (Py.Ok response, w)) ∧
  ((calculation_id ∉ models.CostCalculation.id <$> Proc.cost_table (Proc.db w)) →
   Io.fits calculation_id = false →
   CostCrud.get calculation_id w = (Py.Raise Io.overflow, w) ∧
   CostCrud.delete calculation_id w = (Py.Raise Io.overflow, w)) ∧
  (∀ old,
     Io.row_by_id models.CostCalculation.id calculation_id (Proc.cost_table (Proc.db w))
       = Some old →
     CostCrud.get calculation_id w =
       (Py.Ok (CostApi.item_response 200 (Io.load_cost (Proc.db w) old)), w) ∧
     (Proc.session w = [] → send_raises_only_Exception w →
      (CostCrud.delete calculation_id w).1 =
        Py.Ok (api_models.BuildResponse 200
                 (api_models.Message "Cost calculation deleted.") []) ∧
      (CostCrud.get calculation_id (CostCrud.delete calculation_id w).2).1 =
        if Io.fits calculation_id
        then Py.Ok (CostApi.not_found_response
                      (Common.not_found "cost calculation" calculation_id))
        else Py.Raise Io.overflow)) ∧
  (∀ e, (CostCrud.get calculation_id w).1 = Py.Raise e → Py.is_ItemNotFoundError e = false) ∧
  (∀ e, (CostCrud.delete calculation_id w).1 = Py.Raise e →
        Py.is_ItemNotFoundError e = false).
Proof.
  split; [|split; [|split; [|split]]].
  - intros Hmissing%row_by_id_None Hfits. cbv zeta.
    split; rewrite ?cost_get_answers, ?cost_delete_answers;
      unfold CostDb.delete, CostDb.get_by_id, Io.get_cost, Io.by_key, Proc.bind, Proc.raise;
      cbv beta; by rewrite Hmissing, Hfits.
  - intros Hmissing%row_by_id_None Hfits.
    split; rewrite ?cost_get_answers, ?cost_delete_answers;
      unfold CostDb.delete, CostDb.get_by_id, Io.get_cost, Io.by_key, Proc.bind, Proc.raise;
      cbv beta; by rewrite Hmissing, Hfits.
  - intros old Hold. split.
    + rewrite cost_get_answers.
      unfold CostDb.get_by_id, Io.get_cost, Io.by_key, Proc.bind, Proc.ret.
      cbv beta. by rewrite Hold.
    + intros Hsession Hexc.
      assert (let out := CostDb.delete calculation_id w in
              out.1 = Py.Ok tt ∧
              (CostDb.get_by_id calculation_id out.2).1 =
                Py.Raise (if Io.fits calculation_id
                          then Common.not_found "cost calculation" calculation_id
                          else Io.overflow))
        as [Hrun Hget].
      { cbv zeta. rewrite (cost_delete_unfold w _ old) by done.
        set (w1 := Proc.set_session [] _).
        pose proof (cost_changed_state (Io.load_cost (Proc.db w) old) api_models.DELETED w1)
          as (Hdb & _).
        pose proof (cost_changed_returns (Io.load_cost (Proc.db w) old) api_models.DELETED w1
                      Hexc) as Hok.
        cbv zeta in Hdb.
        destruct (CostDb.cost_changed _ api_models.DELETED w1) as [[[]|e] w2];
          cbn [fst snd] in Hdb, Hok |- *; [|done].
        split; [done|].
        unfold CostDb.get_by_id, Io.get_cost, Io.by_key, Proc.bind, Proc.raise. cbv beta.
        rewrite Hdb. unfold w1. cbn [Proc.db Proc.set_session Proc.set_db with_costs
          Proc.cost_table]. rewrite row_by_id_delete. rewrite decide_True by done.
        by destruct (Io.fits calculation_id). }
      rewrite cost_delete_answers. unfold answered at 1 2.
      destruct (CostDb.delete calculation_id w) as [[[]|e] w']; simpl in Hrun, Hget |- *;
        [|done].
      split; [done|]. rewrite cost_get_answers. unfold answered.
      destruct (CostDb.get_by_id _ w') as [[r|e] w'']; simplify_eq/=.
      by destruct (Io.fits calculation_id).
  - intros e. rewrite cost_get_answers. apply answered_not_ItemNotFoundError.
  - intros e. rewrite cost_delete_answers. apply answered_not_ItemNotFoundError.
Qed.

Lemma cost_endpoints_get_delete_witness :
  CostCrud.get 8 Sample.world =
    (Py.Ok (api_models.BuildResponse 404
              (api_models.Message "No cost calculation with ID 8 found.") []),
     Sample.world) ∧
  CostCrud.get (- 2 ^ 63 - 1) Sample.world = (Py.Raise Io.overflow, Sample.world) ∧
  (CostCrud.delete 3 Sample.world).1 =
    Py.Ok (api_models.BuildResponse 200 (api_models.Message "Cost calculation deleted.") []).
Proof.
  split; [|split].
  - destruct (cost_endpoints_get_delete Sample.world 8) as [Hmissing _].
    destruct Hmissing as [Hget _]; [by_compute|reflexivity|exact Hget].
  - destruct (cost_endpoints_get_delete Sample.world (- 2 ^ 63 - 1)) as (_ & Hbeyond & _).
    destruct Hbeyond as [Hget _]; [by_compute|reflexivity|exact Hget].
  - destruct (cost_endpoints_get_delete Sample.world 3) as (_ & _ & Hstored & _).
    destruct (Hstored (Sample.blank 3 (Some 2) None) eq_refl) as [_ Hdelete].
    destruct (Hdelete eq_refl) as [Hrun _]; [intros e [=]|exact Hrun].
Defined.

(** ** Who receives the event of a mutation *)

Lemma prefix_of_pair (a b c d : string) : [a; b] `prefix_of` [c; d] ↔ a = c ∧ b = d.
Proof.
  split.
  - intros [k Hk]. simpl in Hk. by injection Hk as <- <- _.
  - intros [-> ->]. done.
Qed.

Lemma listening_subscribers topic websocket (w : Proc.World) :
  listening topic websocket w →
  ∀ p, websocket ∈ websocket_manager.subscribers (Proc.registry (Proc.hub w)) p ↔ p = topic.
Proof.
  intros (reg & turns & Hfresh & Hserve) p. unfold Session.serve in Hserve.
  destruct (Session.heartbeat turns) as [e|]; [by destruct (Py.is_WebSocketDisconnect e)|].
  injection Hserve as <-. rewrite subscribers_connect. case_decide as Heq.
  - split; [done|]. intros _. set_solver.
  - split; [|done]. intros Hin. destruct Hfresh. by exists p.
Qed.

Lemma written_by_send topic evt (w : Proc.World) websocket e :
  Proc.send_fault (Proc.env w) = None →
  (websocket, e) ∈ written_by (Io.websocket_manager_send topic evt) w ↔
  e = evt ∧ (websocket ∉ Proc.broken (Proc.env w)) ∧
  ∃ p, p `prefix_of` topic ∧
       websocket ∈ websocket_manager.subscribers (Proc.registry (Proc.hub w)) p.
Proof.
  intros Hfault. unfold written_by, Io.websocket_manager_send. rewrite Hfault. simpl.
  rewrite drop_app_length.
  rewrite (elem_of_frames (Proc.broken (Proc.env w)) topic evt e
             (Proc.registry (Proc.hub w)) websocket).
  rewrite elem_of_targets. naive_solver.
Qed.

Lemma written_by_printer_changed printer typ (w : Proc.World) :
  written_by (PrinterDb.printer_changed printer typ) w =
  written_by (Io.websocket_manager_send ["printer"; Py.str (models.Printer.id printer)]
                (api_models.BuildEvent typ "printer" (Proc.clock (Proc.env w))
                   (api_models.PrinterPayload (api_models.Printer.from_db printer)))) w.
Proof.
  unfold written_by. f_equal. unfold_emitter.
  destruct (Proc.send_fault (Proc.env w)) as [e|]; simpl; [|done].
  by destruct (Py.is_Exception e).
Qed.

Lemma written_by_cost_changed cost_calc typ (w : Proc.World) :
  written_by (CostDb.cost_changed cost_calc typ) w =
  written_by (Io.websocket_manager_send
                ["cost"; Py.str (models.CostCalculation.id (models.CostCalculation.row cost_calc))]
                (api_models.BuildEvent typ "cost" (Proc.clock (Proc.env w))
                   (api_models.CostPayload
                      (api_models.CostCalculation.from_db cost_calc
                         (api_models.Printer.from_db <$> models.CostCalculation.printer cost_calc)
                         (api_models.Filament.from_db <$>
                            models.CostCalculation.filament cost_calc))))) w.
Proof.
  unfold written_by. f_equal. unfold_emitter.
  destruct (Proc.send_fault (Proc.env w)) as [e|]; simpl; [|done].
  by destruct (Py.is_Exception e).
Qed.

(** X19. Who receives the event of a change, when [send] does not raise and
    the stream of the websocket is not broken.  A websocket served by
    [notify] under the path text [s] receives the event of a changed printer
    exactly when [s] is the decimal text of the id of that printer: the
    event of one printer never reaches the listener of another, and a
    listener whose path text is no decimal text of an integer, such as
    [007], never receives anything.  The same holds for cost calculations,
    the listeners of [notify_any] receive every event of their resource,
    and no event of one resource reaches a listener of the other. *)
Theorem events_reach_their_listeners (w : Proc.World) (websocket : nat) (s : string)
    (printer : models.Printer.t) (cost_calc : models.CostCalculation.obj)
    (typ : api_models.EventType) :
  Proc.send_fault (Proc.env w) = None → (websocket ∉ Proc.broken (Proc.env w)) →
  let printer_frames := written_by (PrinterDb.printer_changed printer typ) w in
  let cost_frames := written_by (CostDb.cost_changed cost_calc typ) w in
  let cost_id := models.CostCalculation.id (models.CostCalculation.row cost_calc) in
  (listening ["printer"; s] websocket w →
   ((∃ e, (websocket, e) ∈ printer_frames) ↔ s = Py.str (models.Printer.id printer)) ∧
   (∀ k, s = Py.str k →
         (∃ e, (websocket, e) ∈ printer_frames) ↔ k = models.Printer.id printer) ∧
   (¬ ∃ e, (websocket, e) ∈ cost_frames)) ∧
  (listening ["cost"; s] websocket w →
   ((∃ e, (websocket, e) ∈ cost_frames) ↔ s = Py.str cost_id) ∧
   (∀ k, s = Py.str k → (∃ e, (websocket, e) ∈ cost_frames) ↔ k = cost_id) ∧
   (¬ ∃ e, (websocket, e) ∈ printer_frames)) ∧
  (listening ["printer"] websocket w →
   (∃ e, (websocket, e) ∈ printer_frames) ∧ ¬ ∃ e, (websocket, e) ∈ cost_frames) ∧
  (listening ["cost"] websocket w →
   (∃ e, (websocket, e) ∈ cost_frames) ∧ ¬ ∃ e, (websocket, e) ∈ printer_frames).
Proof.
  intros Hfault Hhealthy. cbv zeta.
  rewrite written_by_printer_changed, written_by_cost_changed.
  assert (∀ topic T evt,
            listening T websocket w →
            (∃ e, (websocket, e) ∈ written_by (Io.websocket_manager_send topic evt) w) ↔
            T `prefix_of` topic) as Hreach.
  { intros topic T evt Hlisten. pose proof (listening_subscribers _ _ _ Hlisten) as Hsubs.
    split.
    - intros (e & He). apply written_by_send in He as (_ & _ & p & Hp & Hin); [|done].
      apply Hsubs in Hin as ->. done.
    - intros Hprefix. exists evt. apply written_by_send; [done|].
      split; [done|]. split; [done|]. exists T. split; [done|]. by apply Hsubs. }
  split; [|split; [|split]]; intros Hlisten;
    pose proof (λ topic evt, Hreach topic _ evt Hlisten) as Hr; clear Hreach.
  - split; [rewrite Hr, prefix_of_pair; naive_solver|].
    split; [|rewrite Hr, prefix_of_pair; naive_solver].
    intros k ->. rewrite Hr, prefix_of_pair.
    split; [intros [_ Heq]; by apply str_inj|by intros ->].
  - split; [rewrite Hr, prefix_of_pair; naive_solver|].
    split; [|rewrite Hr, prefix_of_pair; naive_solver].
    intros k ->. rewrite Hr, prefix_of_pair.
    split; [intros [_ Heq]; by apply str_inj|by intros ->].
  - rewrite !Hr. split; [by eexists [_]|]. intros [k Hk]. simpl in Hk. by injection Hk.
  - rewrite !Hr. split; [by eexists [_]|]. intros [k Hk]. simpl in Hk. by injection Hk.
Qed.

Lemma events_reach_their_listeners_witness :
  let w := Proc.set_hub
             (Proc.BuildHub (websocket_manager.connect ["printer"; "007"] 7 ∅) [] [])
             Sample.world in
  ¬ ∃ e, (7%nat, e) ∈ written_by
           (PrinterDb.printer_changed (models.Printer.Build 7 0 "Mk4" None None None)
              api_models.UPDATED) w.
Proof.
  intros w.
  destruct (events_reach_their_listeners w 7 "007"
              (models.Printer.Build 7 0 "Mk4" None None None)
              (models.CostCalculation.Obj (Sample.blank 1 None None) None None)
              api_models.UPDATED eq_refl) as [Hprinter _].
  { by_compute. }
  destruct Hprinter as (Hiff & _).
  { exists ∅, []. split; [|reflexivity]. intros [t Ht]. unfold websocket_manager.subscribers in Ht.
    rewrite lookup_empty in Ht. set_solver. }
  rewrite Hiff. discriminate.
Defined.

(** ** Sessions and the registry *)

Lemma heartbeat_empty_texts (turns : list Session.turn) :
  Forall (λ t, ∃ send_json, t = Session.ReceiveText EmptyString send_json) turns →
  Session.heartbeat turns = None.
Proof.
  induction 1 as [|t turns [send_json ->] _ IH]; [done|]. simpl. by repeat case_decide.
Qed.

(** X20. A websocket handler touches nothing but its own subscription:
    whatever happens in it, the subscriptions of every other websocket, and
    those of its own websocket under every other topic, are after it what
    they were before.  When [accept] raises, the exception leaves the handler
    and the registry is untouched.  The handler is still serving exactly
    when [accept] returned and no await of the loop has raised, and it is
    then subscribed; texts that are empty are not answered, so that a peer
    sending only empty texts keeps the session serving whatever the state
    of its stream for sending. *)
Theorem session_touches_only_its_entry (topic : websocket_manager.Topic) (websocket : nat)
    (accept : option Py.exn) (turns : list Session.turn) (reg : gmap (list string) (gset nat)) :
  let out := Session.serve topic websocket accept turns reg in
  (∀ t ws, t ≠ topic ∨ ws ≠ websocket →
           ws ∈ websocket_manager.subscribers out.2 t ↔
           ws ∈ websocket_manager.subscribers reg t) ∧
  (∀ e, accept = Some e → out = (Session.Propagated e, reg)) ∧
  (out.1 = Session.Serving ↔ accept = None ∧ Session.heartbeat turns = None) ∧
  (out.1 = Session.Serving → websocket ∈ websocket_manager.subscribers out.2 topic) ∧
  (accept = None →
   Forall (λ t, ∃ send_json, t = Session.ReceiveText EmptyString send_json) turns →
   out.1 = Session.Serving).
Proof.
  cbv zeta. unfold Session.serve. split; [|split; [|split; [|split]]].
  - intros t ws Hother. destruct accept as [e|]; [done|].
    destruct (Session.heartbeat turns) as [e|]; simpl;
      [destruct (Py.is_WebSocketDisconnect e); simpl|];
      rewrite ?subscribers_disconnect, ?subscribers_connect;
      repeat case_decide; set_solver.
  - by intros e ->.
  - destruct accept as [e|]; [naive_solver|].
    destruct (Session.heartbeat turns) as [e|]; [|naive_solver].
    destruct (Py.is_WebSocketDisconnect e); naive_solver.
  - destruct accept as [e|]; [done|].
    destruct (Session.heartbeat turns) as [e|];
      [by destruct (Py.is_WebSocketDisconnect e)|].
    intros _. simpl. rewrite subscribers_connect, decide_True by done. set_solver.
  - intros -> Hempty. by rewrite heartbeat_empty_texts.
Qed.

Lemma session_touches_only_its_entry_witness :
  let reg := websocket_manager.connect ["printer"] 1 ∅ in
  let out := CostApi.notify 2 "5" None
               [Session.ReceiveText "" (Some (Py.RuntimeError "closed"));
                Session.SleepRaises (Py.WebSocketDisconnect 1006)] reg in
  out.1 = Session.Returned ∧
  (1%nat ∈ websocket_manager.subscribers out.2 ["printer"] ↔
   1%nat ∈ websocket_manager.subscribers reg ["printer"]).
Proof.
  intros reg out. split; [reflexivity|].
  destruct (session_touches_only_its_entry ["cost"; "5"] 2 None
              [Session.ReceiveText "" (Some (Py.RuntimeError "closed"));
               Session.SleepRaises (Py.WebSocketDisconnect 1006)] reg) as [Hother _].
  apply (Hother ["printer"] 1%nat). left. discriminate.
Defined.

(** ** Migrations *)





Lemma add_column_fresh table_name c (s : gmap string alembic.Table) t :
  s !! table_name = Some t →
  (alembic.column_name c ∉ alembic.column_name <$> alembic.columns t) →
  alembic.add_column table_name c s =
  inr (<[table_name := alembic.BuildTable (alembic.columns t ++ [c]) (alembic.constraints t)
                         (alembic.indexes t)]> s).
Proof. unfold alembic.add_column. intros -> Hfresh. by rewrite decide_False. Qed.

Lemma drop_column_present table_name name (s : gmap string alembic.Table) t :
  s !! table_name = Some t → name ∈ alembic.column_name <$> alembic.columns t →
  alembic.drop_column table_name name s =
  inr (<[table_name := alembic.BuildTable
                         (filter (λ c, alembic.column_name c ≠ name) (alembic.columns t))
                         (alembic.constraints t) (alembic.indexes t)]> s).
Proof. unfold alembic.drop_column. intros -> Hin. by rewrite decide_True. Qed.

Lemma run_cons op ops (s s' : gmap string alembic.Table) :
  op s = inr s' → alembic.run (op :: ops) s = alembic.run ops s'.
Proof. unfold alembic.run. simpl. by intros ->. Qed.

Lemma run_fails op ops (s : gmap string alembic.Table) e :
  op s = inl e → alembic.run (op :: ops) s = inl e.
Proof.
  unfold alembic.run. simpl. intros ->. by induction ops.
Qed.

Lemma filter_column_absent name (cols : list alembic.Column) :
  (name ∉ alembic.column_name <$> cols) →
  filter (λ c, alembic.column_name c ≠ name) cols = cols.
Proof.
  induction cols as [|c cols IH]; [done|].
  rewrite fmap_cons, not_elem_of_cons. intros [Hne Hrest].
  rewrite filter_cons_True by done. by rewrite IH.
Qed.

(** Lookups in a schema built from inserts and deletes. *)
Ltac map_lookups :=
  repeat first [rewrite lookup_insert | rewrite lookup_delete];
  repeat case_decide; simplify_eq; try done; try congruence.





Lemma upgrade_form_fields (s : gmap string alembic.Table) (t : alembic.Table) :
  s !! "cost_calculation" = Some t →
  Forall (λ c, alembic.column_name c ∉ alembic.column_name <$> alembic.columns t)
    form_columns →
  Migration_8c3c0a0b8f6c.upgrade s = inr (<["cost_calculation" := with_form_columns t]> s).
Proof.
  intros Ht Hfresh.
  apply Forall_cons in Hfresh as [H1 Hfresh]. apply Forall_cons in Hfresh as [H2 Hfresh].
  apply Forall_cons in Hfresh as [H3 _]. simpl in H1, H2, H3.
  destruct t as [cols cons idx]. simpl in H1, H2, H3.
  set (c1 := alembic.BuildColumn "energy_cost_per_kwh" alembic.Float true None).
  set (c2 := alembic.BuildColumn "labor_cost_per_hour" alembic.Float true None).
  set (c3 := alembic.BuildColumn "item_names" (alembic.String_ 512) true None).
  set (s1 := <["cost_calculation" := alembic.BuildTable (cols ++ [c1]) cons idx]> s).
  set (s2 := <["cost_calculation" := alembic.BuildTable ((cols ++ [c1]) ++ [c2]) cons idx]> s).
  unfold Migration_8c3c0a0b8f6c.upgrade.
  rewrite (run_cons _ _ s s1) by (by rewrite (add_column_fresh _ _ s _ Ht)).
  rewrite (run_cons _ _ s1 s2).
  2: { rewrite (add_column_fresh _ _ s1 (alembic.BuildTable (cols ++ [c1]) cons idx));
         [|unfold s1; map_lookups|].
       - f_equal. apply map_eq. intros n. unfold s2, s1. map_lookups.
       - simpl. rewrite fmap_app. set_solver. }
  rewrite (run_cons _ _ s2 (<["cost_calculation" :=
             with_form_columns (alembic.BuildTable cols cons idx)]> s)); [done|].
  rewrite (add_column_fresh _ _ s2 (alembic.BuildTable ((cols ++ [c1]) ++ [c2]) cons idx));
    [|unfold s2; map_lookups|].
  - f_equal. apply map_eq. intros n. unfold s2, with_form_columns, form_columns. simpl.
    rewrite <- !app_assoc. simpl. map_lookups.
  - simpl. rewrite !fmap_app. set_solver.
Qed.

Lemma downgrade_form_fields (s : gmap string alembic.Table) (t : alembic.Table) :
  s !! "cost_calculation" = Some t →
  Forall (λ c, alembic.column_name c ∉ alembic.column_name <$> alembic.columns t)
    form_columns →
  Migration_8c3c0a0b8f6c.downgrade (<["cost_calculation" := with_form_columns t]> s) = inr s.
Proof.
  intros Ht Hfresh.
  apply Forall_cons in Hfresh as [H1 Hfresh]. apply Forall_cons in Hfresh as [H2 Hfresh].
  apply Forall_cons in Hfresh as [H3 _]. simpl in H1, H2, H3.
  destruct t as [cols cons idx]. simpl in H1, H2, H3.
  set (c1 := alembic.BuildColumn "energy_cost_per_kwh" alembic.Float true None).
  set (c2 := alembic.BuildColumn "labor_cost_per_hour" alembic.Float true None).
  set (c3 := alembic.BuildColumn "item_names" (alembic.String_ 512) true None).
  set (s3 := <["cost_calculation" := with_form_columns (alembic.BuildTable cols cons idx)]> s).
  set (s2 := <["cost_calculation" := alembic.BuildTable (cols ++ [c1; c2]) cons idx]> s).
  set (s1 := <["cost_calculation" := alembic.BuildTable (cols ++ [c1]) cons idx]> s).
  unfold Migration_8c3c0a0b8f6c.downgrade.
  rewrite (run_cons _ _ s3 s2).
  2: { rewrite (drop_column_present _ _ s3
                  (with_form_columns (alembic.BuildTable cols cons idx)));
         [|unfold s3; map_lookups|].
       - f_equal. apply map_eq. intros n. unfold s3, s2. map_lookups. f_equal.
         unfold with_form_columns, form_columns. simpl.
         rewrite filter_app, filter_column_absent by done. done.
       - unfold with_form_columns, form_columns. simpl. rewrite fmap_app. set_solver. }
  rewrite (run_cons _ _ s2 s1).
  2: { rewrite (drop_column_present _ _ s2 (alembic.BuildTable (cols ++ [c1; c2]) cons idx));
         [|unfold s2; map_lookups|].
       - f_equal. apply map_eq. intros n. unfold s2, s1. map_lookups. f_equal. simpl.
         rewrite filter_app, filter_column_absent by done. done.
       - simpl. rewrite fmap_app. set_solver. }
  rewrite (run_cons _ _ s1 s); [done|].
  rewrite (drop_column_present _ _ s1 (alembic.BuildTable (cols ++ [c1]) cons idx));
    [|unfold s1; map_lookups|].
  - f_equal. apply map_eq. intros n. unfold s1. map_lookups. simpl.
    rewrite filter_app, filter_column_absent by done. simpl. by rewrite app_nil_r.
  - simpl. rewrite fmap_app. set_solver.
Qed.

(** X22. Migration 8c3c0a0b8f6c on a schema whose table [cost_calculation]
    has none of the columns [energy_cost_per_kwh], [labor_cost_per_hour]
    and [item_names]: the upgrade succeeds, appends the three columns in
    this order and touches nothing else; the downgrade of the result gives
    back the schema the upgrade started from; a second upgrade is refused
    because the first column exists, and a downgrade of the schema the
    upgrade started from is refused because [item_names] is missing. *)
Theorem migration_form_fields (s : gmap string alembic.Table) (t : alembic.Table) :
  s !! "cost_calculation" = Some t →
  Forall (λ c, alembic.column_name c ∉ alembic.column_name <$> alembic.columns t)
    form_columns →
  ∃ s',
    Migration_8c3c0a0b8f6c.upgrade s = inr s' ∧
    s' !! "cost_calculation" = Some (with_form_columns t) ∧
    (∀ n, n ≠ "cost_calculation" → s' !! n = s !! n) ∧
    Migration_8c3c0a0b8f6c.downgrade s' = inr s ∧
    Migration_8c3c0a0b8f6c.upgrade s' = inl (alembic.DuplicateColumn "energy_cost_per_kwh") ∧
    Migration_8c3c0a0b8f6c.downgrade s = inl (alembic.NoSuchColumn "item_names").
Proof.
  intros Ht Hfresh. exists (<["cost_calculation" := with_form_columns t]> s).
  split; [by apply upgrade_form_fields|]. split; [map_lookups|].
  split; [intros n Hn; map_lookups|]. split; [by apply downgrade_form_fields|].
  apply Forall_cons in Hfresh as [_ Hfresh]. apply Forall_cons in Hfresh as [_ Hfresh].
  apply Forall_cons in Hfresh as [H3 _]. simpl in H3. split.
  - apply run_fails. unfold alembic.add_column. rewrite lookup_insert_eq.
    rewrite decide_True; [done|]. unfold with_form_columns, form_columns. simpl.
    rewrite fmap_app. set_solver.
  - apply run_fails. unfold alembic.drop_column. rewrite Ht. by rewrite decide_False.
Qed.

Lemma migration_form_fields_witness :
  let s : gmap string alembic.Table := {[ "cost_calculation" := cost_calculation_schema ]} in
  ∃ s', Migration_8c3c0a0b8f6c.upgrade s = inr s' ∧
        Migration_8c3c0a0b8f6c.downgrade s' = inr s.
Proof.
  intros s.
  destruct (migration_form_fields s cost_calculation_schema) as (s' & Hup & _ & _ & Hdown & _).
  - reflexivity.
  - by_compute.
  - exists s'. split; [exact Hup|exact Hdown].
Defined.



(** ** The responses of the find endpoints *)

(** X24. What the find endpoints answer.  They return exactly when the
    sort and id parameters parse and [find] of the database layer returns,
    and the response is then made of that result: status 200, as content
    the snapshots of the items that the database layer returned, one per
    item and in its order, and a single header [x-total-count] with the
    decimal text of its total count, which parses back to it.  The items
    have pairwise different ids, each is a stored row, their number is at
    most the total count, and at most the limit when one is given that is
    not negative.  The snapshots of cost calculations carry neither printer
    nor filament. *)
Theorem find_endpoints_respond (w : Proc.World) :
  (∀ name sort limit offset response,
     (PrinterApi.find name sort limit offset w).1 = Py.Ok response ↔
     ∃ sort_by items total_count,
       PrinterApi.parse_sort sort = Py.Ok sort_by ∧
       (PrinterDb.find name (Some sort_by) limit offset w).1 = Py.Ok (items, total_count) ∧
       response =
         api_models.BuildResponse 200
           (api_models.Items
              ((λ item, api_models.PrinterPayload (api_models.Printer.from_db item))
                 <$> items))
           [("x-total-count", Py.str (Z.of_nat total_count))]) ∧
  (∀ name sort_by limit offset items total_count,
     (PrinterDb.find name sort_by limit offset w).1 = Py.Ok (items, total_count) →
     Py.int (Py.str (Z.of_nat total_count)) = Py.Ok (Z.of_nat total_count) ∧
     NoDup (models.Printer.id <$> items) ∧
     (∀ item, item ∈ items → item ∈ Proc.printer_table (Proc.db w)) ∧
     (length items ≤ total_count)%nat ∧
     (∀ n, limit = Some n → 0 ≤ n → (length items ≤ Z.to_nat n)%nat)) ∧
  (∀ parse printer_id filament_id sort limit offset response,
     (CostApi.find parse printer_id filament_id sort limit offset w).1 = Py.Ok response ↔
     ∃ sort_by printer_ids filament_ids items total_count,
       PrinterApi.parse_sort sort = Py.Ok sort_by ∧
       CostApi._parse_int_csv printer_id = Py.Ok printer_ids ∧
       CostApi._parse_int_csv filament_id = Py.Ok filament_ids ∧
       (CostDb.find parse (utils.Many <$> printer_ids) (utils.Many <$> filament_ids)
          (Some sort_by) limit offset w).1 = Py.Ok (items, total_count) ∧
       response =
         api_models.BuildResponse 200
           (api_models.Items
              ((λ item, api_models.CostPayload
                          (api_models.CostCalculation.from_db item None None)) <$> items))
           [("x-total-count", Py.str (Z.of_nat total_count))]) ∧
  (∀ parse printer_id filament_id sort_by limit offset items total_count,
     (CostDb.find parse printer_id filament_id sort_by limit offset w).1 =
       Py.Ok (items, total_count) →
     Py.int (Py.str (Z.of_nat total_count)) = Py.Ok (Z.of_nat total_count) ∧
     NoDup ((λ c, models.CostCalculation.id (models.CostCalculation.row c)) <$> items) ∧
     (∀ item, item ∈ items →
              models.CostCalculation.row item ∈ Proc.cost_table (Proc.db w)) ∧
     (length items ≤ total_count)%nat ∧
     (∀ n, limit = Some n → 0 ≤ n → (length items ≤ Z.to_nat n)%nat)).
Proof.
  split; [|split; [|split]].
  - intros name sort limit offset response.
    unfold PrinterApi.find, Proc.bind, Proc.lift, Proc.ret. split.
    + destruct (PrinterApi.parse_sort sort) as [sort_by|e]; [|done].
      destruct (PrinterDb.find name (Some sort_by) limit offset w) as [[[items total]|e] w']
        eqn:Hfind; [|done].
      cbn [fst snd]. intros [= <-]. exists sort_by, items, total. by rewrite Hfind.
    + intros (sort_by & items & total & -> & Hfind & ->).
      by destruct (PrinterDb.find name (Some sort_by) limit offset w) as [[found|e] w'];
        simplify_eq/=.
  - intros name sort_by limit offset items total Hrun.
    unfold PrinterDb.find in Hrun.
    destruct (find_page_items _ _ _ _ _ _ _ _ _ _ Hrun) as (Hnd & Hin & Hlimit & _ & Hlen).
    split; [apply int_str|]. split; [done|]. split; [|split; [done|]].
    + intros item Hitem. specialize (Hin item Hitem). unfold utils.matching in Hin.
      by apply list_elem_of_filter in Hin as [_ ?].
    + intros n Hn. by destruct (Hlimit n Hn).
  - intros parse printer_id filament_id sort limit offset response.
    unfold CostApi.find, Proc.bind, Proc.lift, Proc.ret. split.
    + destruct (PrinterApi.parse_sort sort) as [sort_by|e]; [|done].
      destruct (CostApi._parse_int_csv printer_id) as [printer_ids|e]; [|done].
      destruct (CostApi._parse_int_csv filament_id) as [filament_ids|e]; [|done].
      destruct (CostDb.find parse _ _ (Some sort_by) limit offset w)
        as [[[items total]|e] w'] eqn:Hfind; [|done].
      cbn [fst snd]. intros [= <-]. exists sort_by, printer_ids, filament_ids, items, total.
      by rewrite Hfind.
    + intros (sort_by & printer_ids & filament_ids & items & total & -> & -> & -> & Hfind & ->).
      by destruct (CostDb.find parse _ _ (Some sort_by) limit offset w) as [[found|e] w'];
        simplify_eq/=.
  - intros parse printer_id filament_id sort_by limit offset items total Hrun.
    unfold CostDb.find in Hrun.
    destruct (find_page_items _ _ _ _ _ _ _ _ _ _ Hrun) as (Hnd & Hin & Hlimit & _ & Hlen).
    split; [apply int_str|]. split; [done|]. split; [|split; [done|]].
    + intros item Hitem. specialize (Hin item Hitem). unfold utils.matching in Hin.
      apply list_elem_of_filter in Hin as [_ Hin].
      apply list_elem_of_fmap in Hin as (row & -> & Hrow). done.
    + intros n Hn. by destruct (Hlimit n Hn).
Qed.

Lemma find_endpoints_respond_witness :
  (PrinterApi.find (Some "exact") (Some "id:desc") (Some 1) 0 Sample.world).1 =
    Py.Ok (api_models.BuildResponse 200
             (api_models.Items
                ((λ item, api_models.PrinterPayload (api_models.Printer.from_db item))
                   <$> Sample.pick [1%nat]))
             [("x-total-count", "2")]) ∧
  (PrinterDb.find (Some "exact") (Some [("id", utils.DESC)]) (Some 1) 0 Sample.world).1 =
    Py.Ok (Sample.pick [1%nat], 2%nat).
Proof.
  destruct (find_endpoints_respond Sample.world) as [Hprinter _].
  split; [|reflexivity].
  apply Hprinter. exists [("id", utils.DESC)], (Sample.pick [1%nat]), 2%nat.
  split; [reflexivity|]. split; reflexivity.
Defined.

Lemma parse_int_csv_edges_witness :
  ∃ part, CostApi._parse_int_csv (Some "1,,2") = Py.Raise (Py.ValueError part).
Proof.
  destruct parse_int_csv_edges as (_ & _ & Hempty & _).
  apply (Hempty "1,,2"). by_compute.
Defined.
